(* ===== verification/_CoqProject ===== *)
-Q . S2P
Prelude.v
Host.v
Probe.v
Scanner.v
Ledger.v
Allocator.v
Sync.v
LedgerFile.v
Selection.v
Normalize.v
Pipeline.v
FolderLookup.v
Runner.v
OldAllocator.v
StreamInfo.v
SheetExport.v
Module4.v
Catalogue.v
