(* ===== verification/Prelude.v ===== *)
(** * A verification library for the concat_tool_buhp video catalogue

    The repository keeps a catalogue ("ledger", a CSV file) of video
    assets found on network shares and joins selected assets into one
    video with ffmpeg.  This development models its Python sources as
    executable Rocq definitions (stdpp strings, lists and sets; [Z] for
    Python ints; [Q] for the exact value of the decimal text that
    ffprobe prints) and proves what the code guarantees, and where it
    does not guarantee what the spec promises.

    ** The program and how its parts interact

    - [src/main/module3.py]: the allocator
      [check_and_add_next_spidey_videos] (append mode of the ledger),
      the duration probe [get_video_duration], the selection of ledger
      rows [get_list_video], the normaliser [normalize_video], the
      concatenator [concat_video] and the orchestrator [auto_concat]
      (a 6-thread pool that normalises every input, then concatenates).
    - [src/main/module4.py]: the same pipeline functions and
      [find_first_vid], a folder lookup by a digit-bounded number.
    - [src/preprocess_data/update_data.py]: the rebuild-mode
      synchroniser [sync] with [get_file_list], [build_rows],
      [ffprobe_duration_seconds], [format_mmss], [read_existing_csv].
    - [src/test.py]: an older single-step allocator.
    - [src/main/main_loop.py], [old_loop.py], [loop.py]: the task
      runner that restarts the scripts and mails errors.

    The allocator and the synchroniser both read the directory tree
    (os.walk) and probe durations, then write the ledger; the pipeline
    reads paths selected from the ledger, runs one ffmpeg normalisation
    per path on a worker pool, and joins the results with a concat
    manifest.  Every interaction with the operating system (os.walk,
    os.path.abspath, ffprobe, moviepy, getmtime, the clock, shutil.which,
    the exit code of ffmpeg) goes through the typeclass [Host.Host]: the
    components are proved against that interface, for every host.

    ** Files, in dependency order

    - [Prelude]: this header; Python's string and path primitives
      (lower, [in] on strings, isdigit, split, strip, zero-padded int
      formatting, ntpath basename/splitext/join), the stable key sort
      that models [sorted(..., key=...)], the hint database [py] and
      shared list lemmas; Python's int() on text ([py_sign],
      [int_of_str]) and pandas' column-name de-duplication ([mangle]);
      the monad [PyM] of code that prints, updates a
      store and raises (the [py_exc] exceptions, [try]/[except] as
      [py_try], [for] as [py_for]), with the lemmas [out_all] and
      [ends_with] on what a run prints.
    - [Host]: the interface to the operating system and the tools, and
      the directory tree that os.walk traverses.
    - [Probe]: Python's float(), int(), round() on probe output, the
      "M:SS" formatting of durations ([format_mmss],
      [get_video_duration], the moviepy formatting of the allocator) and
      the file age.
    - [Scanner]: os.walk and the two scans ([get_file_list] of
      update_data.py, the walk of the allocator).
    - [Ledger]: the CSV table (columns and rows with empty cells), the
      reads the allocator does (last [stt], registered paths) and
      [read_existing_csv].
    - [Allocator]: [check_and_add_next_spidey_videos] as a fold over
      the batch offsets, with its event log.
    - [Sync]: [build_rows] and [sync] (Python dict semantics of the
      de-duplication, stable sort, dense numbering).
    - [LedgerFile]: the ledger as the bytes of its file: update_data.py's
      [write_csv] (df.to_csv: csv.writer with QUOTE_MINIMAL, doubled
      quotes, "\r\n" line ends, the utf-8-sig mark) and [read_csv], the
      pd.read_csv its callers use: pandas' C tokenizer as a step function
      [step] over the bytes (the states of a quoted field, "\r\n", blank
      and whitespace-only lines) folded by [tokenize], then the frame
      ([ledger_of_records]): NA words, the dtype inference [infer]
      (int64, float64, bool, text) and one row per record.
    - [Normalize]: the command line [normalize_video] builds, its
      guards and error cases, and the encode profile it declares.
    - [Selection]: [get_list_video], the step from typed sequence
      numbers to ledger paths (the comma-separated parse, the [stt]
      lookup, the caught exceptions).
    - [Pipeline]: [concat_video]'s manifest and clean-up, and
      [auto_concat] as a step relation [pstep] of the thread pool
      (6 workers, a FIFO queue, the main thread waiting on futures in
      submission order, the shutdown on leaving the [with] block), over
      a file system that is a finite map from names to contents;
      [auto_concat_ref] is its sequential reference.
    - [FolderLookup]: [find_first_vid] of module4.py and its
      digit-bounded folder-name matcher.
    - [Runner]: the three task runners.  main_loop.py is the table
      [TASKS] of records [task] with an [enabled] flag, [run_task_once]
      (missing script, non-zero exit, other exception: mail, then
      [disable_task]), the pass over [active] as [run_active] over the
      positions of the enabled tasks, and [main_loop] with fuel;
      old_loop.py ([old_run_task_once], [old_trace]) and loop.py
      ([loop_pass], [loop_py]); [send_error_email] with [_trim] as
      [trim], and old_loop.py's own copy [old_send_error_email]; the
      module-level SMTP settings ([SMTP_HOST], [SMTP_PORT] parsed by
      int() when the module loads) and the scripts' entry points
      [main_loop_py] and [old_loop_py].  The scripts, the file test, the clock and the SMTP
      exchange are the class [RunnerHost]: [rh_run r name] is the
      outcome of running [name] in round [r].
    - [OldAllocator]: [check_and_add_next_spidey_video] of test.py, the
      one-file allocator that searches in os.walk order; it shares the
      ledger reads, the row and the write of [Ledger] and [Allocator].
    - [StreamInfo]: [print_video_info] in [PyM]: the ffprobe run and
      [json.loads] as their result (a Python value), [dict.get],
      iteration, [eval] of the rate text, [:.2f], [float()], and the
      [except] clause printing one error line.
    - [SheetExport]: [excel_to_sheet] in [PyM] over a store of
      spreadsheets (worksheets as finite maps from cells to text):
      pandas' reading of the cells and dtype rules, the header labels,
      [get_worksheet] with Python list indexing, [clear], [update].
    - [Module4]: module4.py's six functions, which are the bodies of
      module3.py's functions of the same name, as the models of those;
      its [auto_concat] as the relation between the arguments and the
      outcomes of the complete runs of the pool.
    - [Catalogue]: the ledger file across its three writers.

    ** What the theorems show

    - Ledger synchronisation (rebuild mode, [Sync]): the written ledger
      is numbered 1..N densely, sorted by lower-cased file name, has no
      duplicate path, keeps exactly the scanned videos of at least 60
      seconds with their "M:SS" durations (a refinement of the record
      [rebuild_spec]).  A later run on its own output (the host
      [Host.later_run]: same tree and probes, another clock and other
      modification times) writes the same ledger except the age column,
      which holds the new ages, and reports nothing added or removed.
      Finding: the sort is stable on the base name only, so the files of
      one name appear in os.walk order ([sync_equal_names_walk_order]);
      two walk orders of the same folders number them differently.
    - Ledger file ([LedgerFile]): [read_csv (write_csv L) = Some L] for
      every table with distinct non-blank column names, values only in
      its columns and path and duration cells holding ':' or a
      backslash, whatever commas, quotes, line breaks and leading blanks
      the cells hold; the ledger [sync] computes meets these conditions
      when the scanned paths do, so what the rebuild writes is what the
      next run and module3.py read.  The proof follows the tokenizer
      through each written field ([run_field]) and record
      ([run_record]) and the dtype inference through each column
      ([num_column], [text_column]).
    - Allocation (append mode, [Allocator]): the fold equals a filter
      over the batch offsets (functional refinement), the old rows are
      kept as a prefix, every new row has a number in last+1..last+N and
      a path not registered before the call, an offset without a match
      leaves a gap, increasing numbering is preserved.  Findings: the
      same file can be appended twice in one batch, and the number is
      matched as a substring: a file whose name holds the next number
      only as the tail of a larger one ("014" in "1014") is appended.
    - Selection ([Selection]): numbers printed with str() and joined
      by commas parse back exactly; on the ledger [sync] wrote, number k
      resolves to the path of row k, always a scanned video of at least
      60 s; a missing file or [stt] column gives [[]].  Findings: repeats
      are kept and unknown numbers silently dropped; the comment of
      [get_list_video] promises (path, duration) pairs, the code returns
      bare paths.
    - Normalisation ([Normalize]): on success the command declares, as
      ffmpeg reads its options and the [-vf] filter ([read_scale]), the
      configured width, height and frame rate, yuv420p, constant frame
      rate, AAC at 48000 Hz and the configured audio bitrate, reads its
      input and writes its output last; NVENC is
      chosen exactly when requested and nvidia-smi is found; the guards
      fail in the code's order (TypeError, missing ffmpeg, the exit
      code).  Finding: a bitrate like "1.5M" is rejected only on the
      NVENC path, while the command is assembled.
    - Pipeline ([Pipeline]): in every reachable state at most 6 jobs
      run, and min(6, n) of n jobs do run at once in some reachable
      state; every interleaving is finite (well-founded [pstep], used to
      show that a final state is reachable); a state
      with no next step has the exception and file system of the
      sequential reference, and such a state is reachable (the call
      returns).  On success the output holds the inputs in submission
      order and the manifest and intermediates are gone; when a job fails
      every queued job still runs and no intermediate is removed; when
      the concat fails, temp.txt and the intermediates stay.  The list
      temp.txt is read back by ffmpeg's concat demuxer ([concat_entries],
      the quoting of av_get_token) as the absolute paths in order when no
      path holds a single quote or a line break, which is what [joined]
      takes as the segments.  Findings: an output named
      normalized_<k>.mp4 is written and then deleted; a path with a
      single quote is written unescaped and read as another name.
    - Folder lookup ([FolderLookup]): the matcher accepts exactly the
      names containing the number with no digit right before or after
      it (the rule spec 4.3 asks of the allocator); [find_first_vid]
      returns nothing exactly when no matching folder holds a video.
    - Catalogue shape ([Catalogue]): the rebuild writes, and both
      allocators leave the file or write, a file with distinct columns
      including the four ledger columns (a well-formedness invariant
      over every writer).
    - Stream report ([StreamInfo]): [print_video_info] always returns;
      its output is the path line, then the stream lines and the
      duration, or the lines before an exception and one error line; a
      video stream with rate N/D prints an FPS within 0.005 of N/D.
      Finding: the rate "0/0" stops the report (ZeroDivisionError).
    - Spreadsheet export ([SheetExport]): on success the worksheet holds
      exactly the header and the rows from A1 and nothing else changes;
      a failed update leaves it cleared; earlier errors change nothing.
      Findings: an integer column with a blank is written as "120.0";
      the clear before the update loses the sheet when the update fails.
    - Probe ([Probe]): a duration cell is the "M:SS" of an integer
      within half a second of the clip length (round) or within one
      second below it (int), and reads back as that integer.
    - Task runners ([Runner]): one iteration of main_loop.py's while
      loop, which iterates over a list of dictionaries that
      [run_task_once] mutates, refines the abstract round [upd] (a task
      stays enabled exactly when its script exists and exits with 0);
      the loop runs forever while one enabled task stays healthy
      (liveness, for every fuel) and breaks within R+1 rounds with every
      task disabled when each fails within R rounds (termination).
      old_loop.py starts the six scripts R times in R rounds; loop.py
      runs them while only CalledProcessError occurs and ends on any
      other exception; [_trim] keeps at most 15000 + 13 characters.
      old_loop.py's copy of [send_error_email] sends the same mail as
      main_loop.py's, and both runners stop with ValueError before any
      task exactly when SMTP_PORT is set to a text int() rejects
      ([runners_port_error]).
      Findings: main_loop.py mails empty STDOUT/STDERR sections
      (capture_output=False), and disables a task on its first failure.
    - Old allocator ([OldAllocator]): one call appends at most one row,
      numbered last+1, for a walked unregistered matching video, and
      keeps increasing numbering; when the walk's first match is the
      sorted scan's, it writes what module3.py writes with batch_size 1.
      Finding: on a share with a match in a sub-folder the two versions
      append different files (test.py depends on the walk order).

    ** Modelling choices and bounds

    - Strings are Stdlib [string] (ASCII); Python's lower(), isdigit()
      and split() are modelled on ASCII, which is what the file-name
      patterns of the code use.  Paths follow ntpath (Windows): both
      separators, drive prefix in basename.
    - Python floats printed by ffprobe are modelled as the exact rational
      of their decimal text; int() truncates toward zero and round()
      rounds half to even, as Python does.
    - Every loop of the catalogue and pipeline code iterates over a
      finite list (range, file lists, futures), so no fuel is needed
      there; the thread-pool relation is proved terminating by a
      measure.  The runners' [while True] loops are the only unbounded
      ones: [main_loop], [old_trace] and [loop_py] take a number of
      rounds as fuel, and [None] (main_loop) means the fuel ran out
      with the loop still running.  The liveness theorem holds for
      every fuel and the termination theorem gives the exact fuel R+1
      that suffices, so no fixed bound is assumed.
    - [:.2f] in [StreamInfo] rounds the exact rational half to even;
      Python rounds the nearest double, which differs only within a
      double's error of a tie at the third decimal.  In [SheetExport]
      an integer of a float64 column prints as "v.0", exact for
      |v| <= 2^53.
    - Text lengths in [Runner] are byte lengths; they are Python's
      [len] for the ASCII output the scripts print.
    - The regex of [find_first_vid] is modelled for a literal number
      (the digit strings callers type); metacharacters are outside the
      model.
    - CSV text ([LedgerFile]): the text is a list of bytes, the ASCII of
      [string]; the ledger's paths are ASCII in the model.  Numbers are
      read from their decimal text; a text like "1e3", "inf" or a
      thousands separator, which pandas also reads as a number, does not
      occur in what [write_csv] writes, and is read as text by the model.
      The tokenizer's per-byte step needs no fuel: it is folded over the
      finite text.
    - Time: the clock and the modification times are fields of the
      host, fixed for one run; a later run is the host [later_run] with
      another clock and other modification times, so theorems about two
      runs ([sync_rerun_stable]) quantify over both.
    - ffmpeg: its exit code is a host field.  The concat demuxer's output
      ([joined]) takes the segments from the list of paths; the model of
      how the demuxer reads temp.txt ([concat_entries]) shows this is
      what it reads when no path holds a single quote or a line break,
      and the exit code is not tied to a misread list.
    - Not modelled: time.sleep, the text of caught exceptions (the
      error line of [print_video_info] carries the exception, not its
      message), print() output other than the runners' events, the
      allocators' messages and the two debug and export functions, the
      SMTP protocol itself (its success is a host field), JSON text
      parsing ([json.loads] is taken by its result), Excel cells holding
      fractional numbers or dates, and pandas' CSV reader beyond what the
      ledger's writers produce (exponents, inf, thousands separators,
      other encodings).  The allocators and old_loop.py write and read
      the ledger at the level of its table of cells ([Ledger]);
      [LedgerFile] shows that, for the rebuild's file, the text round trip
      is the identity on that table.
*)

From stdpp Require Export base list strings gmap pretty sorting.
From Stdlib Require Export ZArith Lia.
From Stdlib Require Import Ascii.

Declare Scope py_scope.
Delimit Scope py_scope with py.

Create HintDb py discriminated.

Local Open Scope string_scope.
Local Open Scope list_scope.

(** ** Characters *)

Definition is_digit_char (c : Ascii.ascii) : bool :=
  match Ascii.is_nat c with Some _ => true | None => false end.

(** Python's [str.isspace] on ASCII: \t \n \v \f \r (9-13), the
    separators \x1c-\x1f (28-31) and space (32). *)
Definition is_py_space (c : Ascii.ascii) : bool :=
  let n := Ascii.N_of_ascii c in
  (((9 <=? n) && (n <=? 13)) || ((28 <=? n) && (n <=? 32)))%N.

(** [c.lower()] on ASCII: A-Z to a-z, every other character unchanged. *)
Definition lower_char (c : Ascii.ascii) : Ascii.ascii :=
  let n := Ascii.N_of_ascii c in
  if ((65 <=? n) && (n <=? 90))%N then Ascii.ascii_of_N (n + 32) else c.

(** ** Python string methods *)

(** [s.lower()] *)
Fixpoint py_lower (s : string) : string :=
  match s with
  | "" => ""
  | String c r => String (lower_char c) (py_lower r)
  end.

(** [sub in s]: substring test (the empty string is in every string). *)
Fixpoint str_contains (sub s : string) : bool :=
  String.prefix sub s ||
  match s with
  | "" => false
  | String _ r => str_contains sub r
  end.

Notation "a 'in_str' b" := (str_contains a b) (at level 70) : py_scope.

(** A text that contains [c :: sub] contains [sub]. *)
Lemma str_contains_cons c sub s :
  str_contains (String c sub) s = true → str_contains sub s = true.
Proof.
  induction s as [|c' s IH]; simpl; [done|].
  intros [Hp|Hs]%orb_true_iff; apply orb_true_iff; right; [|by apply IH].
  destruct (Ascii.ascii_dec c c'); [|done]. destruct s; cbn [str_contains]; by rewrite Hp.
Qed.

(** [s.endswith(suf)] *)
Definition str_endswith (s suf : string) : bool :=
  let n := String.length s in
  let m := String.length suf in
  (m <=? n)%nat && String.eqb (String.substring (n - m) m s) suf.

(** [s.isdigit()]: non-empty and every character a digit. *)
Fixpoint all_digits (s : string) : bool :=
  match s with
  | "" => true
  | String c r => is_digit_char c && all_digits r
  end.
Definition py_isdigit (s : string) : bool :=
  negb (String.eqb s "") && all_digits s.

(** The value of a string of decimal digits, as [int(s)] computes it. *)
Fixpoint digits_value_acc (acc : Z) (s : string) : Z :=
  match s with
  | "" => acc
  | String c r =>
      digits_value_acc (10 * acc + Z.of_nat (default 0%nat (Ascii.is_nat c))) r
  end.
Definition digits_value (s : string) : Z := digits_value_acc 0 s.

(** [s.lstrip()] and [s.rstrip()] (whitespace), and [s.strip()]. *)
Fixpoint py_lstrip (s : string) : string :=
  match s with
  | "" => ""
  | String c r => if is_py_space c then py_lstrip r else s
  end.
Definition py_rstrip (s : string) : string :=
  String.rev (py_lstrip (String.rev s)).
Definition py_strip (s : string) : string := py_rstrip (py_lstrip s).

(** The sign of a numeric literal: a leading "-" or "+" and the rest. *)
Definition py_sign (t : string) : Z * string :=
  match t with
  | String c r =>
      if Ascii.eqb c "-" then ((-1)%Z, r) else if Ascii.eqb c "+" then (1%Z, r) else (1%Z, t)
  | "" => (1%Z, t)
  end.

(** [int(s)] of a string: an optional sign and decimal digits between
    whitespace (the underscores Python allows between digits are outside
    the model); [None] is the [ValueError]. *)
Definition int_of_str (s : string) : option Z :=
  let '(sgn, u) := py_sign (py_strip s) in
  if py_isdigit u then Some (sgn * digits_value u)%Z else None.

(** pandas' renaming of repeated column labels ([pd.read_csv],
    [pd.read_excel]): the [k]-th repeat of "a" is "a.k". *)
Fixpoint mangle_go (seen : list string) (ls : list string) : list string :=
  match ls with
  | [] => []
  | l :: ls' =>
      let k := length (filter (String.eqb l) seen) in
      (if (k =? 0)%nat then l else l +:+ "." +:+ pretty k) :: mangle_go (l :: seen) ls'
  end.

Definition mangle (ls : list string) : list string := mangle_go [] ls.

(** [s.split()] with no separator: the maximal runs of non-space
    characters.  [cur] is the word being read, reversed. *)
Fixpoint py_split_go (cur : string) (s : string) : list string :=
  match s with
  | "" => if String.eqb cur "" then [] else [String.rev cur]
  | String c r =>
      if is_py_space c
      then (if String.eqb cur "" then [] else [String.rev cur]) ++ py_split_go "" r
      else py_split_go (String c cur) r
  end.
Definition py_split (s : string) : list string := py_split_go "" s.

(** [str(n)] of a Python int. *)
Definition py_str_int (z : Z) : string := pretty z.

Fixpoint zeros (n : nat) : string :=
  match n with O => "" | S k => String "0"%char (zeros k) end.

(** [f"{z:0wd}"]: sign-aware zero padding to width [w] (Python puts the
    sign first and counts it in the width). *)
Definition zfill_int (w : nat) (z : Z) : string :=
  let digits := pretty (Z.to_N (Z.abs z)) in
  let sign := if (z <? 0)%Z then "-" else "" in
  sign +:+ zeros (w - String.length sign - String.length digits) +:+ digits.

(** ** Paths (ntpath, the module os.path is on Windows) *)

Definition is_sep (c : Ascii.ascii) : bool :=
  Ascii.eqb c "/"%char || Ascii.eqb c "\"%char.

Fixpoint has_sep (s : string) : bool :=
  match s with
  | "" => false
  | String c r => is_sep c || has_sep r
  end.

(** The part after the last separator. *)
Fixpoint last_component (p : string) : string :=
  match p with
  | "" => ""
  | String c r =>
      if has_sep r then last_component r else if is_sep c then r else p
  end.

(** [os.path.basename]: [splitdrive] removes a two-character drive
    ["X:"] first, then the part after the last separator is kept. *)
Definition basename (p : string) : string :=
  match p with
  | String _ (String ":"%char r) => last_component r
  | _ => last_component p
  end.

Fixpoint has_dot (s : string) : bool :=
  match s with
  | "" => false
  | String c r => Ascii.eqb c "."%char || has_dot r
  end.

(** The extension of a file name as [genericpath._splitext] computes it:
    from the last dot, provided a character other than a dot precedes it
    in the name ([seen]). *)
Fixpoint ext_go (seen : bool) (s : string) : string :=
  match s with
  | "" => ""
  | String c r =>
      if Ascii.eqb c "."%char && seen && negb (has_dot r) then s
      else ext_go (seen || negb (Ascii.eqb c "."%char)) r
  end.

(** [os.path.splitext(p)[1]] *)
Definition splitext_ext (p : string) : string := ext_go false (last_component p).

(** [os.path.join(a, b)] for a relative [b] without drive: a separator
    is inserted unless [a] is empty or already ends with one. *)
Definition path_join (a b : string) : string :=
  if String.eqb a "" then b
  else if str_endswith a "\" || str_endswith a "/" then a +:+ b
  else a +:+ "\" +:+ b.

Infix "</>" := path_join (at level 60, right associativity) : py_scope.

(** ** [sorted(xs, key=k)]: a stable sort on the string key

    Python compares the keys with [<] only and keeps equal keys in input
    order.  Insertion from the right puts each element before every later
    element with a key that is not smaller. *)

Definition str_lt (a b : string) : bool :=
  match String.compare a b with Lt => true | _ => false end.

Section SortBy.
Context {A : Type} (key : A → string).

Fixpoint insert_by (x : A) (l : list A) : list A :=
  match l with
  | [] => [x]
  | y :: ys => if str_lt (key y) (key x) then y :: insert_by x ys else x :: y :: ys
  end.

Fixpoint sort_by (l : list A) : list A :=
  match l with
  | [] => []
  | x :: xs => insert_by x (sort_by xs)
  end.
End SortBy.

(** ** Lemmas on the key sort *)

Lemma str_lt_asym a b : str_lt a b = true → str_lt b a = false.
Proof.
  unfold str_lt. rewrite (String.compare_antisym b a).
  by destruct (String.compare a b).
Qed.

Lemma str_lt_irrefl a : str_lt a a = false.
Proof.
  unfold str_lt. destruct (String.compare a a) eqn:E; try done.
  all: pose proof (String.compare_antisym a a) as H; rewrite E in H; discriminate.
Qed.

Section SortByLemmas.
Context {A : Type} (key : A → string).

(** [a] may precede [b] in Python's sorted output. *)
Definition key_le (a b : A) : Prop := str_lt (key b) (key a) = false.

Lemma insert_by_perm x l : insert_by key x l ≡ₚ x :: l.
Proof.
  induction l as [|y ys IH]; simpl; [done|].
  destruct (str_lt (key y) (key x)); [|done].
  rewrite IH. by constructor.
Qed.

Lemma sort_by_perm l : sort_by key l ≡ₚ l.
Proof.
  induction l as [|x xs IH]; simpl; [done|].
  by rewrite insert_by_perm, IH.
Qed.

Lemma insert_by_sorted x l : Sorted key_le l → Sorted key_le (insert_by key x l).
Proof.
  unfold key_le. induction 1 as [|y ys Hs IH Hhd]; simpl; [by repeat constructor|].
  destruct (str_lt (key y) (key x)) eqn:E.
  - constructor; [done|].
    destruct ys as [|z zs]; simpl in *; [constructor; by apply str_lt_asym|].
    inversion Hhd; subst.
    destruct (str_lt (key z) (key x)); constructor; [done|by apply str_lt_asym].
  - by repeat constructor.
Qed.

Lemma sort_by_sorted l : Sorted key_le (sort_by key l).
Proof. induction l; simpl; [constructor|]. by apply insert_by_sorted. Qed.

(** Sorting a sorted list changes nothing. *)
Lemma sort_by_sorted_id l : Sorted key_le l → sort_by key l = l.
Proof.
  induction 1 as [|x xs Hs IH Hhd]; simpl; [done|]. rewrite IH.
  destruct Hhd as [|y ys Hy]; simpl; [done|]. unfold key_le in Hy. by rewrite Hy.
Qed.

Lemma sort_by_idem l : sort_by key (sort_by key l) = sort_by key l.
Proof. apply sort_by_sorted_id, sort_by_sorted. Qed.

(** Stability: the elements placed before [x] have a smaller key, so
    among the elements of one key the insertion keeps the order. *)
Lemma insert_by_filter x l k :
  filter (λ y, key y = k) (insert_by key x l) = filter (λ y, key y = k) (x :: l).
Proof.
  induction l as [|y ys IH]; simpl; [done|].
  destruct (str_lt (key y) (key x)) eqn:E; [|done].
  rewrite !filter_cons, IH, filter_cons.
  repeat case_decide; try done.
  match goal with H1 : key y = k, H2 : key x = k |- _ => rewrite H1, H2, str_lt_irrefl in E end.
  discriminate.
Qed.

(** Sorting commutes with a map that keeps the keys. *)
Lemma insert_by_map (f : A → A) x l :
  (∀ y, key (f y) = key y) → insert_by key (f x) (map f l) = map f (insert_by key x l).
Proof.
  intros Hf. induction l as [|y ys IH]; simpl; [done|]. rewrite !Hf.
  destruct (str_lt (key y) (key x)); simpl; by rewrite ?IH.
Qed.

Lemma sort_by_map (f : A → A) l :
  (∀ y, key (f y) = key y) → sort_by key (map f l) = map f (sort_by key l).
Proof.
  intros Hf. induction l as [|x xs IH]; simpl; [done|]. by rewrite IH, insert_by_map.
Qed.

(** [sorted] is stable: the elements of one key keep their input order. *)
Lemma sort_by_filter l k :
  filter (λ y, key y = k) (sort_by key l) = filter (λ y, key y = k) l.
Proof.
  induction l as [|x xs IH]; simpl; [done|].
  by rewrite insert_by_filter, !filter_cons, IH.
Qed.
End SortByLemmas.

#[export] Hint Resolve sort_by_perm sort_by_sorted str_lt_irrefl : py.



(** ** Shared list lemmas *)

(** Two elements of [l] with the same image under [f] are equal when
    the images of [l] have no duplicate. *)
Lemma NoDup_omap_inj {A B} (f : A → option B) (l : list A) x y z :
  NoDup (omap f l) → x ∈ l → y ∈ l → f x = Some z → f y = Some z → x = y.
Proof.
  induction l as [|a l IH]; [set_solver|]. simpl.
  intros Hnd Hx Hy Hfx Hfy.
  assert (∀ w, w ∈ l → f w = Some z → z ∈ omap f l)
    as Hin by (intros; apply list_elem_of_omap; eauto).
  destruct (f a) as [b|] eqn:Ha.
  - apply NoDup_cons in Hnd as [Hb Hnd].
    apply elem_of_cons in Hx as [->|Hx], Hy as [->|Hy]; try done.
    + simplify_eq. by destruct Hb; eauto.
    + simplify_eq. by destruct Hb; eauto.
    + eauto.
  - apply elem_of_cons in Hx as [->|Hx], Hy as [->|Hy]; congruence || eauto.
Qed.

(** The last element of a strictly sorted list bounds all of it. *)
Lemma StronglySorted_lt_last (l : list Z) x y :
  StronglySorted Z.lt (l ++ [x]) → y ∈ l ++ [x] → (y <= x)%Z.
Proof.
  intros Hs Hy. apply elem_of_app in Hy as [Hy|Hy%list_elem_of_singleton].
  - assert (x ∈ [x]) as Hx by set_solver.
    pose proof (StronglySorted_app_1_elem_of _ _ _ y x Hs Hy Hx). lia.
  - subst. lia.
Qed.

(** Distinct option images give distinct values. *)
Lemma NoDup_map_omap {A B} (f : A → option B) (l : list A) :
  NoDup (map f l) → NoDup (omap f l).
Proof.
  induction l as [|a l IH]; simpl; [constructor|]. intros (Ha & Hnd)%NoDup_cons.
  destruct (f a) as [b|] eqn:Hfa; [|auto]. constructor; [|auto].
  intros (x & Hx & Hfx)%list_elem_of_omap. apply Ha, list_elem_of_fmap.
  exists x. by rewrite Hfx.
Qed.

Lemma omap_cons_eq {A B} (g : A → option B) x l :
  omap g (x :: l) = match g x with Some y => y :: omap g l | None => omap g l end.
Proof. reflexivity. Qed.

Lemma elem_of_omap_map {A B} (f : A → option B) (l : list A) y :
  y ∈ omap f l ↔ Some y ∈ map f l.
Proof.
  rewrite list_elem_of_omap, list_elem_of_fmap.
  split; intros (x & H1 & H2); exists x; naive_solver.
Qed.

(** ** Strings as sequences *)

Lemma str_app_length (s t : string) :
  String.length (s +:+ t) = (String.length s + String.length t)%nat.
Proof.
  induction s as [|c s IH]; [reflexivity|].
  change (String c s +:+ t) with (String c (s +:+ t)). simpl. lia.
Qed.

(** A common suffix cancels. *)
Lemma str_app_inv_r (s1 s2 t : string) : s1 +:+ t = s2 +:+ t → s1 = s2.
Proof.
  revert s2. induction s1 as [|c s1 IH]; intros [|c2 s2] Heq; try done.
  1,2: apply (f_equal String.length) in Heq; rewrite !str_app_length in Heq; simpl in Heq; lia.
  change (String c s1 +:+ t = String c2 (s2 +:+ t)) in Heq.
  injection Heq as -> Heq. f_equal. by apply IH.
Qed.

(** ** Strings: append, reverse, digits *)

Lemma str_app_assoc (s t u : string) : (s +:+ t) +:+ u = s +:+ (t +:+ u).
Proof.
  induction s as [|c s IH]; [done|].
  change (String c ((s +:+ t) +:+ u) = String c (s +:+ (t +:+ u))). by rewrite IH.
Qed.

Lemma str_app_nil_r (s : string) : s +:+ "" = s.
Proof. induction s as [|c s IH]; [done|]. change (String c (s +:+ "") = String c s). by rewrite IH. Qed.

Lemma rev_app_rev_app (s t u : string) :
  String.rev_app (String.rev_app s t) u = String.rev_app t (s +:+ u).
Proof.
  revert t. induction s as [|c s IH]; intros t; [done|]. simpl. rewrite IH. done.
Qed.

Lemma str_rev_involutive (s : string) : String.rev (String.rev s) = s.
Proof. unfold String.rev. by rewrite rev_app_rev_app, str_app_nil_r. Qed.

Lemma all_digits_rev_app (s t : string) :
  all_digits (String.rev_app s t) = all_digits s && all_digits t.
Proof.
  revert t. induction s as [|c s IH]; intros t; [done|]. simpl. rewrite IH. simpl.
  by destruct (is_digit_char c), (all_digits s), (all_digits t).
Qed.

Lemma digit_not_space c : is_digit_char c = true → is_py_space c = false.
Proof. destruct c as [[][][][][][][][]]; done. Qed.

(** [s.strip()] leaves a string of digits unchanged. *)
Lemma py_strip_digits s : all_digits s = true → py_strip s = s.
Proof.
  assert (∀ t, all_digits t = true → py_lstrip t = t) as Hl.
  { intros [|c t]; [done|]. simpl. intros (Hc & _)%andb_prop. by rewrite digit_not_space. }
  intros Hs. unfold py_strip, py_rstrip. rewrite (Hl s Hs), Hl; [apply str_rev_involutive|].
  unfold String.rev. by rewrite all_digits_rev_app, Hs.
Qed.

Lemma digits_value_acc_app acc s t :
  digits_value_acc acc (s +:+ t) = digits_value_acc (digits_value_acc acc s) t.
Proof.
  revert acc. induction s as [|c s IH]; intros acc; [done|].
  change (digits_value_acc acc (String c (s +:+ t)) = digits_value_acc (digits_value_acc acc (String c s)) t).
  simpl. apply IH.
Qed.

Lemma pretty_N_go_app x s : pretty_N_go x s = pretty_N_go x "" +:+ s.
Proof.
  revert s. induction (N.lt_wf_0 x) as [x _ IH]; intros s.
  destruct (decide (x = 0%N)) as [->|Hx]; [done|].
  rewrite !(pretty_N_go_step x) by lia.
  assert (x `div` 10 < x)%N as Hlt by (apply N.div_lt; lia).
  rewrite (IH _ Hlt (String _ s)), (IH _ Hlt (String _ "")). by rewrite str_app_assoc.
Qed.

Lemma pretty_N_char_digit d : (d < 10)%N → Ascii.is_nat (pretty_N_char d) = Some (N.to_nat d).
Proof.
  intros Hd. assert (d = 0 ∨ d = 1 ∨ d = 2 ∨ d = 3 ∨ d = 4 ∨ d = 5 ∨ d = 6 ∨ d = 7 ∨ d = 8 ∨ d = 9)%N
    as Hc by lia.
  by repeat destruct Hc as [->|Hc]; [..|subst].
Qed.

Lemma all_digits_pretty_N_go x s : all_digits (pretty_N_go x s) = all_digits s.
Proof.
  revert s. induction (N.lt_wf_0 x) as [x _ IH]; intros s.
  destruct (decide (x = 0%N)) as [->|Hx]; [done|].
  rewrite pretty_N_go_step, IH by (lia || (apply N.div_lt; lia)). cbn [all_digits].
  unfold is_digit_char. rewrite pretty_N_char_digit by (apply N.mod_lt; lia). done.
Qed.

Lemma digits_value_pretty_N_go x : digits_value (pretty_N_go x "") = Z.of_N x.
Proof.
  induction (N.lt_wf_0 x) as [x _ IH].
  destruct (decide (x = 0%N)) as [->|Hx]; [done|].
  rewrite pretty_N_go_step, pretty_N_go_app by lia. unfold digits_value.
  rewrite digits_value_acc_app. fold (digits_value (pretty_N_go (x `div` 10)%N "")).
  rewrite IH by (apply N.div_lt; lia). cbn [digits_value_acc].
  rewrite pretty_N_char_digit by (apply N.mod_lt; lia). simpl.
  rewrite N_nat_Z, N2Z.inj_div, N2Z.inj_mod. pose proof (Z.div_mod (Z.of_N x) 10). lia.
Qed.

Lemma pretty_N_go_nonempty x : x ≠ 0%N → pretty_N_go x "" ≠ "".
Proof.
  intros Hx. rewrite pretty_N_go_step, pretty_N_go_app by lia.
  intros Heq. apply (f_equal String.length) in Heq. rewrite str_app_length in Heq. simpl in Heq. lia.
Qed.

(** [int(str(n))] is [n], and [str(n)] passes [isdigit], for [n >= 0]. *)
Lemma py_str_int_digits z :
  (0 <= z)%Z → py_isdigit (py_str_int z) = true ∧ digits_value (py_str_int z) = z.
Proof.
  intros Hz. destruct z as [|p|p]; [done| |lia].
  unfold py_str_int, pretty, pretty_Z, pretty_positive, pretty, pretty_N.
  cbv beta. rewrite decide_False by done. unfold py_isdigit.
  rewrite all_digits_pretty_N_go, digits_value_pretty_N_go.
  split; [|done]. pose proof (pretty_N_go_nonempty (Npos p) ltac:(discriminate)) as Hne.
  apply String.eqb_neq in Hne. by rewrite Hne.
Qed.

(** [str(n)] is all digits, passes [isdigit] and reads back as [n]. *)
Lemma digits_of_str_int z :
  (0 <= z)%Z → all_digits (py_str_int z) = true ∧ py_isdigit (py_str_int z) = true ∧
               digits_value (py_str_int z) = z.
Proof.
  intros Hz. destruct (py_str_int_digits z Hz) as [Hd Hv].
  split_and!; [|done|done]. unfold py_isdigit in Hd. by apply andb_prop in Hd as [_ ?].
Qed.

Lemma digit_not_sign c : is_digit_char c = true → Ascii.eqb c "-" = false ∧ Ascii.eqb c "+" = false.
Proof. destruct c as [[][][][][][][][]]; done. Qed.

Lemma lstrip_rev_app_digits d t :
  all_digits d = true → d ≠ "" → py_lstrip (String.rev_app d t) = String.rev_app d t.
Proof.
  revert t. induction d as [|c d IH]; intros t Hd Hne; [done|].
  simpl in Hd. apply andb_prop in Hd as [Hc Hd]. simpl. destruct d as [|c' d'].
  - simpl. by rewrite digit_not_space.
  - by apply IH.
Qed.

(** [str(n)] begins and ends with a byte that is not a space. *)
Lemma py_strip_str_int z : py_strip (py_str_int z) = py_str_int z.
Proof.
  destruct (Z_le_gt_dec 0 z) as [Hz|Hz]; [apply py_strip_digits, (digits_of_str_int z Hz)|].
  destruct z as [| |p]; [lia|lia|].
  change (py_str_int (Z.neg p)) with (String "-" (py_str_int (Z.pos p))).
  destruct (digits_of_str_int (Z.pos p) ltac:(lia)) as (Hd & Hi & _).
  assert (py_str_int (Z.pos p) ≠ "") as Hne by (intros Heq; rewrite Heq in Hi; done).
  unfold py_strip, py_rstrip. cbn [py_lstrip].
  replace (is_py_space "-") with false by reflexivity. unfold String.rev. cbn [String.rev_app].
  rewrite lstrip_rev_app_digits by done. by rewrite rev_app_rev_app, str_app_nil_r.
Qed.

(** [int(str(n))] is [n], for every integer. *)
Lemma int_of_str_str_int z : int_of_str (py_str_int z) = Some z.
Proof.
  unfold int_of_str. rewrite py_strip_str_int.
  destruct (Z_le_gt_dec 0 z) as [Hz|Hz].
  - destruct (digits_of_str_int z Hz) as (Hd & Hi & Hv).
    destruct (py_str_int z) as [|c r] eqn:E; [done|].
    simpl in Hd. apply andb_prop in Hd as [Hc _]. destruct (digit_not_sign c Hc) as [Hm Hp].
    cbn [py_sign]. rewrite Hm, Hp, Hi, Hv. f_equal. lia.
  - destruct z as [| |p]; [lia|lia|].
    change (py_str_int (Z.neg p)) with (String "-" (py_str_int (Z.pos p))).
    destruct (digits_of_str_int (Z.pos p) ltac:(lia)) as (_ & Hi & Hv).
    cbn [py_sign]. rewrite Ascii.eqb_refl, Hi, Hv. done.
Qed.

(** The bytes of a string, and where [strip] keeps them. *)
Lemma chars_app (s t : string) :
  String.list_ascii_of_string (s +:+ t) = String.list_ascii_of_string s ++ String.list_ascii_of_string t.
Proof. induction s as [|c s IH]; [done|]. simpl. by rewrite IH. Qed.

Lemma chars_rev_app (s t : string) :
  String.list_ascii_of_string (String.rev_app s t) =
    rev (String.list_ascii_of_string s) ++ String.list_ascii_of_string t.
Proof.
  revert t. induction s as [|c s IH]; intros t; [done|]. simpl. rewrite IH. simpl.
  by rewrite <-app_assoc.
Qed.

Lemma elem_of_rev_iff {A} (x : A) (l : list A) : x ∈ rev l ↔ x ∈ l.
Proof. rewrite !list_elem_of_In. symmetry. apply in_rev. Qed.

Lemma elem_of_lstrip c s :
  c ∈ String.list_ascii_of_string s → is_py_space c = false →
  c ∈ String.list_ascii_of_string (py_lstrip s).
Proof.
  induction s as [|d s IH]; [done|]. simpl. intros Hc Hsp.
  destruct (is_py_space d) eqn:Hd; [|done]. apply IH; [|done].
  apply elem_of_cons in Hc as [->|]; [congruence|done].
Qed.

Lemma elem_of_strip c s :
  c ∈ String.list_ascii_of_string s → is_py_space c = false →
  c ∈ String.list_ascii_of_string (py_strip s).
Proof.
  intros Hc Hsp. unfold py_strip, py_rstrip, String.rev.
  rewrite chars_rev_app, app_nil_r, elem_of_rev_iff. apply elem_of_lstrip; [|done].
  rewrite chars_rev_app, app_nil_r, elem_of_rev_iff. by apply elem_of_lstrip.
Qed.

Lemma all_digits_elem c s :
  all_digits s = true → c ∈ String.list_ascii_of_string s → is_digit_char c = true.
Proof.
  induction s as [|d s IH]; simpl; [set_solver|]. intros (Hd & Hs)%andb_prop Hc.
  apply elem_of_cons in Hc as [->|]; [done|by apply IH].
Qed.

(** A byte that is neither a space, a digit nor a sign is in no text
    [int()] accepts. *)
Lemma int_of_str_elem s z c :
  int_of_str s = Some z → c ∈ String.list_ascii_of_string s →
  is_py_space c = false → is_digit_char c = false → Ascii.eqb c "-" = false →
  Ascii.eqb c "+" = false → False.
Proof.
  unfold int_of_str. intros Hs Hc Hsp Hdg Hm Hp. pose proof (elem_of_strip c s Hc Hsp) as Hc'.
  destruct (py_strip s) as [|d r]; [done|]. cbn [py_sign] in Hs.
  assert (c ∈ String.list_ascii_of_string r ∨ c = d) as Hcr
    by (simpl in Hc'; apply elem_of_cons in Hc' as [->|]; auto).
  destruct (Ascii.eqb d "-") eqn:Ed; [|destruct (Ascii.eqb d "+") eqn:Ep];
    destruct (py_isdigit _) eqn:Hi; try done; unfold py_isdigit in Hi;
    apply andb_prop in Hi as [_ Hi].
  - destruct Hcr as [Hcr|Hcr]; [|subst; by rewrite Hm in Ed].
    by rewrite (all_digits_elem c r) in Hdg.
  - destruct Hcr as [Hcr|Hcr].
    + by rewrite (all_digits_elem c r) in Hdg.
    + subst. apply Ascii.eqb_eq in Ep. subst. by rewrite Ascii.eqb_refl in Hp.
  - by rewrite (all_digits_elem c (String d r)) in Hdg.
Qed.

(** Distinct labels are kept as they are. *)
Lemma mangle_go_nodup seen ls :
  NoDup ls → (∀ x, x ∈ ls → x ∉ seen) → mangle_go seen ls = ls.
Proof.
  revert seen. induction ls as [|l ls IH]; intros seen Hnd Hs; [done|].
  apply NoDup_cons in Hnd as [Hl Hnd]. simpl.
  assert (length (filter (String.eqb l) seen) = 0%nat) as ->.
  { assert (l ∉ seen) as Hn by (apply Hs; set_solver). clear Hs IH.
    induction seen as [|x seen IHs]; [done|]. rewrite filter_cons.
    case_decide as Hx; [|apply IHs; set_solver]. apply Is_true_true, String.eqb_eq in Hx. set_solver. }
  simpl. f_equal. apply IH; [done|]. intros x Hx Hxs.
  apply elem_of_cons in Hxs as [->|Hxs]; [done|]. apply (Hs x); set_solver.
Qed.

Lemma mangle_nodup ls : NoDup ls → mangle ls = ls.
Proof. intros Hnd. apply mangle_go_nodup; set_solver. Qed.

(** The first digit of a positive number is not ['0']. *)
Lemma pretty_N_go_head x :
  x ≠ 0%N → ∃ c r, pretty_N_go x "" = String c r ∧ Ascii.is_nat c ≠ Some 0%nat.
Proof.
  induction (N.lt_wf_0 x) as [x _ IH]; intros Hx.
  rewrite pretty_N_go_step, pretty_N_go_app by lia.
  destruct (decide (x `div` 10 = 0)%N) as [Hq|Hq].
  - rewrite Hq. exists (pretty_N_char (x `mod` 10)), "". split; [done|].
    rewrite pretty_N_char_digit by (apply N.mod_lt; lia). intros [= Hm].
    assert (x `mod` 10 = 0)%N as Hm' by lia. pose proof (N.div_mod x 10). lia.
  - destruct (IH (x `div` 10)%N ltac:(apply N.div_lt; lia) Hq) as (c & r & -> & Hc).
    by exists c, (r +:+ String (pretty_N_char (x `mod` 10)) "").
Qed.

(** The text before and after the first [sep]. *)
Fixpoint split_first (sep : Ascii.ascii) (s : string) : option (string * string) :=
  match s with
  | "" => None
  | String c r =>
      if Ascii.eqb c sep then Some ("", r)
      else (λ '(a, b), (String c a, b)) <$> split_first sep r
  end.

Lemma split_first_digits sep a b :
  is_digit_char sep = false → all_digits a = true →
  split_first sep (a +:+ String sep b) = Some (a, b).
Proof.
  intros Hsep. induction a as [|c a IH]; simpl.
  - by rewrite Ascii.eqb_refl.
  - intros (Hc & Ha)%andb_prop. rewrite IH by done.
    destruct (Ascii.eqb_spec c sep) as [->|]; [congruence|done].
Qed.

(** [str(z)] is read up to the first separator that is neither a digit
    nor the sign. *)
Lemma split_first_str_int sep z b :
  is_digit_char sep = false → Ascii.eqb "-" sep = false →
  split_first sep (py_str_int z +:+ String sep b) = Some (py_str_int z, b).
Proof.
  intros Hd Hm. destruct (Z_le_gt_dec 0 z) as [Hz|Hz].
  - apply split_first_digits; [done|apply (digits_of_str_int z Hz)].
  - destruct z as [| |p]; [lia|lia|].
    change (py_str_int (Z.neg p)) with (String "-" (py_str_int (Z.pos p))).
    assert (∀ r, split_first sep (String "-" r) =
              if Ascii.eqb "-" sep then Some ("", r)
              else (λ '(a, b), (String "-" a, b)) <$> split_first sep r) as Hc by done.
    change (String "-" ?x +:+ ?y) with (String "-" (x +:+ y)).
    rewrite Hc, Hm, split_first_digits; [done|done|].
    apply (digits_of_str_int (Z.pos p)). lia.
Qed.

(** ** [mbind] on lists *)

Lemma mbind_ext_in {A B} (f g : A → list B) (l : list A) :
  (∀ x, x ∈ l → f x = g x) → mbind f l = mbind g l.
Proof.
  induction l as [|x l IH]; intros Hfg; [done|]. rewrite !bind_cons.
  rewrite (Hfg x) by set_solver. f_equal. apply IH. set_solver.
Qed.

(** Dropping the elements whose image is empty does not change [mbind]. *)
Lemma mbind_filter_nil {A B} (P : A → Prop) `{∀ x, Decision (P x)} (f : A → list B) l :
  (∀ x, ¬ P x → f x = []) → mbind f (filter P l) = mbind f l.
Proof.
  intros Hf. induction l as [|x l IH]; [done|]. rewrite filter_cons.
  case_decide as Hx; rewrite ?bind_cons, IH; [done|]. by rewrite (Hf x Hx).
Qed.

(** Binding over the positions of a list is binding over its elements. *)
Lemma mbind_seq_lookup {A B} (f : A → list B) (l : list A) :
  mbind (λ i, default [] (f <$> l !! i)) (seq 0 (length l)) = mbind f l.
Proof.
  induction l as [|x l IH]; [done|]. cbn [length seq]. rewrite !bind_cons. f_equal.
  rewrite <-fmap_S_seq, <-IH. clear IH. generalize (seq 0 (length l)).
  induction l0 as [|i l0 IH]; [done|]. rewrite fmap_cons, !bind_cons. by rewrite IH.
Qed.

(** ** A monad for Python code that prints, updates a store and raises

    [PyM S O A] runs from a store [S] and returns the store, the lines
    printed (of type [O]) and either the exception raised or the value.
    The store and the output of the steps before an exception are kept,
    as they are in Python. *)

(** The exceptions the modelled code raises or catches. *)
Inductive py_exc :=
  | FileNotFoundError
  | CalledProcessError (code : Z)
  | JSONDecodeError
  | AttributeError
  | TypeError
  | ValueError
  | ZeroDivisionError
  | SyntaxError
  | SpreadsheetNotFound
  | APIError.

Definition PyM (S O A : Type) : Type := S → S * list O * (py_exc + A).

Global Instance pym_ret {S O} : MRet (PyM S O) := λ A a s, (s, [], inr a).
Global Instance pym_bind {S O} : MBind (PyM S O) := λ A B f m s,
  match m s with
  | (s1, o1, inl e) => (s1, o1, inl e)
  | (s1, o1, inr a) => let '(s2, o2, r) := f a s1 in (s2, o1 ++ o2, r)
  end.

(** [print(line)] *)
Definition py_print {S O} (line : O) : PyM S O unit := λ s, (s, [line], inr tt).
(** [raise e] *)
Definition py_raise {S O A} (e : py_exc) : PyM S O A := λ s, (s, [], inl e).
(** A computation that may raise, lifted. *)
Definition py_lift {S O A} (r : py_exc + A) : PyM S O A := λ s, (s, [], r).
Definition py_modify {S O} (f : S → S) : PyM S O unit := λ s, (f s, [], inr tt).
(** [try: m except Exception as e: h(e)] *)
Definition py_try {S O A} (m : PyM S O A) (h : py_exc → PyM S O A) : PyM S O A := λ s,
  match m s with
  | (s1, o1, inl e) => let '(s2, o2, r) := h e s1 in (s2, o1 ++ o2, r)
  | ok => ok
  end.
(** [for x in xs: body(x)] *)
Fixpoint py_for {S O A} (xs : list A) (body : A → PyM S O unit) : PyM S O unit :=
  match xs with
  | [] => mret tt
  | x :: xs' => body x ;; py_for xs' body
  end.

Section PyM.
Context {S O : Type}.

Lemma pym_bind_ok {A B} (m : PyM S O A) (f : A → PyM S O B) s s1 o1 a :
  m s = (s1, o1, inr a) →
  (m ≫= f) s = let '(s2, o2, r) := f a s1 in (s2, o1 ++ o2, r).
Proof. intros Hm. unfold mbind, pym_bind. by rewrite Hm. Qed.

Lemma pym_bind_err {A B} (m : PyM S O A) (f : A → PyM S O B) s s1 o1 e :
  m s = (s1, o1, inl e) → (m ≫= f) s = (s1, o1, inl e).
Proof. intros Hm. unfold mbind, pym_bind. by rewrite Hm. Qed.

(** A loop whose body never raises prints the bodies' lines in order. *)
Lemma py_for_ok {A} (xs : list A) (body : A → PyM S O unit) (out : A → list O) s :
  (∀ x, x ∈ xs → body x s = (s, out x, inr tt)) →
  py_for xs body s = (s, mbind out xs, inr tt).
Proof.
  induction xs as [|x xs IH]; intros Hb; [done|]. cbn [py_for].
  rewrite (pym_bind_ok _ _ _ s (out x) tt) by (apply Hb; set_solver).
  rewrite IH by (intros; apply Hb; set_solver). by rewrite bind_cons.
Qed.

(** A loop stops at the first body that raises. *)
Lemma py_for_err {A} (pre : list A) x post (body : A → PyM S O unit) (out : A → list O) s o e :
  (∀ y, y ∈ pre → body y s = (s, out y, inr tt)) → body x s = (s, o, inl e) →
  py_for (pre ++ x :: post) body s = (s, mbind out pre ++ o, inl e).
Proof.
  induction pre as [|y pre IH]; intros Hb Hx.
  - cbn [py_for app]. by rewrite (pym_bind_err _ _ _ s o e Hx).
  - cbn [py_for app]. rewrite (pym_bind_ok _ _ _ s (out y) tt) by (apply Hb; set_solver).
    rewrite IH; [by rewrite bind_cons, app_assoc|intros; apply Hb; set_solver|done].
Qed.

End PyM.

(** Every line [m] prints satisfies [P], from every store. *)
Definition out_all {S O A} (P : O → Prop) (m : PyM S O A) : Prop :=
  ∀ s, Forall P (m s).1.2.

(** When [m] returns normally, its last line satisfies [P]. *)
Definition ends_with {S O A} (P : O → Prop) (m : PyM S O A) : Prop :=
  ∀ s s' o a, m s = (s', o, inr a) → ∃ o1 x, o = o1 ++ [x] ∧ P x.

Section PyMOut.
Context {S O : Type} (P : O → Prop).

Lemma out_all_ret {A} (a : A) : out_all (S:=S) P (mret a).
Proof. intros s. constructor. Qed.

Lemma out_all_print x : P x → out_all (S:=S) P (py_print x).
Proof. intros Hx s. by constructor. Qed.

Lemma out_all_raise {A} e : out_all (S:=S) (A:=A) P (py_raise e).
Proof. intros s. constructor. Qed.

Lemma out_all_lift {A} (r : py_exc + A) : out_all (S:=S) P (py_lift r).
Proof. intros s. constructor. Qed.

Lemma out_all_bind {A B} (m : PyM S O A) (f : A → PyM S O B) :
  out_all P m → (∀ a, out_all P (f a)) → out_all P (m ≫= f).
Proof.
  intros Hm Hf s. unfold mbind, pym_bind. specialize (Hm s).
  destruct (m s) as [[s1 o1] [e|a]]; [done|]. specialize (Hf a s1).
  destruct (f a s1) as [[s2 o2] r]. simpl in *. by apply Forall_app.
Qed.

Lemma out_all_for {A} (xs : list A) (body : A → PyM S O unit) :
  (∀ x, out_all P (body x)) → out_all P (py_for xs body).
Proof.
  intros Hb. induction xs as [|x xs IH]; [apply out_all_ret|]. by apply out_all_bind.
Qed.

Lemma ends_with_print x : P x → ends_with (S:=S) P (py_print x).
Proof. intros Hx s s' o a [= _ <- _]. by exists [], x. Qed.

Lemma ends_with_bind {A B} (m : PyM S O A) (f : A → PyM S O B) :
  (∀ a, ends_with P (f a)) → ends_with P (m ≫= f).
Proof.
  intros Hf s s' o b. unfold mbind, pym_bind.
  destruct (m s) as [[s1 o1] [e|a]]; [done|].
  destruct (f a s1) as [[s2 o2] r] eqn:Hfa. intros [= <- <- ->].
  destruct (Hf a s1 s2 o2 b Hfa) as (o3 & x & -> & Hx). exists (o1 ++ o3), x.
  by rewrite app_assoc.
Qed.

(** [try ... except Exception as e: print(g(e))]: the handler's line
    comes after what the body printed, and the call returns normally. *)
Lemma py_try_print (m : PyM S O unit) (g : py_exc → O) s :
  py_try m (λ e, py_print (g e)) s =
    match m s with
    | (s1, o1, inl e) => (s1, o1 ++ [g e], inr tt)
    | ok => ok
    end.
Proof. unfold py_try. by destruct (m s) as [[s1 o1] [e|[]]]. Qed.

End PyMOut.

#[export] Hint Resolve out_all_ret out_all_print out_all_raise out_all_lift out_all_bind
  out_all_for ends_with_print ends_with_bind : py.
