(* ===== verification/Host.v ===== *)
(** * Host: the operating system and the external tools as the code sees them

    Every call the Python sources make outside the interpreter is a field
    of the class [Host]: the components are defined and proved for an
    arbitrary host, and witnesses instantiate it with small concrete
    hosts.  The directory tree that [os.walk] traverses is the data type
    [dirtree]. *)

From S2P Require Import Prelude.
From Stdlib Require Import QArith.

(** A directory as [os.walk] lists it: its own name, the names of its
    files and its sub-directories, each list in the order the operating
    system returns it. *)
#[warnings="-register-all"]
Inductive dirtree : Type :=
  | Dir (name : string) (files : list string) (subdirs : list dirtree).

Definition dir_name (t : dirtree) : string := match t with Dir n _ _ => n end.

(** What [subprocess.run(..., capture_output=True)] returns. *)
Record proc_result := mk_proc { proc_stdout : string; proc_stderr : string }.

Class Host := {
  (** the tree [os.walk(top)] traverses; [None] when [top] is no readable
      directory (os.walk then yields nothing) *)
  host_tree : string → option dirtree;
  (** [os.path.abspath] (depends on the working directory) *)
  host_abspath : string → string;
  (** running [ffprobe ... -show_entries format=duration] on a file; [None]
      when the process cannot be run (binary missing, timeout) *)
  host_ffprobe : string → option proc_result;
  (** [VideoFileClip(p).duration] of moviepy; [None] when it raises *)
  host_clip_duration : string → option Q;
  (** [os.path.getmtime(p)]; [None] when it raises *)
  host_getmtime : string → option Q;
  (** [datetime.now().timestamp()] read when the file is processed *)
  host_clock : string → Q;
  (** [shutil.which(name) is not None] *)
  host_which : string → bool;
  (** the exit code of running ffmpeg with these arguments *)
  host_ffmpeg : list string → Z;
  (** whether a failed ffmpeg run leaves its output file behind *)
  host_ffmpeg_partial : list string → bool
}.

(** The same machine at another moment: the same tree, paths, probes
    and tools, another clock and other modification times.  A second run
    of a script sees this host. *)
Definition later_run (H : Host) (clock : string → Q) (mtime : string → option Q) : Host := {|
  host_tree := @host_tree H;
  host_abspath := @host_abspath H;
  host_ffprobe := @host_ffprobe H;
  host_clip_duration := @host_clip_duration H;
  host_getmtime := mtime;
  host_clock := clock;
  host_which := @host_which H;
  host_ffmpeg := @host_ffmpeg H;
  host_ffmpeg_partial := @host_ffmpeg_partial H
|}.

(** A small host for the witnesses: one directory tree at [top], every
    clip [dur] seconds long, every file modified at time 0 and read at
    time 1000, every tool present, every ffmpeg run succeeding. *)
Definition demo_host (top : string) (t : dirtree) (dur : Q) : Host := {|
  host_tree := λ p, if String.eqb p top then Some t else None;
  host_abspath := λ p, p;
  host_ffprobe := λ _, Some (mk_proc "" "");
  host_clip_duration := λ _, Some dur;
  host_getmtime := λ _, Some 0%Q;
  host_clock := λ _, 1000%Q;
  host_which := λ _, true;
  host_ffmpeg := λ _, 0%Z;
  host_ffmpeg_partial := λ _, false
|}.

Fixpoint assoc_str (k : string) (tbl : list (string * string)) : option string :=
  match tbl with
  | [] => None
  | (k', v) :: tbl' => if String.eqb k k' then Some v else assoc_str k tbl'
  end.

(** A host whose ffprobe prints, for a path, the text [tbl] gives for
    it ("N/A" when absent); otherwise like [demo_host]. *)
Definition probe_host (top : string) (t : dirtree) (tbl : list (string * string)) : Host := {|
  host_tree := λ p, if String.eqb p top then Some t else None;
  host_abspath := λ p, p;
  host_ffprobe := λ p, Some (mk_proc (default "N/A" (assoc_str p tbl)) "");
  host_clip_duration := λ _, None;
  host_getmtime := λ _, Some 0%Q;
  host_clock := λ _, 1000%Q;
  host_which := λ _, true;
  host_ffmpeg := λ _, 0%Z;
  host_ffmpeg_partial := λ _, false
|}.
