(* ===== verification/Probe.v ===== *)
(** * Metadata probe: durations and ages of video files

    Python's [float()], [int()] and [round()] on the probe's output, and
    the "M:SS" formatting the three call sites use:
    [format_mmss] and [ffprobe_duration_seconds] (update_data.py),
    [get_video_duration] (module3.py, module4.py), the moviepy formatting
    inside the allocator (module3.py) and the file age.  Probe failures
    become the sentinels of the code ([None], "0:00").  The theorems
    bound the rounding of [round] and [int] and show that every cell
    reads back ([read_mmss], a reader written for the statement) as
    the integer it was formatted from. *)

From S2P Require Import Prelude Host.
From Stdlib Require Import Ascii QArith Qround Qabs Lqa.

Local Open Scope string_scope.
Local Open Scope list_scope.

Module Probe.

(** ** Python numbers *)

(** The leading decimal digits of [s]: their value, their count, and
    the rest of [s]. *)
Fixpoint take_digits (acc : Z) (n : nat) (s : string) : Z * nat * string :=
  match s with
  | String c r =>
      match Ascii.is_nat c with
      | Some d => take_digits (10 * acc + Z.of_nat d) (S n) r
      | None => (acc, n, s)
      end
  | "" => (acc, n, s)
  end.

(** [float(s)] for the decimal literals [[+-]digits[.digits]] around
    whitespace, with at least one digit; anything else raises
    [ValueError] ([None]). *)
Definition py_float (s : string) : option Q :=
  let '(sgn, t1) := py_sign (py_strip s) in
  let '(ip, ni, r1) := take_digits 0 0 t1 in
  match r1 with
  | "" => if (ni =? 0)%nat then None else Some (inject_Z (sgn * ip))
  | String c r2 =>
      if Ascii.eqb c "." then
        let '(fp, nf, r3) := take_digits 0 0 r2 in
        if String.eqb r3 "" && negb (ni + nf =? 0)%nat
        then Some (Qmult (inject_Z sgn) (Qplus (inject_Z ip) (fp # Pos.of_nat (10 ^ nf))))
        else None
      else None
  end.

(** [int(x)] of a float truncates toward zero. *)
Definition py_trunc (q : Q) : Z :=
  if Qle_bool 0 q then Qfloor q else (- Qfloor (- q))%Z.

(** [round(x)] of a float rounds half to even. *)
Definition py_round (q : Q) : Z :=
  let f := Qfloor q in
  let r := q - inject_Z f in
  if Qlt_le_dec r (1 # 2) then f
  else if Qeq_bool r (1 # 2) then (if Z.even f then f else f + 1)%Z
  else (f + 1)%Z.

(** [f"{s // 60}:{s % 60:02d}"]: Python's [//] and [%] are [Z.div] and
    [Z.modulo] (floor division). *)
Definition mmss_of_int (s : Z) : string :=
  py_str_int (s / 60) +:+ ":" +:+ zfill_int 2 (s mod 60).

(** ** The call sites *)

(** update_data.py [format_mmss]: [s = int(seconds)]. *)
Definition format_mmss (seconds : Q) : string := mmss_of_int (py_trunc seconds).

(** update_data.py [ffprobe_duration_seconds]: stderr is merged into
    stdout ([stderr=subprocess.STDOUT]); any exception gives [None]. *)
Definition ffprobe_duration_seconds `{Host} (p : string) : option Q :=
  match host_ffprobe p with
  | Some r => py_float (proc_stdout r +:+ proc_stderr r)
  | None => None
  end.

(** module3.py / module4.py [get_video_duration]: stdout only, and
    "0:00" when running ffprobe or [float()] raises. *)
Definition get_video_duration `{Host} (p : string) : string :=
  match host_ffprobe p with
  | Some r =>
      match py_float (proc_stdout r) with
      | Some d => format_mmss d
      | None => "0:00"
      end
  | None => "0:00"
  end.

(** module3.py, inside [check_and_add_next_spidey_videos]: the moviepy
    duration rounded with [int(round(...))], "0:00" when it raises. *)
Definition clip_duration_str `{Host} (p : string) : string :=
  match host_clip_duration p with
  | Some d => mmss_of_int (py_round d)
  | None => "0:00"
  end.

(** [int(now - os.path.getmtime(p))], [None] when getmtime raises
    (update_data.py [get_creation_age_seconds] and the same lines of the
    allocator). *)
Definition get_creation_age_seconds `{Host} (p : string) : option Z :=
  match host_getmtime p with
  | Some m => Some (py_trunc (host_clock p - m))
  | None => None
  end.

(** ** Reading an "M:SS" cell back *)

(** The number of seconds an "M:SS" cell denotes: digits, a colon, two
    digits below 60. *)
Definition read_mmss (s : string) : option Z :=
  match split_first ":" s with
  | Some (m, ss) =>
      if py_isdigit m && py_isdigit ss && (String.length ss =? 2)%nat &&
         bool_decide (digits_value ss < 60)%Z
      then Some (60 * digits_value m + digits_value ss)%Z else None
  | None => None
  end.

(** The seconds field of [mmss_of_int] for [0 <= k < 60]. *)
Definition two_digit_ok (k : Z) : bool :=
  py_isdigit (zfill_int 2 k) && (String.length (zfill_int 2 k) =? 2)%nat &&
  Z.eqb (digits_value (zfill_int 2 k)) k.

Lemma zfill_two k : (0 <= k < 100)%Z → two_digit_ok k = true.
Proof.
  intros Hk. assert (forallb (λ i, two_digit_ok (Z.of_nat i)) (seq 0 100) = true) as Hall
    by (vm_compute; reflexivity).
  rewrite forallb_forall in Hall. rewrite <-(Z2Nat.id k) by lia. apply Hall.
  apply in_seq. lia.
Qed.

(** Reading back the cell [mmss_of_int] writes gives the number. *)
Lemma read_mmss_of_int n : (0 <= n)%Z → read_mmss (mmss_of_int n) = Some n.
Proof.
  intros Hn. destruct (py_str_int_digits (n / 60) ltac:(apply Z.div_pos; lia)) as [Hd Hv].
  pose proof (zfill_two (n mod 60) ltac:(pose proof (Z.mod_pos_bound n 60); lia)) as Hz.
  unfold two_digit_ok in Hz. apply andb_prop in Hz as [[Hzd Hzl]%andb_prop Hzv%Z.eqb_eq].
  unfold mmss_of_int, read_mmss. change (":" +:+ ?x) with (String ":" x).
  rewrite split_first_digits by (done || (unfold py_isdigit in Hd; by apply andb_prop in Hd as [_ ?])).
  rewrite Hd, Hzd, Hzl, Hzv, Hv, bool_decide_true by (apply Z.mod_pos_bound; lia).
  simpl. f_equal. pose proof (Z.div_mod n 60). lia.
Qed.

(** ** Rounding *)

Lemma py_round_near q : Qabs (inject_Z (py_round q) - q) <= 1 # 2.
Proof.
  unfold py_round. pose proof (Qfloor_le q) as H1. pose proof (Qlt_floor q) as H2.
  rewrite inject_Z_plus in H2. change (inject_Z 1) with 1 in H2. apply Qabs_Qle_condition.
  destruct (Qlt_le_dec _ _) as [Hr|Hr].
  - split; lra.
  - destruct (Qeq_bool _ _) eqn:He.
    + apply Qeq_bool_eq in He.
      destruct (Z.even _); rewrite ?inject_Z_plus; change (inject_Z 1) with 1; split; lra.
    + rewrite inject_Z_plus. change (inject_Z 1) with 1. split; lra.
Qed.

Lemma py_round_nonneg q : 0 <= q → (0 <= py_round q)%Z.
Proof.
  intros Hq. assert (0 <= Qfloor q)%Z by (rewrite <-(Qfloor_Z 0); by apply Qfloor_resp_le).
  unfold py_round. destruct (Qlt_le_dec _ _); [lia|]. destruct (Qeq_bool _ _); [|lia].
  destruct (Z.even _); lia.
Qed.

Lemma py_trunc_near q : 0 <= q → 0 <= q - inject_Z (py_trunc q) < 1.
Proof.
  intros Hq. unfold py_trunc. apply Qle_bool_iff in Hq as Hb. rewrite Hb.
  pose proof (Qfloor_le q). pose proof (Qlt_floor q) as H2. rewrite inject_Z_plus in H2.
  change (inject_Z 1) with 1 in H2. split; lra.
Qed.

Lemma py_trunc_nonneg q : 0 <= q → (0 <= py_trunc q)%Z.
Proof.
  intros Hq. unfold py_trunc. apply Qle_bool_iff in Hq as Hb. rewrite Hb.
  rewrite <-(Qfloor_Z 0). by apply Qfloor_resp_le.
Qed.

(** ** Theorems *)

(** C28: the duration cells are bounded: for a clip of [d >= 0] seconds
    the allocator's cell is the "M:SS" of an integer within half a
    second of [d] ([round]), the cell of [get_video_duration] is the
    "M:SS" of an integer within one second below [d] ([int]), and each
    cell reads back as that number, with a seconds field below 60. *)
Theorem duration_cells_bounds `{Host} p :
  (∀ d, host_clip_duration p = Some d → 0 <= d →
     ∃ n, clip_duration_str p = mmss_of_int n ∧ read_mmss (clip_duration_str p) = Some n ∧
          Qabs (inject_Z n - d) <= 1 # 2) ∧
  (∀ r d, host_ffprobe p = Some r → py_float (proc_stdout r) = Some d → 0 <= d →
     ∃ n, get_video_duration p = mmss_of_int n ∧ read_mmss (get_video_duration p) = Some n ∧
          0 <= d - inject_Z n < 1).
Proof.
  split.
  - intros d Hp Hd. unfold clip_duration_str. rewrite Hp. exists (py_round d).
    split_and!; [done|apply read_mmss_of_int, py_round_nonneg, Hd|apply py_round_near].
  - intros r d Hp Hf Hd. unfold get_video_duration, format_mmss. rewrite Hp, Hf.
    exists (py_trunc d).
    split_and!; [done|apply read_mmss_of_int, py_trunc_nonneg, Hd|by apply py_trunc_near..].
Qed.

Lemma duration_cells_bounds_witness :
  let h := demo_host "D:\v" (Dir "v" [] []) (1805 # 2) in
  @clip_duration_str h "D:\v\a.mp4" = mmss_of_int 902 ∧
  read_mmss (@clip_duration_str h "D:\v\a.mp4") = Some 902%Z.
Proof.
  destruct (proj1 (@duration_cells_bounds (demo_host "D:\v" (Dir "v" [] []) (1805 # 2)) "D:\v\a.mp4")
              (1805 # 2) eq_refl ltac:(unfold Qle; simpl; lia)) as (n & Hs & Hr & Hb).
  (* 902.5 is a tie: round half to even gives 902 = 15:02 *)
  assert (n = 902%Z) as ->.
  { vm_compute in Hr. injection Hr as <-. reflexivity. }
  split; [exact Hs|exact Hr].
Defined.

End Probe.
