(* ===== verification/Scanner.v ===== *)
(** * Asset scanner: os.walk and the two file scans

    [walk] lists the directories of a [dirtree] top-down as [os.walk]
    yields them (a directory, then each sub-directory in listing order);
    [get_file_list] is the scan of update_data.py (video extensions, the
    directories whose own name contains "quay" skipped), [allocator_files]
    the scan of the allocator in module3.py (no skip, sorted on the
    lower-cased full path). *)

From S2P Require Import Prelude Host.

Local Open Scope string_scope.
Local Open Scope list_scope.
Local Open Scope py_scope.

Module Scanner.

(** [os.walk(root)] on the tree [t] found at [root]: the pairs
    [(dirpath, filenames)]. *)
Fixpoint walk (root : string) (t : dirtree) : list (string * list string) :=
  match t with
  | Dir _ files subs =>
      (root, files) ::
      (fix go (ts : list dirtree) : list (string * list string) :=
         match ts with
         | [] => []
         | d :: ds => app (walk (root </> dir_name d) d) (go ds)
         end) subs
  end.

Definition os_walk `{Host} (top : string) : list (string * list string) :=
  match host_tree top with
  | Some t => walk top t
  | None => []
  end.

(** [VIDEO_EXTENSIONS] of module3.py and update_data.py. *)
Definition VIDEO_EXTENSIONS : list string := [".mp4"; ".avi"; ".mkv"; ".mov"].

(** [os.path.splitext(item)[1].lower() in VIDEO_EXTENSIONS] *)
Definition is_video (item : string) : bool :=
  bool_decide (py_lower (splitext_ext item) ∈ VIDEO_EXTENSIONS).

(** The absolute paths of the video files of one walked directory. *)
Definition videos_in `{Host} (root : string) (files : list string) : list string :=
  map (λ item, host_abspath (root </> item)) (filter is_video files).

(** update_data.py [get_file_list]: a directory whose own name contains
    "quay" contributes no file (its sub-directories are still walked). *)
Definition get_file_list `{Host} (folder : string) : list string :=
  flat_map (λ '(root, files),
             if str_contains "quay" (py_lower (basename root)) then []
             else videos_in root files)
           (os_walk folder).

(** module3.py lines 52-58: every video under [base], sorted with
    [key=lambda x: x.lower()] on the full path. *)
Definition allocator_files `{Host} (base : string) : list string :=
  sort_by py_lower (flat_map (λ '(root, files), videos_in root files) (os_walk base)).

End Scanner.
