(* ===== verification/Ledger.v ===== *)
(** * Ledger: the CSV table of catalogued assets

    The ledger file has the columns [stt, file_path, duration,
    lastest_used_value]; a row is modelled with one optional cell per
    column ([None] is an empty cell, pandas' NaN, or a column the file
    lacks).  A [ledger] keeps the column names the file has, because the
    allocator branches on them.  The file itself is [option ledger]
    ([None]: the file does not exist).  This file holds the reads the
    allocator does, the append it writes, [read_existing_csv] of
    update_data.py, and the invariants of the append mode. *)

From S2P Require Import Prelude.

Local Open Scope string_scope.
Local Open Scope list_scope.

Module Ledger.

Record row := mk_row {
  stt : option Z;
  file_path : option string;
  duration : option string;
  lastest_used_value : option Z
}.

Record ledger := mk_ledger { columns : list string; rows : list row }.

(** The columns both writers use, in this order. *)
Definition ledger_columns : list string :=
  ["stt"; "file_path"; "duration"; "lastest_used_value"].

Definition has_col (L : ledger) (c : string) : bool := bool_decide (c ∈ columns L).

(** The rows of the file, none when it does not exist. *)
Definition ledger_rows (f : option ledger) : list row :=
  match f with Some L => rows L | None => [] end.

(** The paths of a list of rows ([dropna] drops empty cells). *)
Definition paths (rs : list row) : list string := omap file_path rs.

(** ** The allocator's reads (module3.py lines 22-49) *)

(** The first word of [name] made of digits, as [int(part)]. *)
Definition first_digit_word (name : string) : option Z :=
  (λ '(_, w), digits_value w) <$> list_find (λ w, py_isdigit w = true) (py_split name).

(** [last_number] (lines 22-38), [None] for the error branch that prints
    and returns: [int()] of an empty [stt] cell raises, and so does
    [os.path.basename] of an empty [file_path] cell. *)
Definition read_last_number (f : option ledger) : option Z :=
  match f with
  | None => Some 0%Z
  | Some L =>
      match last (rows L) with
      | None => Some 0%Z
      | Some r =>
          if has_col L "stt" then stt r
          else if has_col L "file_path" then
            match file_path r with
            | Some p => Some (default 0%Z (first_digit_word (py_lower (basename p))))
            | None => None
            end
          else Some 0%Z
      end
  end.

(** [existing_paths] (lines 40-49). *)
Definition registered_paths (f : option ledger) : gset string :=
  match f with
  | Some L => if has_col L "file_path" then list_to_set (paths (rows L)) else ∅
  | None => ∅
  end.

(** The write of one new row (lines 100-110): the file is re-read; when it
    has all four columns it is cut down to them, then the row is appended
    ([pd.concat] keeps the file's columns and adds the missing ones). *)
Definition append_row (f : option ledger) (r : row) : ledger :=
  match f with
  | None => mk_ledger ledger_columns [r]
  | Some L =>
      let cols :=
        if bool_decide (Forall (λ c, c ∈ columns L) ledger_columns) then ledger_columns
        else app (columns L) (filter (λ c, c ∉ columns L) ledger_columns) in
      mk_ledger cols (app (rows L) [r])
  end.

(** ** update_data.py [read_existing_csv] (lines 51-62) *)

(** A column the file lacks is added as all-NA. *)
Definition blank_missing (L : ledger) (r : row) : row :=
  mk_row (if has_col L "stt" then stt r else None)
         (if has_col L "file_path" then file_path r else None)
         (if has_col L "duration" then duration r else None)
         (if has_col L "lastest_used_value" then lastest_used_value r else None).

Definition read_existing_csv (f : option ledger) : ledger :=
  match f with
  | None => mk_ledger ledger_columns []
  | Some L => mk_ledger ledger_columns (map (blank_missing L) (rows L))
  end.

(** ** Invariants of the append mode *)

(** Every row is numbered and the numbers strictly increase. *)
Definition stt_increasing (rs : list row) : Prop :=
  Forall (λ r, is_Some (stt r)) rs ∧ StronglySorted Z.lt (omap stt rs).

(** No path is registered twice. *)
Definition unique_paths (rs : list row) : Prop := NoDup (paths rs).

(** The shape of a ledger file: distinct column names (pandas reads no
    other) that include the four columns of the catalogue. *)
Definition ledger_wf (L : ledger) : Prop :=
  NoDup (columns L) ∧ ∀ c, c ∈ ledger_columns → c ∈ columns L.

(** A file pandas can read: distinct column names, or no file. *)
Definition file_wf (f : option ledger) : Prop :=
  match f with Some L => NoDup (columns L) | None => True end.

(** A ledger as the code writes it: rows numbered [1..n]. *)
Definition numbered_ledger (n : nat) : ledger :=
  mk_ledger ledger_columns
    (map (λ k, mk_row (Some (Z.of_nat k)) (Some ("v" +:+ pretty k +:+ ".mp4")) (Some "1:00") None)
         (seq 1 n)).

(** ** Lemmas *)

Lemma append_row_rows f r : rows (append_row f r) = ledger_rows f ++ [r].
Proof. by destruct f. Qed.

(** Reading back a file with the four columns gives its rows. *)
Lemma read_existing_csv_full L :
  columns L = ledger_columns → rows (read_existing_csv (Some L)) = rows L.
Proof.
  intros Hc. simpl. unfold blank_missing, has_col. rewrite Hc.
  rewrite !bool_decide_true by (unfold ledger_columns; set_solver).
  induction (rows L) as [|[] rs IH]; simpl; congruence.
Qed.

(** With increasing numbers, the number of the last row is the largest. *)
Lemma stt_increasing_last_max rs r n :
  stt_increasing rs → last rs = Some r → stt r = Some n →
  ∀ k, k ∈ omap stt rs → (k <= n)%Z.
Proof.
  intros [_ Hs] Hl Hn k Hk.
  apply last_Some in Hl as [rs' ->].
  rewrite omap_app in Hs, Hk. simpl in Hs, Hk. rewrite Hn in Hs, Hk.
  by eapply StronglySorted_lt_last.
Qed.

Lemma ledger_columns_NoDup : NoDup ledger_columns.
Proof. apply (bool_decide_unpack _). by vm_compute. Qed.

(** The write of the allocators gives a well-formed ledger: with all four
    columns the file is cut down to them, otherwise the missing ones are
    added after the file's own. *)
Lemma append_row_wf f r : file_wf f → ledger_wf (append_row f r).
Proof.
  destruct f as [L|]; simpl; intros Hnd.
  - case_bool_decide as Hall.
    + split; [apply ledger_columns_NoDup|done].
    + split.
      * apply NoDup_app. split_and!; [done| |apply NoDup_filter, ledger_columns_NoDup].
        intros c Hc (Hc' & _)%list_elem_of_filter. contradiction.
      * intros c Hc. apply elem_of_app. destruct (decide (c ∈ columns L)); [by left|].
        right. apply list_elem_of_filter. by split.
  - split; [apply ledger_columns_NoDup|done].
Qed.

Lemma ledger_wf_file L : ledger_wf L → file_wf (Some L).
Proof. by intros [? _]. Qed.

(** On a ledger with the [stt] column and increasing numbers, the read
    succeeds and gives a number no smaller than any in the file. *)
Lemma read_last_number_max f :
  (∀ L, f = Some L → has_col L "stt" = true) → stt_increasing (ledger_rows f) →
  ∃ last_number, read_last_number f = Some last_number ∧
                 ∀ k, k ∈ omap stt (ledger_rows f) → (k <= last_number)%Z.
Proof.
  intros Hcol Hinc. destruct f as [L|]; simpl; [|exists 0%Z; set_solver].
  rewrite (Hcol L eq_refl). destruct (last (rows L)) as [r|] eqn:Hr.
  - pose proof Hinc as [Hsome _]. apply last_Some in Hr as Hr'. destruct Hr' as [rs Hrs].
    rewrite Forall_forall in Hsome. destruct (Hsome r) as [n Hn]; [simpl; rewrite Hrs; set_solver|].
    exists n. split; [done|]. by eapply stt_increasing_last_max.
  - apply last_None in Hr. rewrite Hr. exists 0%Z. set_solver.
Qed.

End Ledger.
