(* ===== verification/Allocator.v ===== *)
(** * Sequence allocator: the append mode of the ledger

    module3.py [check_and_add_next_spidey_videos(batch_size)]: read the
    last number and the registered paths from the ledger, scan the share,
    then for each offset [i] in [1..batch_size] look for the first file
    (in sorted order) whose lower-cased name contains the zero-padded
    number [last + i] and "spidey"; skip the offset when there is none or
    when the file is already registered, else append a row numbered
    [last + i].  The loop is a [fold_left] of [alloc_step] over the
    offsets; the printed messages are the event log. *)

From S2P Require Import Prelude Host Probe Scanner Ledger.
From Stdlib Require Import QArith.

Local Open Scope string_scope.
Local Open Scope list_scope.
Import Ledger Probe Scanner.

Module Allocator.

Inductive event :=
  | ReadError                           (** "Error reading CSV file": return *)
  | NotFound (num : string)             (** no file for this number: skip *)
  | AlreadyExists (num path : string)   (** "Đã tồn tại": skip *)
  | Added (num path : string).          (** "Đã thêm": row appended *)

Record state := mk_state {
  csv : option ledger;   (** the ledger file *)
  added_count : Z;
  log : list event
}.

Definition OUTPUT_FILE := "C:\Users\Admin\Documents\concatenate videos\ref\spidey_data.csv".
Definition BASE_PATH := "\\nashp\DATABUHP\Nam SEO\.Spidey".

(** The first file whose lower-cased name contains [num] and "spidey"
    (lines 65-70). *)
Definition find_match (num : string) (all_files : list string) : option string :=
  List.find (λ path, let filename := py_lower (basename path) in
                     str_contains num filename && str_contains "spidey" filename)
            all_files.

(** The row appended for a match (lines 80-102). *)
Definition new_row `{Host} (next_number : Z) (matched_file : string) : row :=
  mk_row (Some next_number) (Some matched_file)
         (Some (clip_duration_str matched_file))
         (get_creation_age_seconds matched_file).

(** One iteration of the loop of lines 61-114. *)
Definition alloc_step `{Host} (last_number : Z) (all_files : list string)
    (existing_paths : gset string) (st : state) (i : Z) : state :=
  let next_number := (last_number + i)%Z in
  let next_number_str := zfill_int 3 next_number in
  match find_match next_number_str all_files with
  | None => mk_state (csv st) (added_count st) (log st ++ [NotFound next_number_str])
  | Some matched_file =>
      if bool_decide (matched_file ∈ existing_paths)
      then mk_state (csv st) (added_count st)
                    (log st ++ [AlreadyExists next_number_str matched_file])
      else mk_state (Some (append_row (csv st) (new_row next_number matched_file)))
                    (added_count st + 1)
                    (log st ++ [Added next_number_str matched_file])
  end.

(** [range(1, batch_size + 1)] *)
Definition offsets (batch_size : Z) : list Z :=
  map (λ k, Z.of_nat k + 1)%Z (seq 0 (Z.to_nat batch_size)).

Definition check_and_add_next_spidey_videos `{Host} (batch_size : Z)
    (f : option ledger) : state :=
  match read_last_number f with
  | None => mk_state f 0 [ReadError]
  | Some last_number =>
      let existing_paths := registered_paths f in
      let all_files := allocator_files BASE_PATH in
      fold_left (alloc_step last_number all_files existing_paths)
                (offsets batch_size) (mk_state f 0 [])
  end.

(** The share of the witnesses: one folder with the given file names,
    clips of 902.5 seconds. *)
Definition share (names : list string) : Host :=
  demo_host BASE_PATH (Dir ".Spidey" names []) (1805 # 2)%Q.

(** ** Reference: what the loop appends, offset by offset *)

Definition offset_row `{Host} (last_number : Z) (all_files : list string)
    (existing_paths : gset string) (i : Z) : option row :=
  match find_match (zfill_int 3 (last_number + i)) all_files with
  | Some m => if bool_decide (m ∈ existing_paths) then None
              else Some (new_row (last_number + i) m)
  | None => None
  end.

Definition alloc_rows `{Host} (last_number : Z) (all_files : list string)
    (existing_paths : gset string) (offs : list Z) : list row :=
  omap (offset_row last_number all_files existing_paths) offs.

Definition offset_event (last_number : Z) (all_files : list string)
    (existing_paths : gset string) (i : Z) : event :=
  let num := zfill_int 3 (last_number + i) in
  match find_match num all_files with
  | Some m => if bool_decide (m ∈ existing_paths) then AlreadyExists num m else Added num m
  | None => NotFound num
  end.

(** ** The loop against the reference *)

Section Loop.
Context `{Host} (last_number : Z) (all_files : list string) (existing : gset string).

Lemma alloc_step_spec st i :
  let st' := alloc_step last_number all_files existing st i in
  ledger_rows (csv st') =
    ledger_rows (csv st) ++ option_list (offset_row last_number all_files existing i) ∧
  log st' = log st ++ [offset_event last_number all_files existing i] ∧
  added_count st' = (added_count st +
    Z.of_nat (length (option_list (offset_row last_number all_files existing i))))%Z.
Proof.
  unfold alloc_step, offset_row, offset_event.
  destruct (find_match _ _); [case_bool_decide|]; simpl.
  all: split_and!; rewrite ?append_row_rows; simpl; rewrite ?app_nil_r; try done.
  all: lia.
Qed.

Lemma alloc_rows_cons i offs :
  alloc_rows last_number all_files existing (i :: offs) =
  option_list (offset_row last_number all_files existing i) ++
  alloc_rows last_number all_files existing offs.
Proof. unfold alloc_rows. simpl. by destruct (offset_row _ _ _ i). Qed.

Lemma fold_alloc_step offs st :
  let st' := fold_left (alloc_step last_number all_files existing) offs st in
  ledger_rows (csv st') = ledger_rows (csv st) ++ alloc_rows last_number all_files existing offs ∧
  log st' = log st ++ map (offset_event last_number all_files existing) offs ∧
  added_count st' = (added_count st + Z.of_nat (length (alloc_rows last_number all_files existing offs)))%Z.
Proof.
  revert st. induction offs as [|i offs IH]; intros st.
  { simpl. rewrite !app_nil_r. split_and!; [done|done|simpl; lia]. }
  cbn [fold_left map].
  destruct (IH (alloc_step last_number all_files existing st i)) as (Hr & Hl & Hc).
  destruct (alloc_step_spec st i) as (Hr1 & Hl1 & Hc1).
  rewrite Hr, Hl, Hc, Hr1, Hl1, Hc1, alloc_rows_cons, length_app, <-!app_assoc.
  split_and!; [done|done|lia].
Qed.

Lemma elem_of_alloc_rows offs r :
  r ∈ alloc_rows last_number all_files existing offs ↔
  (∃ i m, i ∈ offs ∧ find_match (zfill_int 3 (last_number + i)) all_files = Some m ∧
          (m ∉ existing) ∧ r = new_row (last_number + i) m).
Proof.
  unfold alloc_rows. rewrite list_elem_of_omap. unfold offset_row. split.
  - intros (i & Hi & Hr). destruct (find_match _ _) as [m|] eqn:E; [|done].
    case_bool_decide; simplify_eq; eauto 10.
  - intros (i & m & Hi & Hm & Hex & ->). exists i. rewrite Hm.
    by case_bool_decide.
Qed.
(** The numbers of the rows the loop appends, for offsets in
    increasing order, increase. *)
Lemma alloc_rows_stt_sorted offs :
  StronglySorted Z.lt offs →
  StronglySorted Z.lt (omap stt (alloc_rows last_number all_files existing offs)).
Proof.
  induction 1 as [|i offs Hs IH Hall]; [constructor|].
  rewrite alloc_rows_cons, omap_app.
  destruct (offset_row _ _ _ i) as [r|] eqn:E; simpl; [|done].
  unfold offset_row in E. destruct (find_match _ _); [|done].
  case_bool_decide; simplify_eq/=. constructor; [done|].
  apply Forall_forall. intros k Hk%list_elem_of_omap.
  destruct Hk as (r & Hr%elem_of_alloc_rows & Hk).
  destruct Hr as (j & m & Hj & _ & _ & ->). simplify_eq/=.
  rewrite Forall_forall in Hall. specialize (Hall j Hj). lia.
Qed.
End Loop.

Lemma offsets_from_sorted j k :
  StronglySorted Z.lt (map (λ x, Z.of_nat x + 1)%Z (seq j k)).
Proof.
  revert j. induction k as [|k IH]; intros j; simpl; constructor; [done|].
  apply Forall_forall. intros y (x & -> & Hx%elem_of_seq)%list_elem_of_fmap. lia.
Qed.

Lemma offsets_sorted n : StronglySorted Z.lt (offsets n).
Proof. apply offsets_from_sorted. Qed.

Lemma elem_of_offsets n i : i ∈ offsets n ↔ (1 <= i <= n)%Z.
Proof.
  unfold offsets. rewrite list_elem_of_fmap. setoid_rewrite elem_of_seq. split.
  - intros (k & -> & Hk). lia.
  - intros Hi. exists (Z.to_nat (i - 1)). lia.
Qed.

(** ** What one call does *)

Section Call.
Context `{Host} (batch_size : Z) (f : option ledger).

(** The whole call against the reference (shared by the theorems
    below). *)
Lemma check_and_add_spec last_number :
  read_last_number f = Some last_number →
  let st := check_and_add_next_spidey_videos batch_size f in
  ledger_rows (csv st) =
    ledger_rows f ++ alloc_rows last_number (allocator_files BASE_PATH) (registered_paths f) (offsets batch_size) ∧
  log st = map (offset_event last_number (allocator_files BASE_PATH) (registered_paths f)) (offsets batch_size) ∧
  added_count st = Z.of_nat (length (alloc_rows last_number (allocator_files BASE_PATH) (registered_paths f) (offsets batch_size))).
Proof.
  intros Hl. unfold check_and_add_next_spidey_videos. rewrite Hl.
  destruct (fold_alloc_step last_number (allocator_files BASE_PATH) (registered_paths f)
              (offsets batch_size) (mk_state f 0 [])) as (-> & -> & ->).
  split_and!; [done|done|simpl; lia].
Qed.
(** C2: the call refines the reference: the file grows by exactly the
    rows of [alloc_rows] (one per offset whose first match is not yet
    registered), the log has one event per offset, and the count is the
    number of rows added. *)
Theorem alloc_refines last_number :
  read_last_number f = Some last_number →
  let st := check_and_add_next_spidey_videos batch_size f in
  ledger_rows (csv st) =
    ledger_rows f ++ alloc_rows last_number (allocator_files BASE_PATH) (registered_paths f) (offsets batch_size) ∧
  log st = map (offset_event last_number (allocator_files BASE_PATH) (registered_paths f)) (offsets batch_size) ∧
  added_count st = Z.of_nat (length (alloc_rows last_number (allocator_files BASE_PATH) (registered_paths f) (offsets batch_size))).
Proof. apply check_and_add_spec. Qed.

(** C7: append-only numbering.  The old rows are kept as a prefix, and
    every appended row has a number in [last+1 .. last+batch_size] and
    a path that was not registered before the call. *)
Theorem alloc_appends_above last_number :
  read_last_number f = Some last_number →
  ∃ new, ledger_rows (csv (check_and_add_next_spidey_videos batch_size f)) =
           ledger_rows f ++ new ∧
         ∀ r, r ∈ new → ∃ k p, stt r = Some k ∧
           (last_number < k <= last_number + batch_size)%Z ∧
           file_path r = Some p ∧ p ∉ registered_paths f.
Proof.
  intros Hl. destruct (check_and_add_spec last_number Hl) as (-> & _ & _).
  eexists; split; [done|]. intros r Hr.
  apply elem_of_alloc_rows in Hr as (i & m & Hi & _ & Hm & ->).
  apply elem_of_offsets in Hi.
  exists (last_number + i)%Z, m. simpl. split_and!; try done; lia.
Qed.

(** An offset with no matching file leaves a gap: it is logged as
    not found and no appended row carries its number. *)
Theorem alloc_gap last_number i :
  read_last_number f = Some last_number →
  (1 <= i <= batch_size)%Z →
  find_match (zfill_int 3 (last_number + i)) (allocator_files BASE_PATH) = None →
  let st := check_and_add_next_spidey_videos batch_size f in
  NotFound (zfill_int 3 (last_number + i)) ∈ log st ∧
  ∃ new, ledger_rows (csv st) = ledger_rows f ++ new ∧
         ∀ r, r ∈ new → stt r ≠ Some (last_number + i)%Z.
Proof.
  intros Hl Hi Hnone. cbv zeta. destruct (check_and_add_spec last_number Hl) as (-> & -> & _). split.
  - apply list_elem_of_fmap. exists i. rewrite elem_of_offsets. unfold offset_event.
    by rewrite Hnone.
  - eexists; split; [done|].
    intros r (j & m & Hj & Hm & _ & ->)%elem_of_alloc_rows [= Hij].
    assert (j = i) as -> by lia. congruence.
Qed.

(** C8: the invariant of the append mode.  A ledger whose numbers
    strictly increase (and that has the [stt] column) still has
    strictly increasing numbers after the call. *)
Theorem alloc_preserves_increasing :
  (∀ L, f = Some L → has_col L "stt" = true) →
  stt_increasing (ledger_rows f) →
  stt_increasing (ledger_rows (csv (check_and_add_next_spidey_videos batch_size f))).
Proof.
  intros Hcol Hinc.
  destruct (read_last_number_max f Hcol Hinc) as (last_number & Hl & Hmax).
  destruct (check_and_add_spec last_number Hl) as (-> & _ & _).
  destruct Hinc as [Hsome Hs]. split.
  - apply Forall_app. split; [done|]. apply Forall_forall.
    intros r (i & m & _ & _ & _ & ->)%elem_of_alloc_rows. by eexists.
  - rewrite omap_app. apply StronglySorted_app. split_and!; [|done|].
    + intros x y Hx (r & (i & m & Hi%elem_of_offsets & _ & _ & ->)%elem_of_alloc_rows & Hy)%list_elem_of_omap.
      simplify_eq/=. specialize (Hmax x Hx). lia.
    + apply alloc_rows_stt_sorted, offsets_sorted.
Qed.

(** C37 (finding): the registered paths are read once, before the loop,
    so a file whose name contains two of the batch's numbers is
    appended twice, and the ledger loses its unique-path invariant. *)
Theorem alloc_may_repeat_path last_number i j m :
  read_last_number f = Some last_number →
  (1 <= i <= batch_size)%Z → (1 <= j <= batch_size)%Z → i ≠ j →
  find_match (zfill_int 3 (last_number + i)) (allocator_files BASE_PATH) = Some m →
  find_match (zfill_int 3 (last_number + j)) (allocator_files BASE_PATH) = Some m →
  m ∉ registered_paths f →
  ¬ unique_paths (ledger_rows (csv (check_and_add_next_spidey_videos batch_size f))).
Proof.
  intros Hl Hi Hj Hij Hmi Hmj Hm. destruct (check_and_add_spec last_number Hl) as (-> & _ & _).
  intros Hnd.
  assert (∀ k, (1 <= k <= batch_size)%Z →
            find_match (zfill_int 3 (last_number + k)) (allocator_files BASE_PATH) = Some m →
            new_row (last_number + k) m ∈ ledger_rows f ++
              alloc_rows last_number (allocator_files BASE_PATH) (registered_paths f)
                (offsets batch_size)) as Hin.
  { intros k Hk Hmk. apply elem_of_app. right. apply elem_of_alloc_rows.
    exists k, m. by rewrite elem_of_offsets. }
  pose proof (NoDup_omap_inj file_path _ _ _ m Hnd (Hin i Hi Hmi) (Hin j Hj Hmj)
                eq_refl eq_refl) as Heq.
  injection Heq. lia.
Qed.
(** C39 (finding): the number is matched as a substring of the file
    name, not as a number bounded by non-digits (the rule spec 4.3 asks
    for): when the first file of the share has "spidey" in its name and
    the zero-padded next number right after a digit [d], that is, as the
    last digits of another, larger number, the file is still appended
    as row [last+1]. *)
Theorem alloc_matches_inside_number last_number m rest d :
  read_last_number f = Some last_number → (1 <= batch_size)%Z →
  allocator_files BASE_PATH = m :: rest →
  is_digit_char d = true →
  str_contains "spidey" (py_lower (basename m)) = true →
  str_contains (String d (zfill_int 3 (last_number + 1))) (py_lower (basename m)) = true →
  m ∉ registered_paths f →
  new_row (last_number + 1) m ∈ ledger_rows (csv (check_and_add_next_spidey_videos batch_size f)).
Proof.
  intros Hl Hb Hfiles _ Hs Hn Hm. destruct (check_and_add_spec last_number Hl) as (-> & _ & _).
  apply elem_of_app. right. apply elem_of_alloc_rows. exists 1%Z, m.
  rewrite elem_of_offsets, Hfiles. split_and!; try done; try lia.
  unfold find_match. simpl. apply str_contains_cons in Hn. by rewrite Hn, Hs.
Qed.
End Call.

(** ** Scenarios and witnesses *)

(** The spec's scenario: twelve rows, batch size 3, files for 013 and
    015 but none for 014.  Two rows (13 and 15) are appended after the
    untouched twelve, 014 is logged as not found. *)
Definition scenario_share : Host := share ["Spidey 013.mp4"; "notes.txt"; "spidey 015 final.MOV"].

Lemma alloc_refines_witness :
  read_last_number (Some (numbered_ledger 12)) = Some 12%Z ∧
  let st := @check_and_add_next_spidey_videos scenario_share 3 (Some (numbered_ledger 12)) in
  (ledger_rows (csv st) = ledger_rows (Some (numbered_ledger 12)) ++
    @alloc_rows scenario_share 12 (@allocator_files scenario_share BASE_PATH)
      (registered_paths (Some (numbered_ledger 12))) (offsets 3) ∧
   log st = map (offset_event 12 (@allocator_files scenario_share BASE_PATH)
                  (registered_paths (Some (numbered_ledger 12)))) (offsets 3) ∧
   added_count st = Z.of_nat (length (@alloc_rows scenario_share 12
      (@allocator_files scenario_share BASE_PATH)
      (registered_paths (Some (numbered_ledger 12))) (offsets 3)))) ∧
  take 12 (ledger_rows (csv st)) = rows (numbered_ledger 12) ∧
  map stt (drop 12 (ledger_rows (csv st))) = [Some 13%Z; Some 15%Z] ∧
  log st = [Added "013" (BASE_PATH +:+ "\Spidey 013.mp4");
            NotFound "014";
            Added "015" (BASE_PATH +:+ "\spidey 015 final.MOV")] ∧
  added_count st = 2%Z.
Proof.
  split; [reflexivity|]. cbv zeta. split.
  - apply (@alloc_refines scenario_share 3 (Some (numbered_ledger 12)) 12). reflexivity.
  - vm_compute. split_and!; reflexivity.
Defined.

Lemma alloc_appends_above_witness :
  read_last_number (Some (numbered_ledger 12)) = Some 12%Z ∧
  ∃ new, ledger_rows (csv (@check_and_add_next_spidey_videos
                             (share ["Spidey 013.mp4"]) 3 (Some (numbered_ledger 12)))) =
           ledger_rows (Some (numbered_ledger 12)) ++ new ∧
         ∀ r, r ∈ new → ∃ k p, stt r = Some k ∧ (12 < k <= 12 + 3)%Z ∧
           file_path r = Some p ∧ p ∉ registered_paths (Some (numbered_ledger 12)).
Proof.
  split; [reflexivity|].
  apply (@alloc_appends_above (share ["Spidey 013.mp4"])). reflexivity.
Defined.

Lemma alloc_gap_witness :
  let st := @check_and_add_next_spidey_videos (share ["Spidey 013.mp4"]) 3
              (Some (numbered_ledger 12)) in
  NotFound (zfill_int 3 (12 + 2)) ∈ log st ∧
  ∃ new, ledger_rows (csv st) = ledger_rows (Some (numbered_ledger 12)) ++ new ∧
         ∀ r, r ∈ new → stt r ≠ Some (12 + 2)%Z.
Proof.
  apply (@alloc_gap (share ["Spidey 013.mp4"]) 3 (Some (numbered_ledger 12)) 12 2);
    [reflexivity|lia|vm_compute; reflexivity].
Defined.

Lemma alloc_preserves_increasing_witness :
  stt_increasing (ledger_rows (Some (numbered_ledger 3))) ∧
  stt_increasing (ledger_rows (csv (@check_and_add_next_spidey_videos
                     (share ["spidey 004.mp4"; "spidey 005.mp4"]) 2 (Some (numbered_ledger 3))))).
Proof.
  assert (stt_increasing (ledger_rows (Some (numbered_ledger 3)))) as Hinc.
  { split; vm_compute; repeat constructor; try (eexists; reflexivity). }
  split; [exact Hinc|].
  apply (@alloc_preserves_increasing (share ["spidey 004.mp4"; "spidey 005.mp4"]));
    [intros L [= <-]; reflexivity | exact Hinc].
Defined.

Lemma alloc_may_repeat_path_witness :
  ¬ unique_paths (ledger_rows (csv (@check_and_add_next_spidey_videos
                    (share ["spidey 013 014.mp4"]) 2 (Some (numbered_ledger 12))))).
Proof.
  apply (@alloc_may_repeat_path (share ["spidey 013 014.mp4"]) 2 (Some (numbered_ledger 12))
           12 1 2 (BASE_PATH +:+ "\spidey 013 014.mp4"));
    try (vm_compute; reflexivity); try lia.
  vm_compute. set_solver.
Defined.


(** For number 14, the file "spidey 1014.mp4" (the number 1014) is
    appended as row 14. *)
Lemma alloc_matches_inside_number_witness :
  new_row (H:=share ["spidey 1014.mp4"]) 14 (BASE_PATH +:+ "\spidey 1014.mp4") ∈
    ledger_rows (csv (@check_and_add_next_spidey_videos (share ["spidey 1014.mp4"]) 1
                        (Some (numbered_ledger 13)))).
Proof.
  apply (@alloc_matches_inside_number (share ["spidey 1014.mp4"]) 1 (Some (numbered_ledger 13))
           13 (BASE_PATH +:+ "\spidey 1014.mp4") [] (Ascii.ascii_of_nat 49));
    first [reflexivity | lia | (vm_compute; set_solver)].
Defined.

End Allocator.
