(* ===== verification/Sync.v ===== *)
(** * Ledger synchroniser: the rebuild mode (update_data.py)

    [sync(folder)] recomputes the whole ledger from the disk: scan the
    folder, sort the files by lower-cased base name, keep the files
    whose ffprobe duration is at least 60 seconds, key the rows by path
    in a Python dict, sort the rows by base name again, number them
    [1..N] and write them.  The previous ledger is only read to report
    the paths added and removed.  The [__main__] block strips quotes from
    the typed folder and exits when it is no directory.  The section
    [Rerun] compares two runs: the first on a host, the second on the
    same host at a later time ([later_run]). *)

From S2P Require Import Prelude Host Probe Scanner Ledger.
From Stdlib Require Import QArith Lqa.

Local Open Scope string_scope.
Local Open Scope list_scope.
Import Ledger Probe Scanner.

Module Sync.

Definition OUTPUT_FILE := "C:\Users\Admin\Documents\concatenate videos\ref\beca_data.csv".

(** [get_creation_age_seconds(fp) or ""]: [None] and [0] both give an
    empty cell. *)
Definition age_or_empty (a : option Z) : option Z :=
  match a with
  | Some 0%Z | None => None
  | Some n => Some n
  end.

(** The row of one file, or [None] when [not dur or dur < 60]
    (lines 71-79). *)
Definition build_row `{Host} (fp : string) : option row :=
  match ffprobe_duration_seconds fp with
  | None => None
  | Some dur =>
      if Qeq_bool dur 0 || negb (Qle_bool 60 dur) then None
      else Some (mk_row None (Some fp) (Some (format_mmss dur))
                        (age_or_empty (get_creation_age_seconds fp)))
  end.

(** [os.path.basename(p).lower()], the sort key of lines 68 and 94. *)
Definition file_key (p : string) : string := py_lower (basename p).
Definition row_key (r : row) : string := file_key (default "" (file_path r)).

(** [build_rows] (lines 67-80). *)
Definition build_rows `{Host} (folder : string) : list row :=
  omap build_row (sort_by file_key (get_file_list folder)).

(** [d[r['file_path']] = r] on a Python dict kept as the list of its
    values in insertion order: an existing key keeps its place and takes
    the new value, a new key goes last. *)
Fixpoint dict_set (r : row) (d : list row) : list row :=
  match d with
  | [] => [r]
  | r' :: d' =>
      if bool_decide (file_path r' = file_path r) then r :: d' else r' :: dict_set r d'
  end.

(** [{r['file_path']: r for r in desired}.values()] *)
Definition dict_by_path (rs : list row) : list row :=
  fold_left (λ d r, dict_set r d) rs [].

(** [for i, r in enumerate(rows, 1): r['stt'] = i] *)
Fixpoint number_rows (i : Z) (rs : list row) : list row :=
  match rs with
  | [] => []
  | r :: rs' =>
      mk_row (Some i) (file_path r) (duration r) (lastest_used_value r) :: number_rows (i + 1) rs'
  end.

(** What [sync] logs: the total and the two set differences. *)
Record report := mk_report { total : nat; to_add : gset string; to_remove : gset string }.

(** [sync(folder)] (lines 82-102): the ledger written and the report. *)
Definition sync `{Host} (cur : option ledger) (folder : string) : ledger * report :=
  let df_cur := read_existing_csv cur in
  let desired := build_rows folder in
  let desired_paths : gset string := list_to_set (paths desired) in
  let cur_paths : gset string := list_to_set (paths (rows df_cur)) in
  let final := dict_by_path desired in
  let rs := number_rows 1 (sort_by row_key final) in
  (mk_ledger ledger_columns rs,
   mk_report (length rs) (desired_paths ∖ cur_paths) (cur_paths ∖ desired_paths)).

(** [s.strip(c)] for one character [c]. *)
Definition strip_char (c : Ascii.ascii) (s : string) : string :=
  let fix lstrip (s : string) : string :=
    match s with
    | String d r => if Ascii.eqb d c then lstrip r else s
    | "" => ""
    end in
  String.rev (lstrip (String.rev (lstrip s))).

(** The [__main__] block (lines 104-109): the typed path loses its
    double quotes (34), then its single quotes (39); [None] is the exit on
    a path that is no directory, else the file written by [sync]. *)
Definition sync_main `{Host} (cur : option ledger) (typed : string) : option (ledger * report) :=
  let folder := strip_char (Ascii.ascii_of_nat 39) (strip_char (Ascii.ascii_of_nat 34) typed) in
  match host_tree folder with
  | None => None
  | Some _ => Some (sync cur folder)
  end.

(** ** The dict, the numbering and the rows *)

Lemma dict_set_elem r d x : x ∈ dict_set r d → x = r ∨ x ∈ d.
Proof.
  induction d as [|r' d IH]; simpl; [set_solver|].
  case_bool_decide; rewrite !elem_of_cons; naive_solver.
Qed.

Lemma dict_set_keys r d : map file_path (dict_set r d) ≡ₚ
  (if bool_decide (file_path r ∈ map file_path d) then map file_path d
   else map file_path d ++ [file_path r]).
Proof.
  induction d as [|r' d IH]; simpl; [done|].
  destruct (decide (file_path r' = file_path r)) as [E|E].
  - rewrite bool_decide_true by done. simpl.
    rewrite bool_decide_true by (rewrite E; set_solver). by rewrite E.
  - rewrite bool_decide_false by done. simpl. rewrite IH.
    destruct (decide (file_path r ∈ map file_path d)).
    + by rewrite !bool_decide_true by set_solver.
    + rewrite !bool_decide_false by set_solver. done.
Qed.

Lemma dict_set_nodup r d : NoDup (map file_path d) → NoDup (map file_path (dict_set r d)).
Proof.
  intros Hnd. rewrite dict_set_keys. case_bool_decide; [done|].
  apply NoDup_app. split_and!; [done| |apply NoDup_singleton]. set_solver.
Qed.

Lemma dict_set_key_elem r d k :
  k ∈ map file_path (dict_set r d) ↔ k = file_path r ∨ k ∈ map file_path d.
Proof. rewrite dict_set_keys. case_bool_decide; set_solver. Qed.

Lemma dict_fold_props rs d :
  let d' := fold_left (λ d r, dict_set r d) rs d in
  (NoDup (map file_path d) → NoDup (map file_path d')) ∧
  (∀ x, x ∈ d' → x ∈ d ∨ x ∈ rs) ∧
  (∀ k, k ∈ map file_path d' ↔ k ∈ map file_path d ∨ k ∈ map file_path rs).
Proof.
  revert d. induction rs as [|r rs IH]; intros d; simpl; [set_solver|].
  destruct (IH (dict_set r d)) as (H1 & H2 & H3). split_and!.
  - intros. by apply H1, dict_set_nodup.
  - intros x Hx. destruct (H2 x Hx) as [[->|]%dict_set_elem|]; set_solver.
  - intros k. rewrite H3, dict_set_key_elem. set_solver.
Qed.

Lemma dict_by_path_nodup rs : NoDup (map file_path (dict_by_path rs)).
Proof. apply (dict_fold_props rs []). constructor. Qed.

Lemma dict_by_path_elem rs x : x ∈ dict_by_path rs → x ∈ rs.
Proof. intros Hx. destruct (dict_fold_props rs []) as (_ & H & _). set_solver. Qed.

Lemma dict_by_path_keys rs k : k ∈ map file_path (dict_by_path rs) ↔ k ∈ map file_path rs.
Proof. destruct (dict_fold_props rs []) as (_ & _ & H). rewrite H. set_solver. Qed.

Lemma number_rows_paths i rs : map file_path (number_rows i rs) = map file_path rs.
Proof. revert i. induction rs; intros i; simpl; f_equal; auto. Qed.

Lemma length_number_rows i rs : length (number_rows i rs) = length rs.
Proof. revert i. induction rs; intros i; simpl; auto. Qed.

Lemma number_rows_stt j rs :
  map stt (number_rows (Z.of_nat j) rs) = map (λ k, Some (Z.of_nat k)) (seq j (length rs)).
Proof.
  revert j. induction rs as [|r rs IH]; intros j; simpl; [done|].
  f_equal. replace (Z.of_nat j + 1)%Z with (Z.of_nat (S j)) by lia. apply IH.
Qed.

Lemma number_rows_elem i rs x :
  x ∈ number_rows i rs → ∃ r, r ∈ rs ∧ file_path x = file_path r ∧ duration x = duration r.
Proof.
  revert i. induction rs as [|r rs IH]; intros i; simpl; [set_solver|].
  intros [->|(r' & ? & ?)%IH]%elem_of_cons; [exists r|exists r']; set_solver.
Qed.

Lemma number_rows_sorted i rs :
  Sorted (key_le row_key) rs → Sorted (key_le row_key) (number_rows i rs).
Proof.
  revert i. induction rs as [|r rs IH]; intros i Hs; simpl; [constructor|].
  inversion Hs as [|? ? Hs' Hhd]; subst. constructor; [by apply IH|].
  destruct rs as [|r2 rs]; simpl; constructor. inversion Hhd. done.
Qed.

(** A map that keeps the paths commutes with the dict and the numbering. *)
Lemma dict_set_map (f : row → row) r d :
  (∀ x, file_path (f x) = file_path x) → dict_set (f r) (map f d) = map f (dict_set r d).
Proof.
  intros Hf. induction d as [|r' d IH]; simpl; [done|]. rewrite !Hf.
  case_bool_decide; simpl; by rewrite ?IH.
Qed.

Lemma dict_by_path_map (f : row → row) rs :
  (∀ x, file_path (f x) = file_path x) → dict_by_path (map f rs) = map f (dict_by_path rs).
Proof.
  intros Hf. unfold dict_by_path.
  assert (∀ d, fold_left (λ d r, dict_set r d) (map f rs) (map f d) =
               map f (fold_left (λ d r, dict_set r d) rs d)) as Hd; [|apply (Hd [])].
  induction rs as [|r rs IH]; intros d; simpl; [done|]. by rewrite dict_set_map, IH.
Qed.

Lemma paths_map (f : row → row) rs :
  (∀ x, file_path (f x) = file_path x) → paths (map f rs) = paths rs.
Proof.
  intros Hf. unfold paths. induction rs as [|r rs IH]; [done|].
  cbn [map]. rewrite !omap_cons_eq, Hf, IH. done.
Qed.

(** Without duplicate paths, the dict keeps the rows as they are. *)
Lemma dict_set_fresh r d : file_path r ∉ map file_path d → dict_set r d = d ++ [r].
Proof.
  induction d as [|r' d IH]; simpl; [done|]. intros Hn.
  rewrite bool_decide_false by set_solver. rewrite IH by set_solver. done.
Qed.

Lemma dict_by_path_id rs : NoDup (map file_path rs) → dict_by_path rs = rs.
Proof.
  unfold dict_by_path.
  assert (∀ d, NoDup (map file_path (d ++ rs)) →
               fold_left (λ d r, dict_set r d) rs d = d ++ rs) as Hd; [|apply (Hd [])].
  induction rs as [|r rs IH]; intros d Hnd; simpl; [by rewrite app_nil_r|].
  rewrite map_app in Hnd. pose proof Hnd as (_ & Hdis & _)%NoDup_app.
  rewrite dict_set_fresh by (intros Hin; by apply (Hdis _ Hin); left).
  rewrite IH; [by rewrite <-app_assoc|]. rewrite <-app_assoc, map_app. exact Hnd.
Qed.

(** Among the rows of one file name, the numbering keeps the order. *)
Lemma number_rows_filter_paths i rs k :
  paths (filter (λ r, row_key r = k) (number_rows i rs)) = paths (filter (λ r, row_key r = k) rs).
Proof.
  revert i. induction rs as [|r rs IH]; intros i; [done|]. cbn [number_rows].
  rewrite !filter_cons.
  change (row_key (mk_row _ (file_path r) _ _)) with (row_key r).
  case_decide; [|apply IH]. unfold paths in *. rewrite !omap_cons_eq, IH. done.
Qed.

Lemma build_row_some `{Host} fp r :
  build_row fp = Some r ↔
  ∃ d, ffprobe_duration_seconds fp = Some d ∧ (60 <= d)%Q ∧
       r = mk_row None (Some fp) (Some (format_mmss d)) (age_or_empty (get_creation_age_seconds fp)).
Proof.
  unfold build_row. destruct (ffprobe_duration_seconds fp) as [d|]; [|naive_solver].
  destruct (Qeq_bool d 0) eqn:E0, (Qle_bool 60 d) eqn:E60; simpl.
  3: { split; [intros [= <-]; eauto using Qle_bool_imp_le|]. by intros (d' & [= <-] & _ & ->). }
  all: split; [done|]; intros (d' & [= <-] & Hd & _).
  all: apply Qeq_bool_iff in E0 || (apply Qle_bool_iff in Hd; congruence).
  all: lra.
Qed.

(** ** The contract of the rebuild mode *)

(** What the spec asks of the ledger written from the scanned [files]
    with the duration [probe]: the fixed columns, numbers [1..N] in
    order, rows sorted by lower-cased file name, no duplicate path,
    exactly the files of at least 60 seconds, each with its duration. *)
Record rebuild_spec (files : list string) (probe : string → option Q) (L : ledger) : Prop := {
  rs_columns : columns L = ledger_columns;
  rs_dense : map stt (rows L) = map (λ k, Some (Z.of_nat k)) (seq 1 (length (rows L)));
  rs_sorted : Sorted (key_le row_key) (rows L);
  rs_unique : NoDup (paths (rows L));
  rs_members : ∀ p, p ∈ paths (rows L) ↔ p ∈ files ∧ ∃ d, probe p = Some d ∧ (60 <= d)%Q;
  rs_duration : ∀ r, r ∈ rows L → ∃ p d, file_path r = Some p ∧ probe p = Some d ∧
                  (60 <= d)%Q ∧ duration r = Some (format_mmss d)
}.

Section Rebuild.
Context `{Host} (cur : option ledger) (folder : string).

Lemma build_rows_elem r :
  r ∈ build_rows folder ↔ ∃ fp, fp ∈ get_file_list folder ∧ build_row fp = Some r.
Proof.
  unfold build_rows. rewrite list_elem_of_omap.
  setoid_rewrite (sort_by_perm file_key (get_file_list folder)). done.
Qed.

Lemma build_rows_keys p :
  Some p ∈ map file_path (build_rows folder) ↔
  p ∈ get_file_list folder ∧ ∃ d, ffprobe_duration_seconds p = Some d ∧ (60 <= d)%Q.
Proof.
  rewrite list_elem_of_fmap. setoid_rewrite build_rows_elem.
  setoid_rewrite build_row_some. split.
  - intros (r & Hp & fp & Hfp & d & Hd & Hle & ->). simplify_eq/=. eauto.
  - intros (Hp & d & Hd & Hle). eexists; split; [|exists p; split; [done|eauto]]. done.
Qed.

(** The rows [sync] writes, before numbering. *)
Lemma sync_rows :
  rows (fst (sync cur folder)) =
  number_rows (Z.of_nat 1) (sort_by row_key (dict_by_path (build_rows folder))).
Proof. done. Qed.

Lemma sync_meets_spec :
  rebuild_spec (get_file_list folder) ffprobe_duration_seconds (fst (sync cur folder)).
Proof.
  assert (map file_path (sort_by row_key (dict_by_path (build_rows folder))) ≡ₚ map file_path (dict_by_path (build_rows folder)))
    as Hperm by (apply Permutation_map, sort_by_perm).
  constructor; rewrite ?sync_rows.
  - done.
  - by rewrite number_rows_stt, length_number_rows.
  - apply number_rows_sorted, sort_by_sorted.
  - apply NoDup_map_omap. rewrite number_rows_paths, Hperm. apply dict_by_path_nodup.
  - intros p. unfold paths. rewrite elem_of_omap_map, number_rows_paths, Hperm,
      dict_by_path_keys. apply build_rows_keys.
  - intros r (r0 & Hr0 & -> & ->)%number_rows_elem.
    rewrite (sort_by_perm row_key) in Hr0.
    apply dict_by_path_elem, build_rows_elem in Hr0 as (fp & _ & Hb). apply build_row_some in Hb as (d & Hd & Hle & ->).
    simpl. eauto 10.
Qed.
(** C1: the rebuild mode meets its contract: [sync] writes a ledger
    numbered [1..N], sorted by file name, without duplicate paths,
    holding exactly the scanned files whose probe gives at least 60
    seconds, each with its formatted duration. *)
Theorem sync_refines :
  rebuild_spec (get_file_list folder) ffprobe_duration_seconds (fst (sync cur folder)).
Proof. apply sync_meets_spec. Qed.

Lemma read_back_written :
  rows (read_existing_csv (Some (fst (sync cur folder)))) = rows (fst (sync cur folder)).
Proof.
  by apply read_existing_csv_full.
Qed.

(** The rows of one file name, in the order of the list they are built
    from. *)
Lemma filter_build_rows k (l : list string) :
  filter (λ r, row_key r = k) (omap build_row l) = omap build_row (filter (λ p, file_key p = k) l).
Proof.
  induction l as [|p l IH]; [done|]. rewrite omap_cons_eq, filter_cons.
  destruct (build_row p) as [r|] eqn:E.
  - assert (row_key r = file_key p) as Hk
      by (apply build_row_some in E as (d & _ & _ & ->); reflexivity).
    rewrite filter_cons, Hk. case_decide; [rewrite omap_cons_eq, E|]; by rewrite IH.
  - case_decide; [rewrite omap_cons_eq, E|]; by rewrite IH.
Qed.

Lemma build_rows_nodup (l : list string) : NoDup l → NoDup (map file_path (omap build_row l)).
Proof.
  induction 1 as [|p l Hp _ IH]; [constructor|]. rewrite omap_cons_eq.
  destruct (build_row p) as [r|] eqn:E; [|done].
  apply build_row_some in E as (d & _ & _ & ->). constructor; [|done].
  intros (r & Hr & (q & Hq & Hb)%list_elem_of_omap)%list_elem_of_fmap.
  apply build_row_some in Hb as (? & _ & _ & ->). simplify_eq/=. done.
Qed.

(** C38 (finding): the rows are sorted on the base name only and the sort
    is stable, so the files of one lower-cased name [k] (in different
    folders) appear in the ledger in the order os.walk lists them: the
    numbering depends on the order the operating system returns the
    folders in. *)
Theorem sync_equal_names_walk_order k :
  NoDup (get_file_list folder) →
  paths (filter (λ r, row_key r = k) (rows (fst (sync cur folder)))) =
  paths (filter (λ r, row_key r = k) (omap build_row (get_file_list folder))).
Proof.
  intros Hnd. rewrite sync_rows, number_rows_filter_paths, sort_by_filter.
  unfold build_rows. rewrite dict_by_path_id by (apply build_rows_nodup; by rewrite sort_by_perm).
  by rewrite !filter_build_rows, sort_by_filter.
Qed.
End Rebuild.

(** ** Scenarios *)

(** The tree of the witnesses: five videos of at least a minute (two in
    a sub-folder), two shorter clips, a text file, and a "quay" folder
    whose video is skipped. *)
Definition catalogue_host : Host :=
  probe_host "D:\vids"
    (Dir "vids" ["b.mp4"; "A.mp4"; "c.mkv"; "e.mov"; "notes.txt"]
       [Dir "sub" ["d.avi"; "x.mp4"; "g.MKV"] []; Dir "quay" ["f.MP4"] []])
    [("D:\vids\b.mp4", "75.0"); ("D:\vids\A.mp4", "3600.5"); ("D:\vids\c.mkv", "59.9");
     ("D:\vids\e.mov", "120"); ("D:\vids\sub\d.avi", "61"); ("D:\vids\sub\x.mp4", "12");
     ("D:\vids\sub\g.MKV", " 600.000000 "); ("D:\vids\quay\f.MP4", "60.000000")].

(** The spec's scenario: five qualifying videos and two clips under 60
    seconds give exactly five rows, numbered 1..5 in file-name order. *)
Lemma sync_refines_witness :
  rebuild_spec (@get_file_list catalogue_host "D:\vids") (@ffprobe_duration_seconds catalogue_host)
    (fst (@sync catalogue_host None "D:\vids")) ∧
  map (λ r, (stt r, file_path r, duration r)) (rows (fst (@sync catalogue_host None "D:\vids"))) =
  [(Some 1%Z, Some "D:\vids\A.mp4", Some "60:00");
   (Some 2%Z, Some "D:\vids\b.mp4", Some "1:15");
   (Some 3%Z, Some "D:\vids\sub\d.avi", Some "1:01");
   (Some 4%Z, Some "D:\vids\e.mov", Some "2:00");
   (Some 5%Z, Some "D:\vids\sub\g.MKV", Some "10:00")].
Proof.
  split; [exact (@sync_refines catalogue_host None "D:\vids")|]. vm_compute. reflexivity.
Defined.

(** Two trees that differ only in the order the operating system lists
    two sub-folders, each holding a "clip.mp4". *)
Definition twin_host (swap : bool) : Host :=
  let a := Dir "a" ["clip.mp4"] [] in
  let b := Dir "b" ["clip.mp4"] [] in
  probe_host "D:\v" (Dir "v" [] (if swap then [b; a] else [a; b]))
    [("D:\v\a\clip.mp4", "90"); ("D:\v\b\clip.mp4", "90")].

(** On the two trees, the ledger numbers the two "clip.mp4" in the two
    opposite orders, each the walk's. *)
Lemma sync_equal_names_walk_order_witness :
  NoDup (@get_file_list (twin_host false) "D:\v") ∧
  NoDup (@get_file_list (twin_host true) "D:\v") ∧
  paths (filter (λ r, row_key r = "clip.mp4")
           (rows (fst (@sync (twin_host false) None "D:\v")))) =
    ["D:\v\a\clip.mp4"; "D:\v\b\clip.mp4"] ∧
  paths (filter (λ r, row_key r = "clip.mp4")
           (rows (fst (@sync (twin_host true) None "D:\v")))) =
    ["D:\v\b\clip.mp4"; "D:\v\a\clip.mp4"].
Proof.
  assert (NoDup (@get_file_list (twin_host false) "D:\v")) as H0
    by (vm_compute; repeat constructor; set_solver).
  assert (NoDup (@get_file_list (twin_host true) "D:\v")) as H1
    by (vm_compute; repeat constructor; set_solver).
  split_and!; [exact H0|exact H1| |].
  - rewrite (@sync_equal_names_walk_order (twin_host false) None "D:\v" "clip.mp4" H0).
    vm_compute. reflexivity.
  - rewrite (@sync_equal_names_walk_order (twin_host true) None "D:\v" "clip.mp4" H1).
    vm_compute. reflexivity.
Defined.

(** ** A later run *)

(** The row with its age cell replaced. *)
Definition with_age (a : option Z) (r : row) : row :=
  mk_row (stt r) (file_path r) (duration r) a.

(** The row as a run on this host computes its age cell. *)
Definition reage `{Host} (r : row) : row :=
  with_age (age_or_empty (get_creation_age_seconds (default "" (file_path r)))) r.

Section Rerun.
Context (H1 : Host) (clock : string → Q) (mtime : string → option Q).
Local Notation H2 := (later_run H1 clock mtime).

Lemma build_row_later fp : @build_row H2 fp = @reage H2 <$> @build_row H1 fp.
Proof.
  unfold build_row.
  change (@ffprobe_duration_seconds H2 fp) with (@ffprobe_duration_seconds H1 fp).
  destruct (@ffprobe_duration_seconds H1 fp) as [d|]; [|done].
  by destruct (_ || _).
Qed.

Lemma build_rows_later folder : @build_rows H2 folder = map (@reage H2) (@build_rows H1 folder).
Proof.
  unfold build_rows. change (@get_file_list H2 folder) with (@get_file_list H1 folder).
  induction (sort_by file_key (@get_file_list H1 folder)) as [|p l IH]; [done|].
  rewrite !omap_cons_eq, build_row_later. destruct (@build_row H1 p); simpl; by rewrite IH.
Qed.

Lemma number_rows_reage i rs :
  number_rows i (map (@reage H2) rs) = map (@reage H2) (number_rows i rs).
Proof. revert i. induction rs as [|r rs IH]; intros i; simpl; [done|]. by rewrite IH. Qed.

(** C14: a later run of the rebuild (the same tree and probes, another
    clock and other modification times) on the ledger the first run wrote
    writes the same ledger except the [lastest_used_value] column, which
    holds the ages at the new time, and reports no path added and none
    removed. *)
Theorem sync_rerun_stable cur folder :
  let L := fst (@sync H1 cur folder) in
  fst (@sync H2 (Some L) folder) = mk_ledger (columns L) (map (@reage H2) (rows L)) ∧
  to_add (snd (@sync H2 (Some L) folder)) = ∅ ∧
  to_remove (snd (@sync H2 (Some L) folder)) = ∅.
Proof.
  cbv zeta.
  assert (∀ p, p ∈ paths (rows (read_existing_csv (Some (fst (@sync H1 cur folder))))) ↔
               p ∈ paths (@build_rows H2 folder)) as Hp.
  { intros p. rewrite build_rows_later, paths_map by done.
    rewrite (@read_back_written H1 cur folder), (rs_members _ _ _ (@sync_meets_spec H1 cur folder)).
    unfold paths. by rewrite elem_of_omap_map, (@build_rows_keys H1). }
  split_and!.
  - change (fst (@sync H2 ?c folder)) with
      (mk_ledger ledger_columns (rows (fst (@sync H2 c folder)))).
    rewrite (@sync_rows H2), (@sync_rows H1), build_rows_later, dict_by_path_map,
      sort_by_map, number_rows_reage by done.
    reflexivity.
  - cbn [sync snd to_add]. apply set_eq; intros p.
    rewrite elem_of_difference, !elem_of_list_to_set. set_solver.
  - cbn [sync snd to_remove]. apply set_eq; intros p.
    rewrite elem_of_difference, !elem_of_list_to_set. set_solver.
Qed.

End Rerun.

End Sync.
