(* ===== verification/LedgerFile.v ===== *)
(** * The ledger file: the CSV text between a write and the next read

    update_data.py writes the ledger with [write_csv(path, df)] (lines
    64-65): [df.to_csv(path, index=False, encoding='utf-8-sig',
    quoting=csv.QUOTE_MINIMAL)].  module3.py, test.py and
    update_data.py read it with [pd.read_csv(path, encoding='utf-8-sig')].
    The other files work on the table ([Ledger.ledger]).  This file
    models the text in between and proves that the read gives back the
    table the write was given.

    The writer is Python's [csv.writer] as pandas calls it:
    - the fields of a record are joined by commas, and the record ends
      with [os.linesep], "\r\n" on the Windows machines the scripts run
      on;
    - a field holding a comma, a double quote, \r or \n is written
      between double quotes, with each double quote doubled;
    - a record made of one empty field is written as two double quotes;
    - the text opens with the byte order mark of utf-8-sig;
    - a cell is [str] of its value (an integer in decimal, a text as it
      is, a missing value as the empty field).

    The reader is pandas' C tokenizer (delimiter ",", the double quote
    as quote character, doubled quotes, any of \r, \n, \r\n ending a
    record, blank and whitespace-only lines skipped), then its column
    typing:
    - the first record names the columns ("Unnamed: j" for an empty
      name, repeats renamed "a.1", ...); a shorter record is padded with
      missing cells, and a longer one is an error;
    - a cell in pandas' NA list (the empty field, "NA", "NaN", "None",
      ...) is missing;
    - a column is int64 when every cell is an integer, float64 when every
      present cell is a number, bool when every cell is a boolean word,
      and text otherwise.

    Text is a list of bytes: the UTF-8 bytes of a non-ASCII character
    are all above 127, so the tokenizer, which only looks at ASCII
    bytes, reads the same fields from the bytes as from the characters.

    [read_csv] gives [None] both when pandas raises (a quoted field left
    open at the end, a record longer than the header, an empty file) and
    when a cell of the ledger's four columns holds a value the table
    cannot hold: a non-integral number, or a text in [stt] or a number in
    [file_path].  Numbers with an exponent, "inf", the implicit index
    column pandas creates when every record is one field longer than the
    header, and the thousands separator are outside the model. *)

From S2P Require Import Prelude Host Probe Scanner Ledger Sync.
From Stdlib Require Import Ascii QArith Qround.

Local Open Scope string_scope.
Local Open Scope list_scope.
Import Ledger Scanner Sync.

Module LedgerFile.

(** ** Bytes *)

Definition QUOTE : ascii := ascii_of_nat 34.
Definition COMMA : ascii := ascii_of_nat 44.
Definition CR : ascii := ascii_of_nat 13.
Definition LF : ascii := ascii_of_nat 10.
Definition SPACE : ascii := ascii_of_nat 32.
Definition TAB : ascii := ascii_of_nat 9.

(** The byte order mark [encoding='utf-8-sig'] writes and drops. *)
Definition BOM : list ascii := [ascii_of_nat 239; ascii_of_nat 187; ascii_of_nat 191].

(** [IS_WHITESPACE] of the tokenizer. *)
Definition is_blank (c : ascii) : bool := Ascii.eqb c SPACE || Ascii.eqb c TAB.

(** ** The writer: [csv.writer] with [QUOTE_MINIMAL] *)

Definition special (c : ascii) : bool :=
  Ascii.eqb c COMMA || Ascii.eqb c QUOTE || Ascii.eqb c CR || Ascii.eqb c LF.

Definition needs_quotes (s : string) : bool := existsb special (String.list_ascii_of_string s).

Fixpoint escape (cs : list ascii) : list ascii :=
  match cs with
  | [] => []
  | c :: cs' => if Ascii.eqb c QUOTE then QUOTE :: QUOTE :: escape cs' else c :: escape cs'
  end.

Definition write_field (s : string) : list ascii :=
  if needs_quotes s then QUOTE :: escape (String.list_ascii_of_string s) ++ [QUOTE]
  else String.list_ascii_of_string s.

Fixpoint join_fields (fs : list string) : list ascii :=
  match fs with
  | [] => []
  | [f] => write_field f
  | f :: fs' => write_field f ++ COMMA :: join_fields fs'
  end.

(** [writer.writerow(fields)] *)
Definition write_record (fs : list string) : list ascii :=
  (if bool_decide (fs = [""]) then [QUOTE; QUOTE] else join_fields fs) ++ [CR; LF].

Definition write_records (rs : list (list string)) : list ascii := mbind write_record rs.

(** ** The frame update_data.py writes *)

(** [str] of an integer cell; the empty field for a missing one. *)
Definition int_cell (v : option Z) : string :=
  match v with Some z => py_str_int z | None => "" end.

Definition text_cell (v : option string) : string := default "" v.

(** The cell of row [r] in column [c]; a column outside the four holds
    no value of the table. *)
Definition cell_of (r : row) (c : string) : string :=
  if String.eqb c "stt" then int_cell (stt r)
  else if String.eqb c "file_path" then text_cell (file_path r)
  else if String.eqb c "duration" then text_cell (duration r)
  else if String.eqb c "lastest_used_value" then int_cell (lastest_used_value r)
  else "".

(** The header and the rows, [index=False]. *)
Definition frame_cells (L : ledger) : list (list string) :=
  columns L :: map (λ r, map (cell_of r) (columns L)) (rows L).

(** [write_csv(path, df)] (update_data.py lines 64-65): the bytes of the file. *)
Definition write_csv (L : ledger) : string :=
  String.string_of_list_ascii (BOM ++ write_records (frame_cells L)).

(** ** The reader: pandas' C tokenizer *)

Inductive tstate :=
  | RecStart                     (** [START_RECORD] *)
  | WsLine (ws : list ascii)     (** [WHITESPACE_LINE], the blanks read, last first *)
  | FieldStart                   (** [START_FIELD] *)
  | Unquoted                     (** [IN_FIELD] *)
  | Quoted                       (** [IN_QUOTED_FIELD] *)
  | QuoteQuoted                  (** [QUOTE_IN_QUOTED_FIELD] *)
  | EatCRNL.                     (** [EAT_CRNL]: a \r ended the line *)

(** The tokenizer: its state, the field being read (last byte first),
    the fields of the record (last first), the records (last first). *)
Record tok := mk_tok {
  t_st : tstate;
  t_fld : list ascii;
  t_rec : list string;
  t_recs : list (list string)
}.

Definition set_st (st : tstate) (t : tok) : tok := mk_tok st (t_fld t) (t_rec t) (t_recs t).
Definition push (c : ascii) (st : tstate) (t : tok) : tok := mk_tok st (c :: t_fld t) (t_rec t) (t_recs t).

(** [END_FIELD] *)
Definition end_field (t : tok) : tok :=
  mk_tok FieldStart [] (String.string_of_list_ascii (rev (t_fld t)) :: t_rec t) (t_recs t).

(** [END_LINE]: the field and the record end. *)
Definition end_line (st : tstate) (t : tok) : tok :=
  let t' := end_field t in mk_tok st [] [] (rev (t_rec t') :: t_recs t').

(** One byte inside a record. *)
Definition step_core (t : tok) (c : ascii) : tok :=
  match t_st t with
  | Unquoted =>
      if Ascii.eqb c COMMA then end_field t
      else if Ascii.eqb c LF then end_line RecStart t
      else if Ascii.eqb c CR then end_line EatCRNL t
      else push c Unquoted t
  | Quoted => if Ascii.eqb c QUOTE then set_st QuoteQuoted t else push c Quoted t
  | QuoteQuoted =>
      if Ascii.eqb c QUOTE then push c Quoted t
      else if Ascii.eqb c COMMA then end_field t
      else if Ascii.eqb c LF then end_line RecStart t
      else if Ascii.eqb c CR then end_line EatCRNL t
      else push c Unquoted t
  | _ =>
      if Ascii.eqb c QUOTE then set_st Quoted t
      else if Ascii.eqb c COMMA then end_field t
      else if Ascii.eqb c LF then end_line RecStart t
      else if Ascii.eqb c CR then end_line EatCRNL t
      else push c Unquoted t
  end.

(** One byte at the start of a line: a blank line is skipped, a line that
    opens with blanks is held until it shows a byte that is not blank. *)
Definition rec_start (t : tok) (c : ascii) : tok :=
  if Ascii.eqb c LF then set_st RecStart t
  else if Ascii.eqb c CR then set_st EatCRNL t
  else if is_blank c then set_st (WsLine [c]) t
  else step_core (set_st FieldStart t) c.

Definition step (t : tok) (c : ascii) : tok :=
  match t_st t with
  | RecStart => rec_start t c
  | EatCRNL => if Ascii.eqb c LF then set_st RecStart t else rec_start t c
  | WsLine ws =>
      if Ascii.eqb c LF then set_st RecStart t
      else if Ascii.eqb c CR then set_st EatCRNL t
      else if is_blank c then set_st (WsLine (c :: ws)) t
      else fold_left step_core (rev (c :: ws)) (set_st FieldStart t)
  | _ => step_core t c
  end.

(** The end of the text: a quoted field left open raises. *)
Definition finish (t : tok) : option (list (list string)) :=
  match t_st t with
  | RecStart | EatCRNL | WsLine _ => Some (rev (t_recs t))
  | Quoted => None
  | _ => Some (rev (t_recs (end_line RecStart t)))
  end.

Definition strip_bom (cs : list ascii) : list ascii :=
  if bool_decide (take 3 cs = BOM) then drop 3 cs else cs.

(** The records of a file's text. *)
Definition tokenize (text : string) : option (list (list string)) :=
  finish (fold_left step (strip_bom (String.list_ascii_of_string text)) (mk_tok RecStart [] [] [])).

(** ** The reader: pandas' column types *)

Definition na_values : list string :=
  ["-1.#IND"; "1.#QNAN"; "1.#IND"; "-1.#QNAN"; "#N/A N/A"; "#N/A"; "N/A"; "n/a"; "NA";
   "<NA>"; "#NA"; "NULL"; "null"; "NaN"; "-NaN"; "nan"; "-nan"; "None"; ""].

Definition is_na (s : string) : bool := bool_decide (s ∈ na_values).

Definition bool_words : list string := ["True"; "TRUE"; "true"; "False"; "FALSE"; "false"].

Inductive dtype := Int64 | Float64 | BoolCol | Object.

(** The type pandas gives a column with these cells. *)
Definition infer (cells : list string) : dtype :=
  let vals := filter (λ s, is_na s = false) cells in
  let has_na := existsb is_na cells in
  if bool_decide (cells = []) then Object
  else if forallb (λ s, bool_decide (is_Some (int_of_str s))) vals && negb has_na then Int64
  else if forallb (λ s, bool_decide (is_Some (Probe.py_float s))) vals then Float64
  else if forallb (λ s, bool_decide (s ∈ bool_words)) vals && negb has_na then BoolCol
  else Object.

(** A cell of [stt] or [lastest_used_value]: [None] when the table
    cannot hold it. *)
Definition num_value (d : dtype) (s : string) : option (option Z) :=
  if is_na s then Some None
  else match d with
       | Int64 => Some <$> int_of_str s
       | Float64 =>
           match Probe.py_float s with
           | Some q => if Qeq_bool (inject_Z (Probe.py_trunc q)) q
                       then Some (Some (Probe.py_trunc q)) else None
           | None => None
           end
       | _ => None
       end.

(** A cell of [file_path] or [duration]. *)
Definition text_value (d : dtype) (s : string) : option (option string) :=
  if is_na s then Some None
  else match d with Object => Some (Some s) | _ => None end.

(** The column names: "Unnamed: j" for an empty one, repeats renamed. *)
Definition header_names (hdr : list string) : list string :=
  mangle (imap (λ j s, if String.eqb s "" then "Unnamed: " +:+ pretty j else s) hdr).

Section Rows.
Context (cols : list string) (dts : list dtype).

(** The cell of column [c] in a record and its column's type; [None]
    for a column the file lacks. *)
Definition cell_in (fields : list string) (c : string) : option (string * dtype) :=
  (λ j, (default "" (fields !! j), default Object (dts !! j))) <$>
    (fst <$> list_find (String.eqb c) cols).

Definition num_field (fields : list string) (c : string) : option (option Z) :=
  match cell_in fields c with Some (s, d) => num_value d s | None => Some None end.

Definition text_field (fields : list string) (c : string) : option (option string) :=
  match cell_in fields c with Some (s, d) => text_value d s | None => Some None end.

Definition read_row (fields : list string) : option row :=
  a ← num_field fields "stt";
  b ← text_field fields "file_path";
  c ← text_field fields "duration";
  d ← num_field fields "lastest_used_value";
  Some (mk_row a b c d).

End Rows.

Definition ledger_of_records (recs : list (list string)) : option ledger :=
  match recs with
  | [] => None
  | hdr :: data =>
      if existsb (λ r, length hdr <? length r)%nat data then None
      else
        let cols := header_names hdr in
        let dts := imap (λ j _, infer (map (λ r, default "" (r !! j)) data)) hdr in
        rs ← mapM (read_row cols dts) data;
        Some (mk_ledger cols rs)
  end.

(** [pd.read_csv(path, encoding='utf-8-sig')] on the text of the file. *)
Definition read_csv (text : string) : option ledger :=
  tokenize text ≫= ledger_of_records.

(** ** Lemmas: numbers and texts in cells *)

Notation chars := String.list_ascii_of_string.

(** A text that holds ":" or "\" (a duration, a Windows path): no
    number, boolean word or NA word of pandas does. *)
Definition is_mark (c : ascii) : bool := Ascii.eqb c ":" || Ascii.eqb c "\".
Definition marked (s : string) : bool := existsb is_mark (chars s).

Lemma mark_props c :
  is_mark c = true →
  is_py_space c = false ∧ is_digit_char c = false ∧ Ascii.eqb c "-" = false ∧
  Ascii.eqb c "+" = false ∧ Ascii.eqb c "." = false ∧ is_blank c = false.
Proof. intros [?%Ascii.eqb_eq | ?%Ascii.eqb_eq]%orb_prop; by subst. Qed.

Lemma marked_elem s : marked s = true → ∃ c, c ∈ chars s ∧ is_mark c = true.
Proof. intros (c & ? & ?)%existsb_exists. exists c. by rewrite list_elem_of_In. Qed.

Lemma take_digits_all acc n s :
  all_digits s = true →
  Probe.take_digits acc n s = (digits_value_acc acc s, (n + String.length s)%nat, "").
Proof.
  revert acc n. induction s as [|c s IH]; intros acc n Hs; simpl; [by rewrite Nat.add_0_r|].
  apply andb_prop in Hs as [Hc Hs]. unfold is_digit_char in Hc.
  destruct (Ascii.is_nat c) as [d|] eqn:Hd; [|done]. rewrite IH by done. simpl. f_equal. f_equal. lia.
Qed.

Lemma take_digits_split acc n s a m r :
  Probe.take_digits acc n s = (a, m, r) → ∃ p, s = p +:+ r ∧ all_digits p = true.
Proof.
  revert acc n. induction s as [|c s IH]; intros acc n; simpl.
  - intros [= <- <- <-]. by exists "".
  - destruct (Ascii.is_nat c) eqn:Hd.
    + intros (p & -> & Hp)%IH. exists (String c p). simpl. unfold is_digit_char. by rewrite Hd.
    + intros [= <- <- <-]. by exists "".
Qed.

Lemma py_sign_cases t :
  t = (py_sign t).2 ∨ ∃ d, t = String d (py_sign t).2 ∧ (Ascii.eqb d "-" = true ∨ Ascii.eqb d "+" = true).
Proof.
  destruct t as [|d r]; [by left|]. simpl.
  destruct (Ascii.eqb d "-") eqn:Hm; [right; eauto|].
  destruct (Ascii.eqb d "+") eqn:Hp; [right; eauto|by left].
Qed.

(** [float(str(n))] is [n]. *)
Lemma py_float_str_int z : Probe.py_float (py_str_int z) = Some (inject_Z z).
Proof.
  unfold Probe.py_float. rewrite py_strip_str_int.
  destruct (Z_le_gt_dec 0 z) as [Hz|Hz].
  - destruct (digits_of_str_int z Hz) as (Hd & Hi & Hv).
    destruct (py_str_int z) as [|c r] eqn:E; [done|].
    pose proof Hd as Hd'. simpl in Hd'. apply andb_prop in Hd' as [Hc _].
    destruct (digit_not_sign c Hc) as [Hm Hp]. cbn [py_sign]. rewrite Hm, Hp.
    rewrite take_digits_all by done. unfold digits_value in Hv. rewrite Hv. simpl. f_equal. f_equal. lia.
  - destruct z as [| |p]; [lia|lia|].
    change (py_str_int (Z.neg p)) with (String "-" (py_str_int (Z.pos p))).
    destruct (digits_of_str_int (Z.pos p) ltac:(lia)) as (Hd & Hi & Hv).
    cbn [py_sign]. rewrite Ascii.eqb_refl. rewrite take_digits_all by done.
    unfold digits_value in Hv. rewrite Hv.
    destruct (py_str_int (Z.pos p)) as [|c r] eqn:E; [done|]. done.
Qed.

Lemma py_trunc_inject z : Probe.py_trunc (inject_Z z) = z.
Proof.
  unfold Probe.py_trunc. destruct (Qle_bool 0 (inject_Z z)); [apply Qfloor_Z|].
  rewrite <-inject_Z_opp, Qfloor_Z. lia.
Qed.

Lemma py_float_elem s q c :
  Probe.py_float s = Some q → c ∈ chars s → is_mark c = true → False.
Proof.
  intros Hf Hc Hmk. destruct (mark_props c Hmk) as (Hsp & Hdg & Hm & Hp & Hdot & _).
  pose proof (elem_of_strip c s Hc Hsp) as Hc1. unfold Probe.py_float in Hf.
  destruct (py_sign (py_strip s)) as [sgn t1] eqn:Es.
  assert (c ∈ chars t1) as Hc2.
  { destruct (py_sign_cases (py_strip s)) as [Ht|(d & Ht & Hd)]; rewrite Es in Ht; simpl in Ht;
      rewrite Ht in Hc1; [done|]. simpl in Hc1. apply elem_of_cons in Hc1 as [->|]; [|done].
    rewrite Hm, Hp in Hd. by destruct Hd. }
  destruct (Probe.take_digits 0 0 t1) as [[ip ni] r1] eqn:Et.
  destruct (take_digits_split _ _ _ _ _ _ Et) as (p1 & -> & Hp1).
  rewrite chars_app, elem_of_app in Hc2.
  destruct Hc2 as [Hc2|Hc2]; [by rewrite (all_digits_elem c p1) in Hdg|].
  destruct r1 as [|d r2]; [set_solver|]. destruct (Ascii.eqb d ".") eqn:Ed; [|done].
  apply Ascii.eqb_eq in Ed as ->. simpl in Hc2.
  apply elem_of_cons in Hc2 as [->|Hc2]; [by rewrite Ascii.eqb_refl in Hdot|].
  destruct (Probe.take_digits 0 0 r2) as [[fp nf] r3] eqn:Et2.
  destruct (take_digits_split _ _ _ _ _ _ Et2) as (p2 & -> & Hp2).
  rewrite chars_app, elem_of_app in Hc2.
  destruct Hc2 as [Hc2|Hc2]; [by rewrite (all_digits_elem c p2) in Hdg|].
  destruct r3; [set_solver|]. done.
Qed.

Lemma words_unmarked : Forall (λ w, marked w = false) (na_values ++ bool_words).
Proof. apply (bool_decide_unpack _). by vm_compute. Qed.

(** A marked text is read as a text: it is no integer, no number, no NA
    word and no boolean word. *)
Lemma marked_text s :
  marked s = true →
  int_of_str s = None ∧ Probe.py_float s = None ∧ is_na s = false ∧ s ∉ bool_words.
Proof.
  intros Hs. destruct (marked_elem s Hs) as (c & Hc & Hmk).
  destruct (mark_props c Hmk) as (Hsp & Hdg & Hm & Hp & _).
  pose proof words_unmarked as Hw. rewrite Forall_app in Hw. destruct Hw as [Hna Hb].
  split_and!.
  - destruct (int_of_str s) as [z|] eqn:Hz; [|done]. by destruct (int_of_str_elem s z c).
  - destruct (Probe.py_float s) as [q|] eqn:Hq; [|done]. by destruct (py_float_elem s q c).
  - unfold is_na. case_bool_decide as Hin; [|done].
    rewrite Forall_forall in Hna. by rewrite (Hna s Hin) in Hs.
  - intros Hin. rewrite Forall_forall in Hb. by rewrite (Hb s Hin) in Hs.
Qed.

(** [str(n)] is no NA word. *)
Lemma str_int_not_na z : is_na (py_str_int z) = false.
Proof.
  unfold is_na. case_bool_decide as Hin; [|done]. exfalso.
  assert (Forall (λ w, int_of_str w = None) na_values) as Hna
    by (apply (bool_decide_unpack _); by vm_compute).
  rewrite Forall_forall in Hna. pose proof (Hna _ Hin) as Hn. by rewrite int_of_str_str_int in Hn.
Qed.

(** ** Lemmas: the tokenizer reads back what the writer writes *)

Definition field_state (st : tstate) : Prop :=
  match st with FieldStart | Unquoted | Quoted | QuoteQuoted => True | _ => False end.

(** The state after the bytes [csv.writer] wrote for a field. *)
Definition fend (f : string) : tstate :=
  if needs_quotes f then QuoteQuoted else if String.eqb f "" then FieldStart else Unquoted.

Lemma special_false c :
  special c = false →
  Ascii.eqb c COMMA = false ∧ Ascii.eqb c QUOTE = false ∧ Ascii.eqb c CR = false ∧ Ascii.eqb c LF = false.
Proof.
  unfold special. intros H. apply orb_false_iff in H as [H H4].
  apply orb_false_iff in H as [H H3]. apply orb_false_iff in H as [H1 H2]. done.
Qed.

Lemma blank_props b : is_blank b = true → special b = false.
Proof. by intros [?%Ascii.eqb_eq | ?%Ascii.eqb_eq]%orb_prop; subst. Qed.

Lemma needs_quotes_false f c : needs_quotes f = false → c ∈ chars f → special c = false.
Proof.
  intros Hq Hc. destruct (special c) eqn:E; [|done]. exfalso.
  assert (existsb special (chars f) = true) as Hx
    by (apply existsb_exists; exists c; by rewrite <-list_elem_of_In).
  unfold needs_quotes in Hq. congruence.
Qed.

Lemma run_unquoted cs fld R A :
  Forall (λ c, special c = false) cs →
  fold_left step cs (mk_tok Unquoted fld R A) = mk_tok Unquoted (rev cs ++ fld) R A.
Proof.
  revert fld. induction cs as [|c cs IH]; intros fld Hcs; [done|].
  apply Forall_cons in Hcs as [Hc Hcs]. destruct (special_false c Hc) as (H1 & H2 & H3 & H4).
  cbn [fold_left]. unfold step, step_core. cbn [t_st]. rewrite H1, H3, H4.
  unfold push. cbn [t_fld t_rec t_recs]. rewrite IH by done. simpl. by rewrite <-app_assoc.
Qed.

Lemma run_quoted cs fld R A :
  fold_left step (escape cs) (mk_tok Quoted fld R A) = mk_tok Quoted (rev cs ++ fld) R A.
Proof.
  revert fld. induction cs as [|c cs IH]; intros fld; [done|]. cbn [escape].
  destruct (Ascii.eqb_spec c QUOTE) as [->|Hne].
  - change (fold_left step (escape cs) (mk_tok Quoted (QUOTE :: fld) R A) =
            mk_tok Quoted (rev (QUOTE :: cs) ++ fld) R A).
    rewrite IH. simpl. by rewrite <-app_assoc.
  - cbn [fold_left]. unfold step at 2, step_core. cbn [t_st].
    apply Ascii.eqb_neq in Hne. rewrite Hne. unfold push. cbn [t_fld t_rec t_recs].
    rewrite IH. simpl. by rewrite <-app_assoc.
Qed.

Lemma run_field f R A :
  fold_left step (write_field f) (mk_tok FieldStart [] R A) = mk_tok (fend f) (rev (chars f)) R A.
Proof.
  unfold write_field, fend. destruct (needs_quotes f) eqn:Hq.
  - cbn [fold_left app]. rewrite fold_left_app.
    replace (step (mk_tok FieldStart [] R A) QUOTE) with (mk_tok Quoted [] R A) by reflexivity.
    rewrite run_quoted, app_nil_r. reflexivity.
  - pose proof (needs_quotes_false f) as Hs. destruct f as [|c r]; [done|].
    cbn [String.list_ascii_of_string fold_left].
    destruct (special_false c (Hs c Hq ltac:(set_solver))) as (H1 & H2 & H3 & H4).
    unfold step at 2, step_core. cbn [t_st]. rewrite H2, H1, H4, H3. unfold push.
    cbn [t_fld t_rec t_recs]. rewrite run_unquoted.
    + done.
    + apply Forall_forall. intros x Hx. apply (Hs x Hq). simpl. set_solver.
Qed.

Lemma end_field_fend f R A :
  end_field (mk_tok (fend f) (rev (chars f)) R A) = mk_tok FieldStart [] (f :: R) A.
Proof. unfold end_field. simpl. by rewrite rev_involutive, String.string_of_list_ascii_of_string. Qed.

Lemma step_comma_fend f fld R A :
  step (mk_tok (fend f) fld R A) COMMA = end_field (mk_tok (fend f) fld R A).
Proof. unfold fend. by destruct (needs_quotes f), (String.eqb f ""). Qed.

Lemma run_crlf_fend f fld R A :
  fold_left step [CR; LF] (mk_tok (fend f) fld R A) =
    mk_tok RecStart [] [] (rev (t_rec (end_field (mk_tok (fend f) fld R A))) :: A).
Proof. unfold fend. by destruct (needs_quotes f), (String.eqb f ""). Qed.

(** The fields of a record, then its line end. *)
Lemma run_join fs R A :
  fs ≠ [] →
  fold_left step (join_fields fs ++ [CR; LF]) (mk_tok FieldStart [] R A) =
    mk_tok RecStart [] [] ((rev R ++ fs) :: A).
Proof.
  revert R. induction fs as [|f fs IH]; intros R Hne; [done|]. destruct fs as [|g fs'].
  - cbn [join_fields]. rewrite fold_left_app, run_field, run_crlf_fend, end_field_fend. done.
  - change (join_fields (f :: g :: fs')) with (write_field f ++ COMMA :: join_fields (g :: fs')).
    rewrite <-app_assoc, fold_left_app, run_field. cbn [app fold_left].
    rewrite step_comma_fend, end_field_fend, IH by done. simpl. by rewrite <-app_assoc.
Qed.

(** A line whose first byte that is not blank is no line end: the
    tokenizer reads it from the start of a record as from the start of
    a field. *)
Definition starts_ok (l : list ascii) : Prop :=
  ∃ bs c rest, l = bs ++ c :: rest ∧ Forall (λ b, is_blank b = true) bs ∧
               is_blank c = false ∧ Ascii.eqb c CR = false ∧ Ascii.eqb c LF = false.

Lemma run_ws bs ws R A :
  Forall (λ b, is_blank b = true) bs →
  fold_left step bs (mk_tok (WsLine ws) [] R A) = mk_tok (WsLine (rev bs ++ ws)) [] R A.
Proof.
  revert ws. induction bs as [|b bs IH]; intros ws Hbs; [done|].
  apply Forall_cons in Hbs as [Hb Hbs]. destruct (special_false b (blank_props b Hb)) as (_ & _ & H3 & H4).
  cbn [fold_left]. unfold step at 2. cbn [t_st]. rewrite H4, H3, Hb. unfold set_st. cbn [t_fld t_rec t_recs].
  rewrite IH by done. simpl. by rewrite <-app_assoc.
Qed.

Lemma run_core l t :
  Forall (λ c, Ascii.eqb c CR = false ∧ Ascii.eqb c LF = false) l → field_state (t_st t) →
  fold_left step l t = fold_left step_core l t.
Proof.
  revert t. induction l as [|c l IH]; intros [st fld R A] Hl Hst; [done|].
  apply Forall_cons in Hl as [[Hcr Hlf] Hl]. cbn [fold_left].
  assert (step (mk_tok st fld R A) c = step_core (mk_tok st fld R A) c) as ->
    by (destruct st; simpl in Hst; done).
  apply IH; [done|]. unfold step_core. cbn [t_st]. rewrite Hcr, Hlf.
  destruct st; simpl in Hst; try done; repeat destruct (Ascii.eqb _ _); done.
Qed.

Lemma rec_start_field l A :
  starts_ok l → fold_left step l (mk_tok RecStart [] [] A) = fold_left step l (mk_tok FieldStart [] [] A).
Proof.
  intros (bs & c & rest & -> & Hbs & Hc & Hcr & Hlf). destruct bs as [|b bs].
  - cbn [app fold_left]. f_equal. unfold step, rec_start. cbn [t_st]. by rewrite Hlf, Hcr, Hc.
  - apply Forall_cons in Hbs as [Hb Hbs]. destruct (special_false b (blank_props b Hb)) as (_ & _ & H3 & H4).
    cbn [app fold_left]. unfold step at 2, rec_start. cbn [t_st]. rewrite H4, H3, Hb.
    unfold set_st. cbn [t_fld t_rec t_recs]. rewrite fold_left_app, run_ws by done. cbn [fold_left].
    unfold step at 2. cbn [t_st]. rewrite Hlf, Hcr, Hc. unfold set_st. cbn [t_fld t_rec t_recs].
    replace (bs ++ c :: rest) with ((bs ++ [c]) ++ rest) by (by rewrite <-app_assoc).
    rewrite fold_left_app. f_equal.
    replace (rev (c :: rev bs ++ [b])) with (b :: bs ++ [c])
      by (simpl; by rewrite rev_app_distr, rev_involutive).
    destruct (special_false b (blank_props b Hb)) as (H1 & H2 & _).
    assert (step_core (mk_tok FieldStart [] [] A) b = mk_tok Unquoted [b] [] A) as Hb1
      by (unfold step_core; cbn [t_st]; by rewrite H2, H1, H4, H3).
    change (step (mk_tok FieldStart [] [] A) b) with (step_core (mk_tok FieldStart [] [] A) b).
    cbn [fold_left]. rewrite Hb1, run_core; [done| |done].
    apply Forall_app. split; [|by repeat constructor].
    eapply Forall_impl; [done|]. intros x Hx. by destruct (special_false x (blank_props x Hx)) as (_ & _ & ? & ?).
Qed.

(** The first byte of a field that is not blank, when there is one. *)
Lemma blank_prefix (cs : list ascii) :
  ∃ bs rest, cs = bs ++ rest ∧ Forall (λ b, is_blank b = true) bs ∧
             (rest = [] ∨ ∃ c r, rest = c :: r ∧ is_blank c = false).
Proof.
  induction cs as [|c cs (bs & rest & -> & Hbs & Hr)]; [by exists [], []; eauto|].
  destruct (is_blank c) eqn:Hc.
  - exists (c :: bs), rest. by split_and!; [|constructor|].
  - exists [], (c :: bs ++ rest). split_and!; [done|done|]. right. eauto.
Qed.

Definition has_nonblank (s : string) : bool := existsb (λ c, negb (is_blank c)) (chars s).

Lemma starts_ok_field f rest :
  has_nonblank f = true ∨ needs_quotes f = true → starts_ok (write_field f ++ rest).
Proof.
  unfold write_field. destruct (needs_quotes f) eqn:Hq; intros Hf.
  { exists [], QUOTE, (escape (chars f) ++ [QUOTE] ++ rest).
    split_and!; [simpl; by rewrite <-app_assoc|done..]. }
  destruct Hf as [Hf|]; [|done].
  destruct (blank_prefix (chars f)) as (bs & r0 & Hcs & Hbs & [->|(c & r & -> & Hc)]).
  - exfalso. unfold has_nonblank in Hf. rewrite Hcs, app_nil_r in Hf.
    apply existsb_exists in Hf as (x & Hx & Hnb). rewrite <-list_elem_of_In, Forall_forall in *.
    rewrite (Hbs x Hx) in Hnb. done.
  - assert (c ∈ chars f) as Hin by (rewrite Hcs; set_solver).
    destruct (special_false c (needs_quotes_false f c Hq Hin)) as (_ & _ & ? & ?).
    exists bs, c, (r ++ rest). rewrite Hcs, <-app_assoc. done.
Qed.

Lemma starts_ok_field_comma f rest : starts_ok (write_field f ++ COMMA :: rest).
Proof.
  destruct (needs_quotes f) eqn:Hq; [apply starts_ok_field; by right|].
  unfold write_field. rewrite Hq.
  destruct (blank_prefix (chars f)) as (bs & r0 & Hcs & Hbs & [->|(c & r & -> & Hc)]).
  - exists bs, COMMA, rest. rewrite Hcs, app_nil_r. done.
  - assert (c ∈ chars f) as Hin by (rewrite Hcs; set_solver).
    destruct (special_false c (needs_quotes_false f c Hq Hin)) as (_ & _ & ? & ?).
    exists bs, c, (r ++ COMMA :: rest). rewrite Hcs, <-app_assoc. done.
Qed.

(** A record the writer can write and the tokenizer does not skip: at
    least one field, and a single field is empty or not all blanks. *)
Definition rec_ok (fs : list string) : Prop :=
  fs ≠ [] ∧ ∀ f, fs = [f] → f = "" ∨ has_nonblank f = true.

Lemma run_record fs A :
  rec_ok fs → fold_left step (write_record fs) (mk_tok RecStart [] [] A) = mk_tok RecStart [] [] (fs :: A).
Proof.
  intros [Hne Hone]. unfold write_record. case_bool_decide as E; [by subst|].
  rewrite rec_start_field; [by rewrite run_join|].
  destruct fs as [|f [|g fs']]; [done| |].
  - destruct (Hone f eq_refl) as [->|Hf]; [done|]. apply starts_ok_field. by left.
  - change (join_fields (f :: g :: fs')) with (write_field f ++ COMMA :: join_fields (g :: fs')).
    rewrite <-app_assoc. apply starts_ok_field_comma.
Qed.

Lemma run_records rs A :
  Forall rec_ok rs →
  fold_left step (write_records rs) (mk_tok RecStart [] [] A) = mk_tok RecStart [] [] (rev rs ++ A).
Proof.
  revert A. induction rs as [|fs rs IH]; intros A Hrs; [done|]. apply Forall_cons in Hrs as [Hfs Hrs].
  unfold write_records. rewrite bind_cons, fold_left_app, run_record by done.
  fold (write_records rs). rewrite IH by done. simpl. by rewrite <-app_assoc.
Qed.

(** The tokenizer gives back the records the writer wrote. *)
Lemma tokenize_write rs :
  Forall rec_ok rs →
  tokenize (String.string_of_list_ascii (BOM ++ write_records rs)) = Some rs.
Proof.
  intros Hrs. unfold tokenize. rewrite String.list_ascii_of_string_of_list_ascii.
  unfold strip_bom. rewrite bool_decide_true by done. cbn [drop BOM app]. rewrite drop_0.
  rewrite run_records by done. cbn. by rewrite app_nil_r, rev_involutive.
Qed.

(** ** Lemmas: the types pandas gives the written columns *)

Lemma forallb_false_elem {A} (f : A → bool) l x : x ∈ l → f x = false → forallb f l = false.
Proof.
  intros Hx Hf. destruct (forallb f l) eqn:E; [|done].
  rewrite forallb_forall in E. rewrite list_elem_of_In in Hx. by rewrite E in Hf.
Qed.

Lemma is_na_empty : is_na "" = true.
Proof. reflexivity. Qed.

(** A column of integer cells is int64, or float64 when a cell is empty. *)
Lemma infer_int_cells vs :
  vs ≠ [] → infer (map int_cell vs) = if existsb is_na (map int_cell vs) then Float64 else Int64.
Proof.
  intros Hne. unfold infer. cbv beta zeta. rewrite bool_decide_false by (destruct vs; done).
  assert (∀ s, s ∈ filter (λ s, is_na s = false) (map int_cell vs) → ∃ z, s = py_str_int z) as Hv.
  { intros s (Hna & (v & -> & _)%list_elem_of_fmap)%list_elem_of_filter.
    destruct v as [z|]; [by exists z|done]. }
  assert (∀ (P : string → bool), (∀ z, P (py_str_int z) = true) →
          forallb P (filter (λ s, is_na s = false) (map int_cell vs)) = true) as Hall.
  { intros P HP. apply forallb_forall. intros s Hs%list_elem_of_In. by destruct (Hv s Hs) as [z ->]. }
  rewrite (Hall _ (λ z, bool_decide_eq_true_2 _ (ex_intro _ z (int_of_str_str_int z)))).
  rewrite (Hall _ (λ z, bool_decide_eq_true_2 _ (ex_intro _ _ (py_float_str_int z)))).
  by destruct (existsb is_na _).
Qed.

Lemma num_column vs v : v ∈ vs → num_value (infer (map int_cell vs)) (int_cell v) = Some v.
Proof.
  intros Hv. rewrite infer_int_cells by (intros ->; set_solver). unfold num_value.
  destruct v as [z|]; [|reflexivity]. cbn [int_cell]. rewrite str_int_not_na.
  destruct (existsb _ _); [|by rewrite int_of_str_str_int].
  rewrite py_float_str_int, py_trunc_inject.
  by replace (Qeq_bool (inject_Z z) (inject_Z z)) with true by (symmetry; by apply Qeq_bool_iff).
Qed.

(** A column of marked texts is a text column. *)
Lemma text_column vs v :
  v ∈ vs → (∀ s, Some s ∈ vs → marked s = true) →
  text_value (infer (map text_cell vs)) (text_cell v) = Some v.
Proof.
  intros Hv Hm. unfold text_value. destruct v as [s|]; [|reflexivity].
  destruct (marked_text s (Hm s Hv)) as (Hi & Hf & Hna & Hb).
  change (text_cell (Some s)) with s. rewrite Hna.
  assert (s ∈ filter (λ s, is_na s = false) (map text_cell vs)) as Hs.
  { apply list_elem_of_filter. split; [done|]. apply list_elem_of_fmap. by exists (Some s). }
  unfold infer. cbv beta zeta. rewrite bool_decide_false by (destruct vs; set_solver).
  rewrite !(forallb_false_elem _ _ s Hs); [done|..].
  - by apply bool_decide_eq_false_2.
  - apply bool_decide_eq_false_2. rewrite Hf. by intros [? ?].
  - apply bool_decide_eq_false_2. rewrite Hi. by intros [? ?].
Qed.

(** ** Lemmas: the table read from the written records *)

(** The header is not renamed, and the rows read back. *)
Definition header_ok (cols : list string) : Prop :=
  cols ≠ [] ∧ NoDup cols ∧ Forall (λ c, has_nonblank c = true) cols.

(** A row the file can hold: a value only in a column the file has, and
    marked texts. *)
Definition row_ok (cols : list string) (r : row) : Prop :=
  (is_Some (stt r) → "stt" ∈ cols) ∧ (is_Some (file_path r) → "file_path" ∈ cols) ∧
  (is_Some (duration r) → "duration" ∈ cols) ∧
  (is_Some (lastest_used_value r) → "lastest_used_value" ∈ cols) ∧
  (∀ s, file_path r = Some s → marked s = true) ∧ (∀ s, duration r = Some s → marked s = true).

Definition frame_dtypes (cols : list string) (rs : list row) : list dtype :=
  imap (λ j _, infer (map (λ rec, default "" (rec !! j)) (map (λ r, map (cell_of r) cols) rs))) cols.

Lemma imap_fixed (g : nat → string → string) (l : list string) :
  (∀ j x, x ∈ l → g j x = x) → imap g l = l.
Proof.
  revert g. induction l as [|x l IH]; intros g Hg; [done|]. simpl.
  rewrite (Hg 0%nat x), IH; [done| |set_solver]. intros j y Hy. apply Hg. set_solver.
Qed.

Lemma header_names_id cols : header_ok cols → header_names cols = cols.
Proof.
  intros (_ & Hnd & Hnb). unfold header_names. rewrite imap_fixed; [by apply mangle_nodup|].
  intros j x Hx. rewrite Forall_forall in Hnb. specialize (Hnb x Hx).
  destruct (String.eqb_spec x ""); [by subst|done].
Qed.

Lemma cell_in_frame cols rs r c :
  cell_in cols (frame_dtypes cols rs) (map (cell_of r) cols) c =
    if bool_decide (c ∈ cols) then Some (cell_of r c, infer (map (λ r', cell_of r' c) rs)) else None.
Proof.
  unfold cell_in. destruct (list_find (String.eqb c) cols) as [[j x]|] eqn:Hf.
  - apply list_find_Some in Hf as (Hj & Hx & _). apply Is_true_true, String.eqb_eq in Hx as <-.
    rewrite bool_decide_true by (by eapply list_elem_of_lookup_2). simpl.
    rewrite list_lookup_fmap, Hj. unfold frame_dtypes. rewrite list_lookup_imap, Hj. simpl.
    do 3 f_equal. rewrite map_map. apply map_ext. intros r'. by rewrite list_lookup_fmap, Hj.
  - apply list_find_None in Hf. rewrite bool_decide_false; [done|]. intros Hc.
    rewrite Forall_forall in Hf. apply (Hf c Hc). apply Is_true_true, String.eqb_refl.
Qed.

Lemma num_field_frame cols rs r c (get : row → option Z) :
  (∀ r', cell_of r' c = int_cell (get r')) → r ∈ rs → (is_Some (get r) → c ∈ cols) →
  num_field cols (frame_dtypes cols rs) (map (cell_of r) cols) c = Some (get r).
Proof.
  intros Hc Hr Hin. unfold num_field. rewrite cell_in_frame. case_bool_decide as Hcol.
  - rewrite Hc. replace (map (λ r', cell_of r' c) rs) with (map int_cell (map get rs))
      by (rewrite map_map; apply map_ext; intros; by rewrite Hc).
    apply num_column, list_elem_of_fmap_2, Hr.
  - destruct (get r) eqn:E; [|done]. destruct Hcol. apply Hin. by eexists.
Qed.

Lemma text_field_frame cols rs r c (get : row → option string) :
  (∀ r', cell_of r' c = text_cell (get r')) → r ∈ rs → (is_Some (get r) → c ∈ cols) →
  (∀ r' s, r' ∈ rs → get r' = Some s → marked s = true) →
  text_field cols (frame_dtypes cols rs) (map (cell_of r) cols) c = Some (get r).
Proof.
  intros Hc Hr Hin Hm. unfold text_field. rewrite cell_in_frame. case_bool_decide as Hcol.
  - rewrite Hc. replace (map (λ r', cell_of r' c) rs) with (map text_cell (map get rs))
      by (rewrite map_map; apply map_ext; intros; by rewrite Hc).
    apply text_column; [by apply list_elem_of_fmap_2|].
    intros s (r' & Hs & Hr')%list_elem_of_fmap. by apply (Hm r').
  - destruct (get r) eqn:E; [|done]. destruct Hcol. apply Hin. by eexists.
Qed.

Lemma read_row_frame cols rs r :
  Forall (row_ok cols) rs → r ∈ rs →
  read_row cols (frame_dtypes cols rs) (map (cell_of r) cols) = Some r.
Proof.
  intros Hok Hr. rewrite Forall_forall in Hok. pose proof (Hok r Hr) as (H1 & H2 & H3 & H4 & _).
  unfold read_row.
  rewrite (num_field_frame cols rs r "stt" stt), (text_field_frame cols rs r "file_path" file_path),
    (text_field_frame cols rs r "duration" duration),
    (num_field_frame cols rs r "lastest_used_value" lastest_used_value); try done.
  all: try by destruct r.
  all: intros r' s' Hr' Hs'; destruct (Hok r' Hr') as (_ & _ & _ & _ & ? & ?); eauto.
Qed.

Lemma mapM_map_some {A B} (f : B → option A) (g : A → B) (l : list A) :
  (∀ x, x ∈ l → f (g x) = Some x) → mapM f (map g l) = Some l.
Proof.
  induction l as [|x l IH]; intros Hx; [done|]. simpl.
  rewrite Hx, IH by set_solver. done.
Qed.

(** The written records of a table the file can hold read back as it. *)
Lemma ledger_of_frame L :
  header_ok (columns L) → Forall (row_ok (columns L)) (rows L) →
  ledger_of_records (frame_cells L) = Some L.
Proof.
  intros Hh Hrs. unfold ledger_of_records, frame_cells.
  assert (existsb (λ r, length (columns L) <? length r)%nat
            (map (λ r, map (cell_of r) (columns L)) (rows L)) = false) as ->.
  { apply not_true_is_false. intros (x & Hx & Hlt)%existsb_exists.
    apply in_map_iff in Hx as (r & <- & _). rewrite length_map in Hlt. apply Nat.ltb_lt in Hlt. lia. }
  rewrite header_names_id by done.
  change (imap _ (columns L)) with (frame_dtypes (columns L) (rows L)).
  rewrite mapM_map_some; [by destruct L|]. intros r Hr. by apply read_row_frame.
Qed.



Lemma digit_not_blank c : is_digit_char c = true → is_blank c = false.
Proof. destruct c as [[][][][][][][][]]; done. Qed.

Lemma str_int_nonblank z : has_nonblank (py_str_int z) = true.
Proof.
  destruct (Z_le_gt_dec 0 z) as [Hz|Hz].
  - destruct (digits_of_str_int z Hz) as (Hd & Hi & _).
    destruct (py_str_int z) as [|c r]; [discriminate Hi|]. simpl in Hd. apply andb_prop in Hd as [Hc _].
    unfold has_nonblank. simpl. by rewrite digit_not_blank.
  - destruct z as [| |p]; [lia|lia|]. reflexivity.
Qed.

Lemma marked_nonblank s : marked s = true → has_nonblank s = true.
Proof.
  intros (c & Hc & Hm)%marked_elem. destruct (mark_props c Hm) as (_ & _ & _ & _ & _ & Hb).
  apply existsb_exists. exists c. rewrite <-list_elem_of_In, Hb. done.
Qed.

Lemma cell_ok cols r c : row_ok cols r → cell_of r c = "" ∨ has_nonblank (cell_of r c) = true.
Proof.
  intros (_ & _ & _ & _ & Hp & Hd). unfold cell_of.
  destruct (String.eqb c "stt"); [destruct (stt r); [right; apply str_int_nonblank|by left]|].
  destruct (String.eqb c "file_path").
  { destruct (file_path r) eqn:E; [right; by apply marked_nonblank, Hp|by left]. }
  destruct (String.eqb c "duration").
  { destruct (duration r) eqn:E; [right; by apply marked_nonblank, Hd|by left]. }
  destruct (String.eqb c "lastest_used_value"); [|by left].
  destruct (lastest_used_value r); [right; apply str_int_nonblank|by left].
Qed.

Lemma frame_records_ok L :
  header_ok (columns L) → Forall (row_ok (columns L)) (rows L) → Forall rec_ok (frame_cells L).
Proof.
  intros (Hne & _ & Hnb) Hrs. constructor.
  - split; [done|]. intros f Hf. right. rewrite Hf in Hnb. by inversion Hnb.
  - apply Forall_forall. intros fs (r & -> & Hr)%list_elem_of_fmap. split.
    + by destruct (columns L).
    + intros f Hf. rewrite Forall_forall in Hrs. pose proof (Hrs r Hr) as Hok.
      destruct (columns L) as [|c [|c' cs]]; try done. injection Hf as <-. by eapply cell_ok.
Qed.

(** The read of the written file gives back the table. *)
Lemma read_write_csv L :
  header_ok (columns L) → Forall (row_ok (columns L)) (rows L) → read_csv (write_csv L) = Some L.
Proof.
  intros Hh Hrs. unfold read_csv, write_csv. rewrite tokenize_write by (by apply frame_records_ok).
  by apply ledger_of_frame.
Qed.

Lemma mmss_marked z : marked (Probe.mmss_of_int z) = true.
Proof.
  unfold marked, Probe.mmss_of_int. rewrite chars_app. apply existsb_exists. exists ":"%char.
  split; [|done]. apply list_elem_of_In. simpl. set_solver.
Qed.

(** The table the rebuild writes is one the file can hold, when every
    scanned path is marked (an absolute Windows path holds "\"). *)
Lemma sync_frame_ok `{Host} cur folder :
  (∀ p, p ∈ get_file_list folder → marked p = true) →
  header_ok (columns (sync cur folder).1) ∧
  Forall (row_ok (columns (sync cur folder).1)) (rows (sync cur folder).1).
Proof.
  intros Hp. pose proof (sync_meets_spec cur folder) as Hspec.
  rewrite (rs_columns _ _ _ Hspec). split.
  { split_and!; [done|apply ledger_columns_NoDup|by repeat constructor]. }
  apply Forall_forall. intros r Hr.
  destruct (rs_duration _ _ _ Hspec r Hr) as (p & d & Hfp & _ & _ & Hdur).
  assert (p ∈ get_file_list folder) as Hpin.
  { apply (rs_members _ _ _ Hspec). unfold paths. apply list_elem_of_omap. by exists r. }
  split_and!; try (intros _; apply (bool_decide_unpack _); by vm_compute).
  - intros s. rewrite Hfp. intros [= <-]. by apply Hp.
  - intros s. rewrite Hdur. intros [= <-]. apply mmss_marked.
Qed.

(** ** Theorems *)

(** C6: the ledger file reads back as the table written: for every table
    whose column names are distinct and not blank, whose values sit in
    columns the file has, and whose paths and durations hold ":" or "\",
    pandas' [read_csv] of the text [write_csv] writes gives back that
    table, whatever commas, double quotes, line breaks or leading blanks
    the cells hold; in particular what update_data.py's rebuild writes is
    read back by the next run, and by module3.py, as the ledger [sync]
    computed, when the scanned paths hold "\". *)
Theorem ledger_file_roundtrip `{Host} :
  (∀ L, header_ok (columns L) → Forall (row_ok (columns L)) (rows L) →
        read_csv (write_csv L) = Some L) ∧
  (∀ cur folder, (∀ p, p ∈ get_file_list folder → marked p = true) →
     read_csv (write_csv (sync cur folder).1) = Some (sync cur folder).1).
Proof.
  split; [apply read_write_csv|]. intros cur folder Hp.
  destruct (sync_frame_ok cur folder Hp). by apply read_write_csv.
Qed.

(** ** Examples *)

Definition dq : string := String QUOTE "".

(** A path with a comma and double quotes, a path that opens with a
    blank, an empty cell. *)
Definition tricky_ledger : ledger :=
  mk_ledger ledger_columns
    [mk_row (Some 1%Z) (Some ("C:\clips\a, " +:+ dq +:+ "b" +:+ dq +:+ ".mp4")) (Some "1:05") None;
     mk_row (Some 2%Z) (Some " C:\clips\x.mp4") (Some "2:00") (Some 30%Z)].

(** A share of two clips, of 75.5 and 120 seconds. *)
Definition clips_host : Host :=
  probe_host "C:\clips" (Dir "C:\clips" ["b.mp4"; "a.mp4"] [])
    [("C:\clips\a.mp4", "75.5"); ("C:\clips\b.mp4", "120")].

Lemma ledger_file_roundtrip_witness :
  read_csv (write_csv tricky_ledger) = Some tricky_ledger ∧
  read_csv (write_csv (@sync clips_host None "C:\clips").1) = Some (@sync clips_host None "C:\clips").1.
Proof.
  split.
  - apply (proj1 (@ledger_file_roundtrip clips_host)).
    + split_and!; [done|apply ledger_columns_NoDup|by repeat constructor].
    + repeat constructor; try (intros _; apply (bool_decide_unpack _); by vm_compute);
        intros s [= <-]; reflexivity.
  - apply (proj2 (@ledger_file_roundtrip clips_host)). intros p Hp.
    assert (@get_file_list clips_host "C:\clips" = ["C:\clips\b.mp4"; "C:\clips\a.mp4"]) as Hl
      by (vm_compute; reflexivity).
    rewrite Hl in Hp. repeat (apply elem_of_cons in Hp as [->|Hp]; [reflexivity|]).
    by apply not_elem_of_nil in Hp.
Defined.

End LedgerFile.
