(* ===== verification/Selection.v ===== *)
(** * Selection: [get_list_video] of module3.py (lines 138-162)

    The caller types sequence numbers separated by commas; the function
    keeps the tokens that are digits after stripping, looks each number
    up in the ledger's [stt] column and returns the [file_path] of the
    first row carrying it, in the order typed.  Every exception (no CSV,
    a missing column) is caught and turns the result into [[]].  This
    is the step between the ledger and the pipeline: its output is the
    list of inputs [auto_concat] receives. *)

From S2P Require Import Prelude Host Scanner Probe Ledger Sync.
From Stdlib Require Import Ascii QArith.

Local Close Scope Q_scope.
Local Open Scope string_scope.
Local Open Scope list_scope.
Import Scanner Probe Ledger Sync.

Module Selection.

(** [s.split(sep)]: every occurrence of [sep] separates, empty parts kept. *)
Fixpoint py_split_on (sep : ascii) (s : string) : list string :=
  match s with
  | "" => [""]
  | String c r =>
      let parts := py_split_on sep r in
      if Ascii.eqb c sep then "" :: parts
      else match parts with
           | p :: ps => String c p :: ps
           | [] => [String c ""]
           end
  end.

(** [int(x.strip()) ... if x.strip().isdigit()] for one token. *)
Definition stt_token (x : string) : option Z :=
  let t := py_strip x in
  if py_isdigit t then Some (digits_value t) else None.

(** [stt_list] (line 146). *)
Definition parse_stt_list (ls : string) : list Z :=
  omap stt_token (py_split_on "," ls).

(** [df[df['stt'] == val]] and its first row ([iloc[0]]); an empty
    cell (NaN) equals no number. *)
Definition find_stt (L : ledger) (v : Z) : option row :=
  List.find (λ r, bool_decide (stt r = Some v)) (rows L).

(** The loop (lines 149-156); [None] when [df['stt']] or
    [row.iloc[0]['file_path']] raises [KeyError]. *)
Fixpoint select_rows (L : ledger) (vals : list Z) : option (list (option string)) :=
  match vals with
  | [] => Some []
  | v :: vs =>
      if negb (has_col L "stt") then None
      else match find_stt L v with
           | Some r =>
               if has_col L "file_path" then cons (file_path r) <$> select_rows L vs else None
           | None => select_rows L vs
           end
  end.

(** [get_list_video(ls, data_csv)]: the CSV is [None] when the file does
    not exist; every exception gives [[]]. *)
Definition get_list_video (ls : string) (data_csv : option ledger) : list (option string) :=
  match data_csv with
  | None => []
  | Some L => default [] (select_rows L (parse_stt_list ls))
  end.

(** [",".join(parts)], for stating what a caller types. *)
Fixpoint join_on (sep : ascii) (parts : list string) : string :=
  match parts with
  | [] => ""
  | [p] => p
  | p :: ps => p +:+ String sep (join_on sep ps)
  end.

(** ** Splitting and parsing *)

Fixpoint has_char (c : ascii) (s : string) : bool :=
  match s with "" => false | String d r => Ascii.eqb d c || has_char c r end.

Lemma split_on_none sep s : has_char sep s = false → py_split_on sep s = [s].
Proof.
  induction s as [|c s IH]; [done|]. simpl. intros (Hc & Hs)%orb_false_elim.
  by rewrite Hc, IH.
Qed.

Lemma split_on_app sep s t :
  has_char sep s = false → py_split_on sep (s +:+ String sep t) = s :: py_split_on sep t.
Proof.
  induction s as [|c s IH]; intros Hs.
  - simpl. by rewrite Ascii.eqb_refl.
  - simpl in Hs. apply orb_false_elim in Hs as [Hc Hs].
    change (py_split_on sep (String c (s +:+ String sep t)) = String c s :: py_split_on sep t).
    simpl. by rewrite Hc, IH.
Qed.

Lemma split_on_join sep parts :
  parts ≠ [] → Forall (λ p, has_char sep p = false) parts →
  py_split_on sep (join_on sep parts) = parts.
Proof.
  induction parts as [|p [|q ps] IH]; intros Hne Hall; [done| |].
  - inversion Hall. by apply split_on_none.
  - inversion Hall; subst. change (join_on sep (p :: q :: ps)) with (p +:+ String sep (join_on sep (q :: ps))).
    rewrite split_on_app by done. f_equal. by apply IH.
Qed.

Lemma all_digits_no_comma s : all_digits s = true → has_char "," s = false.
Proof.
  induction s as [|c s IH]; [done|]. simpl. intros (Hc & Hs)%andb_prop.
  rewrite IH by done. destruct c as [[][][][][][][][]]; done.
Qed.

Lemma stt_token_str z : (0 <= z)%Z → stt_token (py_str_int z) = Some z.
Proof.
  intros Hz. destruct (py_str_int_digits z Hz) as [Hd Hv]. unfold stt_token.
  assert (all_digits (py_str_int z) = true) as Ha
    by (unfold py_isdigit in Hd; by apply andb_prop in Hd as [_ ?]).
  by rewrite py_strip_digits, Hd, Hv.
Qed.

(** ** The lookup loop *)

Lemma select_rows_ok L vals :
  has_col L "stt" = true → has_col L "file_path" = true →
  select_rows L vals = Some (omap (λ v, file_path <$> find_stt L v) vals).
Proof.
  intros Hs Hf. induction vals as [|v vs IH]; [done|]. simpl. rewrite Hs. simpl.
  destruct (find_stt L v); [|done]. by rewrite Hf, IH.
Qed.

Lemma select_rows_no_stt L vals :
  has_col L "stt" = false → vals ≠ [] → select_rows L vals = None.
Proof. intros Hs. destruct vals; [done|]. simpl. by rewrite Hs. Qed.

(** In a ledger numbered densely from 1, number [k] is row [k - 1]. *)
Lemma find_stt_dense L k :
  map stt (rows L) = map (λ i, Some (Z.of_nat i)) (seq 1 (length (rows L))) →
  find_stt L k = if decide (1 <= k)%Z then rows L !! Z.to_nat (k - 1) else None.
Proof.
  unfold find_stt. generalize (rows L) as rs. intros rs.
  assert (∀ n, map stt rs = map (λ i, Some (Z.of_nat i)) (seq n (length rs)) →
    List.find (λ r, bool_decide (stt r = Some k)) rs =
    if decide (Z.of_nat n <= k)%Z then rs !! Z.to_nat (k - Z.of_nat n) else None) as Hgen.
  { induction rs as [|r rs IH]; intros n Hm.
    - simpl. by case_decide.
    - simpl in Hm. injection Hm as Hr Hm. simpl. rewrite Hr.
      case_bool_decide as Hk.
      + injection Hk as <-. rewrite decide_True by lia. by rewrite Z.sub_diag.
      + assert (k ≠ Z.of_nat n) by congruence.
        rewrite (IH (S n) Hm). repeat case_decide; try lia; [|done].
        assert (Z.to_nat (k - Z.of_nat n) = S (Z.to_nat (k - Z.of_nat (S n)))) as -> by lia.
        done. }
  intros Hm. by apply (Hgen 1).
Qed.

(** ** Theorems *)

(** C35: a caller who types the numbers [ks >= 0] as [str(k)] joined by
    commas gets exactly [ks] back from the parse of line 146, in order,
    duplicates included. *)
Theorem parse_stt_list_roundtrip ks :
  Forall (λ k, (0 <= k)%Z) ks → parse_stt_list (join_on "," (map py_str_int ks)) = ks.
Proof.
  intros Hks. destruct ks as [|k ks]; [done|]. unfold parse_stt_list.
  rewrite split_on_join; [|done|].
  - induction (k :: ks) as [|j js IH]; [done|]. inversion Hks; subst.
    simpl. rewrite stt_token_str by done. f_equal. by apply IH.
  - apply Forall_fmap, (Forall_impl _ _ _ Hks). intros j Hj. simpl.
    apply all_digits_no_comma. destruct (py_str_int_digits j Hj) as [Hd _].
    unfold py_isdigit in Hd. by apply andb_prop in Hd as [_ ?].
Qed.

Section AfterSync.
Context `{Host} (cur : option ledger) (folder : string).

Notation L := (fst (sync cur folder)).

Lemma select_after_sync_rows ls :
  get_list_video ls (Some L) =
  omap (λ k, if decide (1 <= k)%Z then file_path <$> rows L !! Z.to_nat (k - 1) else None)
       (parse_stt_list ls).
Proof.
  destruct (sync_meets_spec cur folder) as [Hcol Hdense _ _ _ _].
  unfold get_list_video. rewrite select_rows_ok by (unfold has_col; rewrite Hcol; done).
  simpl. apply list_omap_ext, Forall_Forall2_diag, Forall_forall. intros k _.
  rewrite find_stt_dense by done. by case_decide.
Qed.

(** C5: selecting from the ledger the rebuild mode wrote: the number [k]
    resolves to the path of row [k] (numbers outside [1..N] are dropped),
    and every element returned is a bare path (the [file_path] cell), a
    scanned video of at least 60 s.  The comment on line 138 of
    module3.py promises [(path, duration)] pairs; the code returns paths
    only, and the duration stays in the ledger's [duration] column. *)
Theorem select_after_sync ls :
  get_list_video ls (Some L) =
    omap (λ k, if decide (1 <= k)%Z then file_path <$> rows L !! Z.to_nat (k - 1) else None)
         (parse_stt_list ls) ∧
  ∀ x, x ∈ get_list_video ls (Some L) →
    ∃ p d, x = Some p ∧ p ∈ get_file_list folder ∧
           ffprobe_duration_seconds p = Some d ∧ (60 <= d)%Q.
Proof.
  split; [apply select_after_sync_rows|]. intros x. rewrite select_after_sync_rows.
  destruct (sync_meets_spec cur folder) as [_ _ _ _ Hmem Hdur].
  intros (k & _ & Hk)%list_elem_of_omap. case_decide; [|done].
  destruct (rows L !! _) as [r|] eqn:Hr; [|done]. simpl in Hk. injection Hk as <-.
  apply list_elem_of_lookup_2 in Hr. destruct (Hdur r Hr) as (p & d & Hp & Hd & H60 & _).
  exists p, d. rewrite Hp. split_and!; try done.
  apply (Hmem p). apply list_elem_of_omap. by exists r.
Qed.

End AfterSync.

(** C36: the error paths: a missing CSV gives [[]], and so does a CSV
    without an [stt] column (the [KeyError] is caught), whatever was typed. *)
Theorem get_list_video_errors ls :
  get_list_video ls None = [] ∧
  ∀ L, has_col L "stt" = false → get_list_video ls (Some L) = [].
Proof.
  split; [done|]. intros L Hs. unfold get_list_video.
  destruct (parse_stt_list ls) as [|v vs] eqn:Hp; [done|].
  by rewrite select_rows_no_stt.
Qed.

(** What a typed list becomes on the catalogue of the rebuild scenario:
    "2, 2,x,9,+3" selects row 2 twice; the unknown number 9 and the
    tokens "x" and "+3" (not [isdigit], although [int("+3")] is 3) are
    dropped without error. *)
Lemma select_after_sync_witness :
  get_list_video "2, 2,x,9,+3" (Some (fst (@sync catalogue_host None "D:\vids"))) =
    [Some "D:\vids\b.mp4"; Some "D:\vids\b.mp4"] ∧
  get_list_video "2, 2,x,9,+3" (Some (fst (@sync catalogue_host None "D:\vids"))) =
    omap (λ k, if decide (1 <= k)%Z
               then file_path <$> rows (fst (@sync catalogue_host None "D:\vids")) !! Z.to_nat (k - 1)
               else None)
         (parse_stt_list "2, 2,x,9,+3").
Proof.
  split; [vm_compute; reflexivity|].
  exact (proj1 (@select_after_sync catalogue_host None "D:\vids" "2, 2,x,9,+3")).
Defined.

Lemma parse_stt_list_roundtrip_witness :
  Forall (λ k, (0 <= k)%Z) [13; 0; 7]%Z ∧
  parse_stt_list (join_on "," (map py_str_int [13; 0; 7]%Z)) = [13; 0; 7]%Z.
Proof.
  assert (Forall (λ k, (0 <= k)%Z) [13; 0; 7]%Z) as Hf by (repeat constructor; lia).
  split; [exact Hf|exact (parse_stt_list_roundtrip _ Hf)].
Defined.

End Selection.
