(* ===== verification/Normalize.v ===== *)
(** * Normaliser: the ffmpeg command of [normalize_video]

    module3.py / module4.py [normalize_video(input_path, output_path,
    width, height, fps, use_nvenc, cq, v_bitrate, a_bitrate)]: the type
    guard on the paths, the check that ffmpeg is on the PATH, the choice
    of encoder (NVENC when asked and nvidia-smi is found, libx264
    otherwise), the command line, and [subprocess.run(..., check=True)].
    The result is the command that ran, or the exception the code
    raises.  [declared_profile] reads back from a command line the output
    settings ffmpeg applies (the value after the last occurrence of each
    option, the [-vf] filter read by [read_scale] into width, height
    and rate), which is what the concatenation needs to be equal across
    segments. *)

From S2P Require Import Prelude Host.
From Stdlib Require Import Ascii QArith.

Local Open Scope string_scope.
Local Open Scope list_scope.

Module Normalize.

(** The Python values the arguments can hold. *)
Inductive pyval :=
  | PyStr (s : string)
  | PyInt (z : Z)
  | PyBool (b : bool)          (** [bool], a subclass of [int] *)
  | PyOther (repr : string).   (** any other object, by its [str()] *)

(** [str(v)] *)
Definition py_str (v : pyval) : string :=
  match v with
  | PyStr s => s
  | PyInt z => py_str_int z
  | PyBool b => if b then "True" else "False"
  | PyOther r => r
  end.

(** [str(cq if isinstance(cq, int) else 20)] *)
Definition crf_value (cq : pyval) : string :=
  match cq with PyInt _ | PyBool _ => py_str cq | _ => "20" end.

Record norm_args := mk_args {
  input_path : pyval;
  output_path : pyval;
  width : Z;
  height : Z;
  fps : Z;
  use_nvenc : bool;
  cq : pyval;
  v_bitrate : string;
  a_bitrate : string
}.

(** The defaults of the signature (lines 169-175 of module3.py). *)
Definition with_defaults (i o : pyval) : norm_args :=
  mk_args i o 1920 1080 30 true (PyInt 23) "12M" "160k".

Inductive norm_error :=
  | TypeError                      (** a path is not a [str] *)
  | FfmpegMissing                  (** [RuntimeError]: ffmpeg not on the PATH *)
  | ValueError (arg : string)      (** [int()] of a malformed bitrate *)
  | CalledProcessError (code : Z). (** ffmpeg exited with [code <> 0] *)

(** [int(s)] of a string, [ValueError] when it is no integer. *)
Definition py_int (s : string) : norm_error + Z :=
  match int_of_str s with Some z => inr z | None => inl (ValueError s) end.

(** [v_bitrate[:-1]] *)
Definition drop_last (s : string) : string :=
  String.substring 0 (String.length s - 1) s.

(** [str(int(int(v_bitrate[:-1]) * 2)) + "M" if v_bitrate.endswith("M")
    else "16M"] *)
Definition nvenc_bufsize (v_bitrate : string) : norm_error + string :=
  if str_endswith v_bitrate "M" then
    match py_int (drop_last v_bitrate) with
    | inr n => inr (py_str_int (n * 2) +:+ "M")
    | inl e => inl e
    end
  else inr "16M".

(** [video_args] of the two branches (lines 184-206). *)
Definition video_args `{Host} (a : norm_args) : norm_error + list string :=
  if use_nvenc a && host_which "nvidia-smi" then
    match nvenc_bufsize (v_bitrate a) with
    | inl e => inl e
    | inr bufsize =>
        inr ["-c:v"; "h264_nvenc"; "-profile:v"; "main"; "-rc"; "cbr";
             "-cq"; py_str (cq a); "-b:v"; v_bitrate a; "-maxrate"; v_bitrate a;
             "-bufsize"; bufsize; "-preset"; "p4"]
    end
  else
    inr ["-c:v"; "libx264"; "-preset"; "medium"; "-profile:v"; "main";
         "-level"; "4.2";
         "-crf"; crf_value (cq a);
         "-maxrate"; v_bitrate a; "-bufsize"; "16M"].

(** The [-vf] filter: [f"scale={width}:{height}:flags=lanczos,fps={fps}"]. *)
Definition scale_filter (w h f : Z) : string :=
  "scale=" +:+ py_str_int w +:+ ":" +:+ py_str_int h +:+ ":flags=lanczos,fps=" +:+ py_str_int f.

(** [command] (lines 208-223). *)
Definition command (a : norm_args) (i o : string) (vargs : list string) : list string :=
  ["ffmpeg"; "-y"; "-fflags"; "+genpts"; "-i"; i;
   "-vf"; scale_filter (width a) (height a) (fps a)] ++ vargs ++
  ["-pix_fmt"; "yuv420p"; "-fps_mode"; "cfr"; "-r"; py_str_int (fps a);
   "-movflags"; "+faststart"; "-c:a"; "aac"; "-ar"; "48000"; "-b:a"; a_bitrate a; o].

(** [normalize_video] (lines 166-225): the command that ran, or the
    exception. *)
Definition normalize_video `{Host} (a : norm_args) : norm_error + list string :=
  match input_path a, output_path a with
  | PyStr i, PyStr o =>
      if negb (host_which "ffmpeg") then inl FfmpegMissing
      else
        match video_args a with
        | inl e => inl e
        | inr vargs =>
            let cmd := command a i o vargs in
            let code := host_ffmpeg cmd in
            if (code =? 0)%Z then inr cmd else inl (CalledProcessError code)
        end
  | _, _ => inl TypeError
  end.

(** ** The output settings a command declares *)

(** How ffmpeg reads its arguments: after the program name, an option
    ("-" and a name) takes the next argument as its value, except the
    flags that take none ([-y]); any other argument is a file name.  The
    result is the list of (option, value) pairs in order. *)
Definition no_value_flags : list string := ["-y"].

Definition is_option (a : string) : bool := String.prefix "-" a.

Fixpoint ffmpeg_opts (args : list string) : list (string * string) :=
  match args with
  | [] => []
  | a :: rest =>
      if bool_decide (a ∈ no_value_flags) then ffmpeg_opts rest
      else if is_option a then
        match rest with
        | v :: rest' => (a, v) :: ffmpeg_opts rest'
        | [] => []
        end
      else ffmpeg_opts rest
  end.

(** The value of the last occurrence of option [flag] (ffmpeg keeps the
    last one). *)
Definition opt_value (flag : string) (cmd : list string) : option string :=
  snd <$> last (filter (λ kv, kv.1 = flag) (ffmpeg_opts (tail cmd))).

(** How ffmpeg reads the [-vf] value "scale=W:H:flags=F,fps=R": the
    width, height and rate as integers, for the lanczos scaler. *)
Definition read_scale (vf : string) : option (Z * Z * Z) :=
  match split_first "=" vf with
  | Some (filt, args) =>
      if String.eqb filt "scale" then
        match split_first ":" args with
        | Some (w, r) =>
            match split_first ":" r with
            | Some (h, r') =>
                match split_first "," r' with
                | Some (flags, r'') =>
                    if String.eqb flags "flags=lanczos" then
                      match split_first "=" r'' with
                      | Some (filt2, f) =>
                          if String.eqb filt2 "fps" then
                            match int_of_str w, int_of_str h, int_of_str f with
                            | Some w', Some h', Some f' => Some (w', h', f')
                            | _, _, _ => None
                            end
                          else None
                      | None => None
                      end
                    else None
                | None => None
                end
            | None => None
            end
        | None => None
        end
      else None
  | None => None
  end.

Record profile := mk_profile {
  pf_scale : option (Z * Z * Z); (** -vf: width, height and frame rate *)
  pf_pix_fmt : option string;    (** -pix_fmt *)
  pf_fps_mode : option string;   (** -fps_mode *)
  pf_rate : option Z;            (** -r *)
  pf_acodec : option string;     (** -c:a *)
  pf_arate : option string;      (** -ar *)
  pf_abitrate : option string    (** -b:a *)
}.

Definition profile_flags : list string :=
  ["-vf"; "-pix_fmt"; "-fps_mode"; "-r"; "-c:a"; "-ar"; "-b:a"].

Definition declared_profile (cmd : list string) : profile :=
  mk_profile (opt_value "-vf" cmd ≫= read_scale) (opt_value "-pix_fmt" cmd)
             (opt_value "-fps_mode" cmd) (opt_value "-r" cmd ≫= int_of_str)
             (opt_value "-c:a" cmd) (opt_value "-ar" cmd) (opt_value "-b:a" cmd).

(** The profile the spec asks for: the configured size and rate, a fixed
    pixel format, constant frame rate, AAC at 48 kHz and the configured
    audio bitrate. *)
Definition target_profile (a : norm_args) : profile :=
  mk_profile (Some (width a, height a, fps a)) (Some "yuv420p") (Some "cfr")
             (Some (fps a)) (Some "aac") (Some "48000") (Some (a_bitrate a)).

(** ** Lemmas *)

(** A list of (option, value) pairs written out as arguments. *)
Definition flat (ps : list (string * string)) : list string :=
  concat (map (λ kv, [kv.1; kv.2]) ps).

(** An option that takes a value. *)
Definition opt_pair (kv : string * string) : Prop :=
  is_option kv.1 = true ∧ kv.1 ∉ no_value_flags.

(** ... and is neither the input nor a profile option. *)
Definition option_pair (kv : string * string) : Prop :=
  opt_pair kv ∧ kv.1 ∉ "-i" :: profile_flags.

Lemma ffmpeg_opts_flat ps rest :
  Forall opt_pair ps → ffmpeg_opts (flat ps ++ rest) = ps ++ ffmpeg_opts rest.
Proof.
  induction 1 as [|[k v] ps (Hk & Hy) _ IH]; [done|].
  change (flat ((k, v) :: ps) ++ rest) with (k :: v :: (flat ps ++ rest)).
  assert (∀ r, ffmpeg_opts (k :: v :: r) =
            if bool_decide (k ∈ no_value_flags) then ffmpeg_opts (v :: r)
            else if is_option k then (k, v) :: ffmpeg_opts r else ffmpeg_opts (v :: r))
    as -> by reflexivity.
  simpl in Hk, Hy. rewrite bool_decide_false, Hk, IH by done. reflexivity.
Qed.

Lemma ffmpeg_opts_y rest : ffmpeg_opts ("-y" :: rest) = ffmpeg_opts rest.
Proof. reflexivity. Qed.

Lemma ffmpeg_opts_single x : ffmpeg_opts [x] = [].
Proof. simpl. by repeat case_match. Qed.

(** A successful call ran the command built from its own arguments. *)
Lemma normalize_video_ok `{Host} a cmd :
  normalize_video a = inr cmd →
  ∃ i o vargs, input_path a = PyStr i ∧ output_path a = PyStr o ∧
    host_which "ffmpeg" = true ∧ video_args a = inr vargs ∧
    cmd = command a i o vargs ∧ host_ffmpeg cmd = 0%Z.
Proof.
  unfold normalize_video.
  destruct (input_path a) as [i| | |], (output_path a) as [o| | |]; try discriminate.
  destruct (host_which "ffmpeg"); [|discriminate]. simpl.
  destruct (video_args a) as [|vargs]; [discriminate|].
  destruct (Z.eqb_spec (host_ffmpeg (command a i o vargs)) 0); [|discriminate].
  intros [= <-]. eauto 10.
Qed.

(** The encoder arguments are option pairs, none of them an input or
    profile option. *)
Lemma video_args_pairs `{Host} a vargs :
  video_args a = inr vargs →
  ∃ vps, vargs = flat vps ∧ Forall option_pair vps ∧
    filter (λ kv, kv.1 = "-c:v") vps =
      [("-c:v", if use_nvenc a && host_which "nvidia-smi" then "h264_nvenc" else "libx264")] ∧
    (use_nvenc a && host_which "nvidia-smi" = false →
     filter (λ kv, kv.1 = "-crf") vps =
       [("-crf", crf_value (cq a))]).
Proof.
  unfold video_args. destruct (use_nvenc a && host_which "nvidia-smi").
  - destruct (nvenc_bufsize _) as [|b]; [discriminate|]. intros [= <-].
    eexists [("-c:v", _); ("-profile:v", _); ("-rc", _); ("-cq", _); ("-b:v", _);
             ("-maxrate", _); ("-bufsize", _); ("-preset", _)].
    split_and!; [reflexivity| |reflexivity|done].
    repeat constructor; vm_compute; set_solver.
  - intros [= <-].
    eexists [("-c:v", _); ("-preset", _); ("-profile:v", _); ("-level", _); ("-crf", _);
             ("-maxrate", _); ("-bufsize", _)].
    split_and!; [reflexivity| |reflexivity|reflexivity].
    repeat constructor; vm_compute; set_solver.
Qed.

(** The options ffmpeg reads from a command of [normalize_video]. *)
Lemma command_opts a i o vps :
  Forall option_pair vps →
  ffmpeg_opts (tail (command a i o (flat vps))) =
    [("-fflags", "+genpts"); ("-i", i); ("-vf", scale_filter (width a) (height a) (fps a))] ++
    vps ++
    [("-pix_fmt", "yuv420p"); ("-fps_mode", "cfr"); ("-r", py_str_int (fps a));
     ("-movflags", "+faststart"); ("-c:a", "aac"); ("-ar", "48000"); ("-b:a", a_bitrate a)].
Proof.
  intros Hvps.
  set (pre := [("-fflags", "+genpts"); ("-i", i); ("-vf", scale_filter (width a) (height a) (fps a))]).
  set (suf := [("-pix_fmt", "yuv420p"); ("-fps_mode", "cfr"); ("-r", py_str_int (fps a));
     ("-movflags", "+faststart"); ("-c:a", "aac"); ("-ar", "48000"); ("-b:a", a_bitrate a)]).
  assert (tail (command a i o (flat vps)) = "-y" :: flat pre ++ flat vps ++ flat suf ++ [o])
    as -> by reflexivity.
  rewrite ffmpeg_opts_y, !ffmpeg_opts_flat, ffmpeg_opts_single, app_nil_r; try done.
  all: first [ apply (Forall_impl _ _ _ Hvps); by intros ? []
             | subst pre suf; repeat constructor; vm_compute; set_solver ].
Qed.

Lemma filter_key_out (flag : string) (vps : list (string * string)) :
  flag ∈ "-i" :: profile_flags → Forall option_pair vps →
  filter (λ kv, kv.1 = flag) vps = [].
Proof.
  intros Hf. induction 1 as [|[k v] vps [_ Hk] _ IH]; [done|].
  rewrite filter_cons_False; [done|]. simpl. set_solver.
Qed.

Lemma read_scale_filter w h f : read_scale (scale_filter w h f) = Some (w, h, f).
Proof.
  unfold read_scale, scale_filter. simpl.
  change ("" +:+ ?x) with x. change (":" +:+ ?x) with (String ":" x).
  change (":flags=lanczos,fps=" +:+ ?x) with (String ":" ("flags=lanczos,fps=" +:+ x)).
  rewrite !split_first_str_int by done. simpl. change ("" +:+ ?x) with x.
  by rewrite !int_of_str_str_int.
Qed.

(** ** What a successful normalisation declares *)

(** C9: on success the command declares exactly the target profile
    whatever the input: the [-vf] filter, read back as ffmpeg reads it,
    scales with lanczos to the configured width and height (in that
    order) and sets the configured frame rate; [-r] is the same rate;
    yuv420p, constant frame rate, AAC at 48000 Hz and the configured
    audio bitrate [-b:a].  The command reads the given input path and
    writes to the given output path. *)
Theorem normalize_declares_target `{Host} a cmd :
  normalize_video a = inr cmd →
  declared_profile cmd = target_profile a ∧
  opt_value "-i" cmd = (match input_path a with PyStr i => Some i | _ => None end) ∧
  last cmd = (match output_path a with PyStr o => Some o | _ => None end).
Proof.
  intros (i & o & vargs & Hi & Ho & _ & Hv & -> & _)%normalize_video_ok.
  destruct (video_args_pairs a vargs Hv) as (vps & -> & Hvps & _ & _). rewrite Hi, Ho.
  unfold declared_profile, target_profile, opt_value. rewrite !command_opts by done.
  rewrite !filter_app, !(filter_key_out _ vps) by (done || set_solver).
  split_and!; [|reflexivity|unfold command; by rewrite !last_app].
  simpl. by rewrite read_scale_filter, int_of_str_str_int.
Qed.

(** C12: the encoder: NVENC exactly when it is asked for and nvidia-smi is
    found, libx264 otherwise; on the software path the quality factor is
    [str(cq)] when [cq] is an int (a bool included) and 20 otherwise. *)
Theorem normalize_encoder_choice `{Host} a cmd :
  normalize_video a = inr cmd →
  opt_value "-c:v" cmd =
    Some (if use_nvenc a && host_which "nvidia-smi" then "h264_nvenc" else "libx264") ∧
  (use_nvenc a && host_which "nvidia-smi" = false →
   opt_value "-crf" cmd = Some (crf_value (cq a))).
Proof.
  intros (i & o & vargs & _ & _ & _ & Hv & -> & _)%normalize_video_ok.
  destruct (video_args_pairs a vargs Hv) as (vps & -> & Hvps & Hcv & Hcrf).
  unfold opt_value. rewrite !command_opts, !filter_app by done.
  split; [|intros Hsw]; [rewrite Hcv|rewrite (Hcrf Hsw)]; reflexivity.
Qed.

(** ** Errors *)

(** C13: the guards run in the code's order: a path that is not a [str]
    raises [TypeError] whatever the host (before ffmpeg is looked up);
    with two [str] paths a missing ffmpeg raises the [RuntimeError]; an
    ffmpeg exit code [c <> 0] raises [CalledProcessError c]. *)
Theorem normalize_errors `{Host} a :
  ((∀ i o, input_path a = PyStr i → output_path a = PyStr o → False) →
     normalize_video a = inl TypeError) ∧
  (∀ i o, input_path a = PyStr i → output_path a = PyStr o →
     host_which "ffmpeg" = false → normalize_video a = inl FfmpegMissing) ∧
  (∀ i o vargs, input_path a = PyStr i → output_path a = PyStr o →
     host_which "ffmpeg" = true → video_args a = inr vargs →
     host_ffmpeg (command a i o vargs) ≠ 0%Z →
     normalize_video a = inl (CalledProcessError (host_ffmpeg (command a i o vargs)))).
Proof.
  unfold normalize_video. split_and!.
  - intros Hn. destruct (input_path a), (output_path a); try done. by destruct (Hn s s0).
  - intros i o -> -> ->. done.
  - intros i o vargs -> -> -> -> Hc. simpl. by rewrite (proj2 (Z.eqb_neq _ _) Hc).
Qed.

(** The same call on the software path. *)
Definition without_nvenc (a : norm_args) : norm_args :=
  mk_args (input_path a) (output_path a) (width a) (height a) (fps a) false
          (cq a) (v_bitrate a) (a_bitrate a).

(** C40 (finding): a bitrate ending in "M" whose number is not an int
    (e.g. "1.5M") makes the NVENC path raise [ValueError] while the
    command is assembled, and the same arguments pass on the software
    path: the configuration is not validated up front. *)
Theorem normalize_bitrate_checked_late `{Host} a i o e :
  input_path a = PyStr i → output_path a = PyStr o → host_which "ffmpeg" = true →
  use_nvenc a = true → host_which "nvidia-smi" = true →
  str_endswith (v_bitrate a) "M" = true → py_int (drop_last (v_bitrate a)) = inl e →
  normalize_video a = inl e ∧ ∃ vargs, video_args (without_nvenc a) = inr vargs.
Proof.
  intros Hi Ho Hf Hn Hs He Hp. split; [|by eexists].
  unfold normalize_video, video_args, nvenc_bufsize. by rewrite Hi, Ho, Hf, Hn, Hs, He, Hp.
Qed.

(** ** Witnesses *)

(** A host with ffmpeg and nvidia-smi, and one without nvidia-smi. *)
Definition gpu_host : Host := demo_host "." (Dir "." [] []) 0%Q.
Definition cpu_host : Host :=
  {| host_tree := λ _, None; host_abspath := λ p, p; host_ffprobe := λ _, None;
     host_clip_duration := λ _, None; host_getmtime := λ _, None; host_clock := λ _, 0%Q;
     host_which := λ t, String.eqb t "ffmpeg"; host_ffmpeg := λ _, 0%Z;
     host_ffmpeg_partial := λ _, false |}.

Definition demo_args : norm_args :=
  mk_args (PyStr "clip 4k 60fps.mov") (PyStr "normalized_0.mp4") 1920 1080 30 true
          (PyOther "23.5") "12M" "160k".

Lemma normalize_declares_target_witness :
  let cmd := match @normalize_video gpu_host demo_args with inr c => c | inl _ => [] end in
  @normalize_video gpu_host demo_args = inr cmd ∧
  declared_profile cmd = target_profile demo_args ∧
  opt_value "-i" cmd = Some "clip 4k 60fps.mov" ∧ last cmd = Some "normalized_0.mp4".
Proof.
  cbv zeta. assert (@normalize_video gpu_host demo_args =
    inr (match @normalize_video gpu_host demo_args with inr c => c | inl _ => [] end)) as Hok
    by (vm_compute; reflexivity).
  split; [exact Hok|]. exact (@normalize_declares_target gpu_host demo_args _ Hok).
Defined.

Lemma normalize_encoder_choice_witness :
  let cmd := match @normalize_video cpu_host demo_args with inr c => c | inl _ => [] end in
  @normalize_video cpu_host demo_args = inr cmd ∧
  opt_value "-c:v" cmd = Some "libx264" ∧ opt_value "-crf" cmd = Some "20".
Proof.
  cbv zeta. assert (@normalize_video cpu_host demo_args =
    inr (match @normalize_video cpu_host demo_args with inr c => c | inl _ => [] end)) as Hok
    by (vm_compute; reflexivity).
  destruct (@normalize_encoder_choice cpu_host demo_args _ Hok) as [Hc Hcrf].
  split_and!; [exact Hok|exact Hc|exact (Hcrf eq_refl)].
Defined.

Lemma normalize_bitrate_checked_late_witness :
  let a := mk_args (PyStr "in.mov") (PyStr "out.mp4") 1920 1080 30 true (PyInt 23) "1.5M" "160k" in
  @normalize_video gpu_host a = inl (ValueError "1.5") ∧
  ∃ vargs, @video_args gpu_host (without_nvenc a) = inr vargs.
Proof.
  apply (@normalize_bitrate_checked_late gpu_host _ "in.mov" "out.mp4");
    vm_compute; reflexivity.
Defined.

End Normalize.

