(* ===== verification/Pipeline.v ===== *)
(** * Concatenator and orchestrator: [concat_video] and [auto_concat]

    [auto_concat(input_videos, output_path)] submits one job per input to
    a [ThreadPoolExecutor(max_workers=6)]; job [i] normalises input [i]
    into ["normalized_<i>.mp4"].  The main thread then waits on the
    futures in submission order; the first failed future raises, and
    leaving the [with] block waits until every queued job has run
    ([shutdown(wait=True)], no cancellation).  When all succeed,
    [concat_video] writes the manifest ["temp.txt"], runs ffmpeg's concat
    demuxer with stream copy, removes the manifest, and [auto_concat]
    removes the normalised files.

    The file system is a finite map from names to contents; a video's
    content records the source paths of its segments, in order.  The
    pool is a step relation [pstep] on [pstate] (FIFO queue, running
    set, finished results, file system, main thread); [auto_concat_ref]
    is the sequential reference every interleaving is proved to agree
    with.  [concat_entries] is how the demuxer reads the manifest back
    (lines, the [file] directive, av_get_token's quoting). *)

From S2P Require Import Prelude Host Normalize.
From Stdlib Require Import Ascii.

Local Open Scope string_scope.
Local Open Scope list_scope.
Import Normalize.

Module Pipeline.

Inductive content :=
  | Text (s : string)             (** a text file *)
  | Video (segments : list string) (** a video holding these sources, in order *)
  | Partial.                      (** what a failed encode leaves behind *)

Abbreviation fsys := (gmap string content).

Inductive pipeline_error :=
  | NormError (e : norm_error)     (** raised by a normalisation job *)
  | ConcatFailed (code : Z)        (** [CalledProcessError] of the concat run *)
  | FileNotFound (path : string).  (** [os.remove] of a missing file *)

(** ** [concat_video] (module3.py lines 229-244) *)

Definition LIST_FILE := "temp.txt".

Definition newline : string := String (Ascii.ascii_of_nat 10) "".

(** [.replace("\\", "/")] *)
Fixpoint replace_backslash (s : string) : string :=
  match s with
  | "" => ""
  | String c r => String (if Ascii.eqb c "\"%char then "/"%char else c) (replace_backslash r)
  end.

(** [f"file '{abs_path}'\n"] *)
Definition manifest_line `{Host} (path : string) : string :=
  "file '" +:+ replace_backslash (host_abspath path) +:+ "'" +:+ newline.

Definition manifest `{Host} (video_paths : list string) : string :=
  foldr (λ p acc, manifest_line p +:+ acc) "" video_paths.

Definition concat_command (output_path : string) : list string :=
  ["ffmpeg"; "-y"; "-f"; "concat"; "-safe"; "0"; "-i"; LIST_FILE; "-c"; "copy"; output_path].

(** What the concat demuxer writes: the segments of the listed files, in
    the manifest's order. *)
Definition joined (fs : fsys) (video_paths : list string) : content :=
  Video (mbind (λ p, match fs !! p with Some (Video segs) => segs | _ => [] end) video_paths).

(** [os.remove(path)]: the file system, and the error when it is missing. *)
Definition os_remove (path : string) (fs : fsys) : option pipeline_error * fsys :=
  if bool_decide (is_Some (fs !! path)) then (None, delete path fs)
  else (Some (FileNotFound path), fs).

(** The side effects happen before an exception, so each function
    returns the exception it raises (if any) with the file system it
    leaves. *)
Definition concat_video `{Host} (video_paths : list string) (output_path : string)
    (fs : fsys) : option pipeline_error * fsys :=
  let fs1 := <[LIST_FILE := Text (manifest video_paths)]> fs in
  let cmd := concat_command output_path in
  let code := host_ffmpeg cmd in
  if (code =? 0)%Z then os_remove LIST_FILE (<[output_path := joined fs1 video_paths]> fs1)
  else (Some (ConcatFailed code),
        if host_ffmpeg_partial cmd then <[output_path := Partial]> fs1 else fs1).

(** [for path in normalized_paths: os.remove(path)] *)
Fixpoint remove_all (paths : list string) (fs : fsys) : option pipeline_error * fsys :=
  match paths with
  | [] => (None, fs)
  | p :: ps =>
      match os_remove p fs with
      | (Some e, fs') => (Some e, fs')
      | (None, fs') => remove_all ps fs'
      end
  end.

(** The part of [auto_concat] after the [with] block (lines 260-263). *)
Definition concat_and_cleanup `{Host} (normalized_paths : list string) (output_path : string)
    (fs : fsys) : option pipeline_error * fsys :=
  match concat_video normalized_paths output_path fs with
  | (Some e, fs') => (Some e, fs')
  | (None, fs') => remove_all normalized_paths fs'
  end.

(** ** What ffmpeg's concat demuxer reads from [temp.txt]

    The demuxer reads the list line by line; a line "file X" names a
    segment, and X is read as [av_get_token] reads a token: leading
    blanks are skipped, a text between single quotes is taken as it is,
    a backslash outside quotes escapes the next byte, and a blank outside
    quotes ends the token.  Other lines (the empty one after the last
    newline) name nothing. *)

Definition APOS : Ascii.ascii := Ascii.ascii_of_nat 39.
Definition LF : Ascii.ascii := Ascii.ascii_of_nat 10.

Fixpoint split_lines (s : string) : list string :=
  match s with
  | "" => [""]
  | String c r =>
      if Ascii.eqb c LF then "" :: split_lines r
      else match split_lines r with
           | [] => [String c ""]
           | l :: ls => String c l :: ls
           end
  end.

(** The token from the current byte on; [inq]: inside single quotes. *)
Fixpoint av_token (inq : bool) (s : string) : string :=
  match s with
  | "" => ""
  | String c r =>
      if inq then (if Ascii.eqb c APOS then av_token false r else String c (av_token true r))
      else if Ascii.eqb c APOS then av_token true r
      else if Ascii.eqb c "\"%char then
        match r with
        | String d r' => String d (av_token false r')
        | "" => String c ""
        end
      else if is_py_space c then ""
      else String c (av_token false r)
  end.

Definition av_get_token (s : string) : string := av_token false (py_lstrip s).

(** The segment a line names, if it is a [file] line. *)
Definition parse_line (l : string) : option string :=
  match split_first " " (py_lstrip l) with
  | Some (kw, rest) => if String.eqb kw "file" then Some (av_get_token rest) else None
  | None => None
  end.

Definition concat_entries (text : string) : list string := omap parse_line (split_lines text).

(** The path as [concat_video] writes it into the list. *)
Definition listed_path `{Host} (p : string) : string := replace_backslash (host_abspath p).

(** A text without a single quote and without a line break. *)
Fixpoint plain_text (s : string) : bool :=
  match s with
  | "" => true
  | String c r => negb (Ascii.eqb c APOS) && negb (Ascii.eqb c LF) && plain_text r
  end.

(** ** One job: [normalize_and_collect(i, path)] (lines 250-253) *)

Definition normalized_name (i : nat) : string := "normalized_" +:+ pretty i +:+ ".mp4".

Definition job_args (input : pyval) (i : nat) : norm_args :=
  with_defaults input (PyStr (normalized_name i)).

(** The future's result. *)
Definition job_result `{Host} (input : pyval) (i : nat) : norm_error + string :=
  match normalize_video (job_args input i) with
  | inr _ => inr (normalized_name i)
  | inl e => inl e
  end.

(** What the job leaves in [normalized_<i>.mp4]: the normalised video, a
    partial file when ffmpeg failed and left one, nothing otherwise. *)
Definition job_write `{Host} (input : pyval) (i : nat) : option content :=
  let a := job_args input i in
  match normalize_video a, input with
  | inr _, _ => Some (Video [py_str input])
  | inl (CalledProcessError _), PyStr s =>
      match video_args a with
      | inr vargs =>
          if host_ffmpeg_partial (command a s (normalized_name i) vargs) then Some Partial else None
      | inl _ => None
      end
  | inl _, _ => None
  end.

Definition job_fs `{Host} (input : pyval) (i : nat) (fs : fsys) : fsys :=
  match job_write input i with
  | Some c => <[normalized_name i := c]> fs
  | None => fs
  end.

(** ** The pool: [ThreadPoolExecutor(max_workers=6)] *)

Definition MAX_WORKERS : nat := 6.

(** The main thread: waiting on [futures[k]] with the paths collected so
    far, unwinding the [with] block after [future.result()] raised, or
    finished with the exception [auto_concat] raises (if any). *)
Inductive main_phase :=
  | Waiting (k : nat) (collected : list string)
  | Unwinding (e : norm_error)
  | Finished (r : option pipeline_error).

Record pstate := mk_pstate {
  ps_pending : list nat;                     (** the executor's work queue *)
  ps_running : list nat;                     (** jobs a worker is running *)
  ps_done : gmap nat (norm_error + string);  (** finished futures *)
  ps_fs : fsys;
  ps_main : main_phase
}.

Section Pool.
Context `{Host} (inputs : list pyval) (output_path : string).

Definition input_at (i : nat) : pyval := default (PyOther "None") (inputs !! i).

Inductive pstep : pstate → pstate → Prop :=
  (** an idle worker (fewer than 6 busy) takes the next queued job *)
  | step_start j pend run dn fs m :
      length run < MAX_WORKERS →
      pstep (mk_pstate (j :: pend) run dn fs m) (mk_pstate pend (j :: run) dn fs m)
  (** a running job completes: its future gets the result, its file is written *)
  | step_finish j run1 run2 pend dn fs m :
      pstep (mk_pstate pend (run1 ++ j :: run2) dn fs m)
            (mk_pstate pend (run1 ++ run2) (<[j := job_result (input_at j) j]> dn)
                       (job_fs (input_at j) j fs) m)
  (** [normalized_paths.append(future.result())] *)
  | step_collect k col p pend run dn fs :
      dn !! k = Some (inr p) →
      pstep (mk_pstate pend run dn fs (Waiting k col))
            (mk_pstate pend run dn fs (Waiting (S k) (col ++ [p])))
  (** [future.result()] re-raises the job's exception *)
  | step_raise k col e pend run dn fs :
      dn !! k = Some (inl e) →
      pstep (mk_pstate pend run dn fs (Waiting k col)) (mk_pstate pend run dn fs (Unwinding e))
  (** leaving the [with] block waits for every queued job, then re-raises *)
  | step_unwind e dn fs :
      pstep (mk_pstate [] [] dn fs (Unwinding e))
            (mk_pstate [] [] dn fs (Finished (Some (NormError e))))
  (** all futures collected, the pool shut down: concatenate and clean up *)
  | step_concat col dn fs :
      pstep (mk_pstate [] [] dn fs (Waiting (length inputs) col))
            (mk_pstate [] [] dn (concat_and_cleanup col output_path fs).2
                       (Finished (concat_and_cleanup col output_path fs).1)).

(** The state after [executor.submit] of every input. *)
Definition pinit (fs0 : fsys) : pstate :=
  mk_pstate (seq 0 (length inputs)) [] ∅ fs0 (Waiting 0 []).

(** ** The sequential reference *)

(** [[future.result() for future in futures]]: the first exception in
    submission order, or every path. *)
Fixpoint collect (rs : list (norm_error + string)) : norm_error + list string :=
  match rs with
  | [] => inr []
  | inl e :: _ => inl e
  | inr p :: rs' => match collect rs' with inl e => inl e | inr ps => inr (p :: ps) end
  end.

Definition all_jobs_fs (fs0 : fsys) : fsys :=
  foldr (λ j fs, job_fs (input_at j) j fs) fs0 (seq 0 (length inputs)).

Definition auto_concat_ref (fs0 : fsys) : option pipeline_error * fsys :=
  let fs1 := all_jobs_fs fs0 in
  match collect (map (λ j, job_result (input_at j) j) (seq 0 (length inputs))) with
  | inl e => (Some (NormError e), fs1)
  | inr ps => concat_and_cleanup ps output_path fs1
  end.

End Pool.

(** ** Lemmas on jobs and the reference *)

(** Job outputs are named after their index only, injectively. *)
Lemma normalized_name_inj i j : normalized_name i = normalized_name j → i = j.
Proof.
  unfold normalized_name. intros Heq.
  apply (inj (String.append "normalized_")), str_app_inv_r in Heq.
  by apply (inj pretty) in Heq.
Qed.

Section Jobs.
Context `{Host} (inputs : list pyval).

Let jf (j : nat) (fs : fsys) : fsys := job_fs (input_at inputs j) j fs.

(** Two jobs write different files, so their effects commute. *)
Lemma job_fs_comm i j fs : jf i (jf j fs) = jf j (jf i fs).
Proof.
  destruct (decide (i = j)) as [->|Hij]; [done|]. unfold jf, job_fs.
  destruct (job_write _ i), (job_write _ j); try done.
  apply insert_insert_ne. intros Heq. by apply Hij, normalized_name_inj.
Qed.

(** The file system after a set of jobs does not depend on their order. *)
Lemma jobs_fs_perm l1 l2 fs0 : l1 ≡ₚ l2 → foldr jf fs0 l1 = foldr jf fs0 l2.
Proof.
  intros Hp. apply (foldr_permutation eq); [| |done].
  - intros x. unfold Proper, respectful. by intros ?? ->.
  - intros. apply job_fs_comm.
Qed.
End Jobs.

Lemma job_result_ok `{Host} a i p : job_result a i = inr p → p = normalized_name i.
Proof. unfold job_result. by destruct (normalize_video _); intros [= <-]. Qed.

(** ** The invariant of the pool *)

Section PoolProofs.
Context `{Host} (inputs : list pyval) (output_path : string) (fs0 : fsys).

#[local] Abbreviation n := (length inputs).
#[local] Abbreviation res j := (job_result (input_at inputs j) j).
#[local] Abbreviation jf := (λ j fs, job_fs (input_at inputs j) j fs).

Lemma collect_ok k m :
  (∀ i, k <= i < k + m → res i = inr (normalized_name i)) →
  collect (map (λ j, res j) (seq k m)) = inr (map normalized_name (seq k m)).
Proof.
  revert k. induction m as [|m IH]; intros k Hok; [done|]. simpl.
  rewrite (Hok k) by lia. rewrite IH; [done|]. intros i Hi. apply Hok. lia.
Qed.

Lemma collect_first k m j e :
  k <= j < k + m → (∀ i, k <= i < j → res i = inr (normalized_name i)) → res j = inl e →
  collect (map (λ j, res j) (seq k m)) = inl e.
Proof.
  revert k. induction m as [|m IH]; intros k Hj Hok He; [lia|]. simpl.
  destruct (decide (j = k)) as [->|Hne]; [by rewrite He|].
  rewrite (Hok k) by lia. rewrite (IH (S k)); [done|lia| |done].
  intros i Hi. apply Hok. lia.
Qed.

(** What the main thread knows, by phase. *)
Definition main_inv (s : pstate) : Prop :=
  match ps_main s with
  | Waiting k col =>
      k <= n ∧ col = map normalized_name (seq 0 k) ∧
      (∀ i, i < k → res i = inr (normalized_name i)) ∧
      ps_fs s = foldr jf fs0 (elements (dom (ps_done s)))
  | Unwinding e =>
      (∃ k, k < n ∧ res k = inl e ∧ ∀ i, i < k → res i = inr (normalized_name i)) ∧
      ps_fs s = foldr jf fs0 (elements (dom (ps_done s)))
  | Finished r =>
      (r, ps_fs s) = auto_concat_ref inputs output_path fs0 ∧
      ps_pending s = [] ∧ ps_running s = []
  end.

(** Every job is queued, running or done, exactly once; at most six run;
    a finished future holds its job's result. *)
Definition pool_inv (s : pstate) : Prop :=
  ps_pending s ++ ps_running s ++ elements (dom (ps_done s)) ≡ₚ seq 0 n ∧
  length (ps_running s) <= MAX_WORKERS ∧
  (∀ j r, ps_done s !! j = Some r → r = res j) ∧
  main_inv s.

Lemma pool_inv_init : pool_inv (pinit inputs fs0).
Proof.
  unfold pool_inv, main_inv, pinit. simpl. rewrite dom_empty_L, elements_empty, !app_nil_r.
  split_and!; try done; intros; lia.
Qed.

Lemma done_lt pend run (dn : gmap nat (norm_error + string)) j r :
  pend ++ run ++ elements (dom dn) ≡ₚ seq 0 n → dn !! j = Some r → j < n.
Proof.
  intros Hp Hj. apply elem_of_seq with (j := 0). rewrite <-Hp.
  apply elem_of_app; right; apply elem_of_app; right.
  apply elem_of_elements, elem_of_dom. by eexists.
Qed.

(** A running job has no future yet. *)
Lemma running_fresh pend run1 j run2 (dn : gmap nat (norm_error + string)) :
  pend ++ (run1 ++ j :: run2) ++ elements (dom dn) ≡ₚ seq 0 n → dn !! j = None.
Proof.
  intros Hp. pose proof (NoDup_seq 0 n) as Hnd. rewrite <-Hp in Hnd.
  apply NoDup_app in Hnd as (_ & _ & Hnd). apply NoDup_app in Hnd as (_ & Hd & _).
  apply not_elem_of_dom. intros Hin. apply (Hd j); [set_solver|]. by apply elem_of_elements.
Qed.

Lemma elements_dom_insert (dn : gmap nat (norm_error + string)) j r :
  dn !! j = None → elements (dom (<[j := r]> dn)) ≡ₚ j :: elements (dom dn).
Proof.
  intros Hj. rewrite dom_insert_L. apply elements_union_singleton. by apply not_elem_of_dom.
Qed.

Lemma fs_insert (dn : gmap nat (norm_error + string)) j r :
  dn !! j = None →
  foldr jf fs0 (elements (dom (<[j := r]> dn))) = jf j (foldr jf fs0 (elements (dom dn))).
Proof. intros Hj. by rewrite (jobs_fs_perm _ _ _ _ (elements_dom_insert dn j r Hj)). Qed.

Ltac main_cases m := destruct m; simpl in *; try by (intuition congruence).

(** Each rule of [pstep] keeps the invariant. *)
Lemma pool_step_inv s s' : pstep inputs output_path s s' → pool_inv s → pool_inv s'.
Proof.
  intros Hs (Hp & Hb & Hr & Hm). unfold pool_inv, main_inv in *.
  destruct Hs; simpl in *.
  - (* start *)
    split_and!; [|lia|done|main_cases m]. rewrite <-Hp. simpl. by rewrite <-Permutation_middle.
  - (* finish *)
    pose proof (running_fresh _ _ _ _ _ Hp) as Hj.
    split_and!.
    + rewrite elements_dom_insert by done. rewrite <-Hp. solve_Permutation.
    + rewrite length_app in *. simpl in Hb. lia.
    + intros i r. rewrite lookup_insert_Some. intros [[-> <-]|[_ ?]]; [done|by eapply Hr].
    + main_cases m; [..|by destruct run1; simpl in *; intuition congruence];
        rewrite fs_insert by done; intuition congruence.
  - (* collect *)
    destruct Hm as (Hk & -> & Hok & Hfs).
    pose proof (done_lt _ _ _ _ _ Hp H0) as Hlt. pose proof (Hr _ _ H0) as Hres.
    pose proof (job_result_ok _ _ _ (eq_sym Hres)) as ->.
    split_and!; try done.
    { change (_ :: map _ (seq 1 k)) with (map normalized_name (seq 0 (S k))).
      by rewrite seq_S, map_app. }
    intros i Hi. destruct (decide (i = k)) as [->|]; [done|apply Hok; lia].
  - (* raise *)
    destruct Hm as (Hk & _ & Hok & Hfs). split_and!; try done.
    exists k. split_and!; [eapply done_lt; eauto|by erewrite <-(Hr k) by done|done].
  - (* unwind *)
    destruct Hm as ((k & Hk & He & Hok) & ->). split_and!; try done. unfold auto_concat_ref.
    rewrite (collect_first 0 n k e); [|lia|intros; apply Hok; lia|done]. simpl in Hp. by rewrite (jobs_fs_perm _ _ _ _ Hp).
  - (* concat *)
    destruct Hm as (_ & -> & Hok & ->). split_and!; try done. unfold auto_concat_ref.
    rewrite (collect_ok 0 n) by (intros; apply Hok; lia). simpl in Hp.
    rewrite (jobs_fs_perm _ _ _ _ Hp). by destruct (concat_and_cleanup _ _ _).
Qed.

(** When nothing is queued or running, every job is done. *)
Lemma all_done s :
  pool_inv s → ps_pending s = [] → ps_running s = [] →
  elements (dom (ps_done s)) ≡ₚ seq 0 n ∧ ∀ i, i < n → ps_done s !! i = Some (res i).
Proof.
  intros (Hp & _ & Hr & _) Hpe Hru. rewrite Hpe, Hru in Hp. simpl in Hp. split; [done|].
  intros i Hi. assert (i ∈ elements (dom (ps_done s))) as Hin
    by (rewrite Hp; apply elem_of_seq; lia).
  apply elem_of_elements, elem_of_dom in Hin as [r Hr']. rewrite Hr'. f_equal. by eapply Hr.
Qed.

Lemma fs_all_done s :
  pool_inv s → ps_pending s = [] → ps_running s = [] →
  foldr jf fs0 (elements (dom (ps_done s))) = all_jobs_fs inputs fs0.
Proof.
  intros Hinv Hpe Hru. destruct (all_done s Hinv Hpe Hru) as [Hp _].
  unfold all_jobs_fs. by apply jobs_fs_perm.
Qed.

Definition reachable (s : pstate) : Prop := rtc (pstep inputs output_path) (pinit inputs fs0) s.

Lemma rtc_pool_inv s1 s2 : rtc (pstep inputs output_path) s1 s2 → pool_inv s1 → pool_inv s2.
Proof. induction 1; eauto using pool_step_inv. Qed.

Lemma reachable_inv s : reachable s → pool_inv s.
Proof. intros Hr. eapply rtc_pool_inv; [exact Hr|apply pool_inv_init]. Qed.

(** The variant: queued jobs count twice (start, then finish), running
    jobs once, and the main thread what it has left to collect. *)
Definition phase_measure (m : main_phase) : nat :=
  match m with Waiting k _ => 2 + (n - k) | Unwinding _ => 1 | Finished _ => 0 end.

Definition measure (s : pstate) : nat :=
  2 * length (ps_pending s) + length (ps_running s) + phase_measure (ps_main s).

Lemma pool_step_measure s s' :
  pool_inv s → pstep inputs output_path s s' → measure s' < measure s.
Proof.
  intros (Hp & _) Hs. unfold measure.
  destruct Hs; simpl in *; rewrite ?length_app; simpl; try lia.
  pose proof (done_lt _ _ _ _ _ Hp H0). lia.
Qed.

Lemma pool_inv_Acc s : pool_inv s → Acc (λ s2 s1, pstep inputs output_path s1 s2) s.
Proof.
  remember (measure s) as m eqn:Hm. revert s Hm.
  induction m as [m IH] using lt_wf_ind. intros s -> Hinv.
  constructor. intros s' Hs. eapply IH; [|done|by eapply pool_step_inv].
  by apply pool_step_measure.
Qed.

(** A state the main thread has not finished always has a next step. *)
Lemma pool_progress s :
  pool_inv s → (∀ r, ps_main s ≠ Finished r) → ∃ s', pstep inputs output_path s s'.
Proof.
  intros Hinv Hnf. destruct s as [pend run dn fs m].
  destruct run as [|j run].
  { destruct pend as [|j pend].
    - destruct (all_done _ Hinv eq_refl eq_refl) as [_ Hall].
      destruct Hinv as (_ & _ & _ & Hm). unfold main_inv in Hm. simpl in *.
      destruct m as [k col|e|r]; [|eexists; constructor|by destruct (Hnf r)].
      destruct Hm as (Hk & _).
      destruct (decide (k = n)) as [->|Hkn]; [eexists; apply step_concat|].
      assert (dn !! k = Some (res k)) as Hk' by (apply Hall; lia).
      destruct (res k) as [e|p]; eexists; [by apply step_raise|by apply step_collect].
    - eexists. apply step_start. unfold MAX_WORKERS. simpl. lia. }
  exists (mk_pstate pend run (<[j := res j]> dn) (jf j fs) m).
  apply (step_finish _ _ j [] run).
Qed.

End PoolProofs.

(** ** The sequential reference on success *)

Lemma normalized_name_ne_list i : normalized_name i ≠ LIST_FILE.
Proof. unfold normalized_name, LIST_FILE. discriminate. Qed.

Lemma NoDup_names l : NoDup l → NoDup (map normalized_name l).
Proof. intros. apply NoDup_fmap_2_strong; [|done]. intros ????. apply normalized_name_inj. Qed.

(** [for path in paths: os.remove(path)] succeeds on distinct existing
    files and deletes exactly them. *)
Lemma remove_all_ok ps fs :
  NoDup ps → (∀ p, p ∈ ps → is_Some (fs !! p)) →
  ∃ fs', remove_all ps fs = (None, fs') ∧
         ∀ q, fs' !! q = if decide (q ∈ ps) then None else fs !! q.
Proof.
  revert fs. induction ps as [|p ps IH]; intros fs Hnd Hex.
  { exists fs. split; [done|]. intros q. by rewrite decide_False by set_solver. }
  apply NoDup_cons in Hnd as [Hp Hnd]. simpl. unfold os_remove.
  rewrite bool_decide_true by (apply Hex; set_solver).
  destruct (IH (delete p fs)) as (fs' & -> & Hl); [done| |].
  { intros q Hq. rewrite lookup_delete_ne by set_solver. apply Hex. set_solver. }
  exists fs'. split; [done|]. intros q. rewrite Hl.
  destruct (decide (q = p)) as [->|Hqp].
  - rewrite decide_False by done. rewrite decide_True by set_solver. by rewrite lookup_delete_eq.
  - rewrite lookup_delete_ne by done. repeat case_decide; set_solver.
Qed.

Section Reference.
Context `{Host} (inputs : list pyval).

Notation n := (length inputs).
Notation res j := (job_result (input_at inputs j) j).
Notation jf := (λ j fs, job_fs (input_at inputs j) j fs).

Lemma job_ok_write a i p : job_result a i = inr p → job_write a i = Some (Video [py_str a]).
Proof. unfold job_result, job_write. by destruct (normalize_video _). Qed.

Lemma jobs_fs_other l fs q : q ∉ map normalized_name l → foldr jf fs l !! q = fs !! q.
Proof.
  induction l as [|j l IH]; intros Hq; [done|]. simpl. unfold job_fs.
  destruct (job_write _ j); [rewrite lookup_insert_ne by set_solver|]; apply IH; set_solver.
Qed.

Lemma jobs_fs_ok l fs i :
  i ∈ l → (∀ j, j ∈ l → res j = inr (normalized_name j)) →
  foldr jf fs l !! normalized_name i = Some (Video [py_str (input_at inputs i)]).
Proof.
  induction l as [|j l IH]; intros Hi Hok; [set_solver|]. simpl. unfold job_fs.
  rewrite (job_ok_write _ _ _ (Hok j ltac:(set_solver))).
  destruct (decide (i = j)) as [->|Hij]; [by rewrite lookup_insert_eq|].
  rewrite lookup_insert_ne by (intros ?%normalized_name_inj; congruence).
  apply IH; set_solver.
Qed.

Lemma joined_ok fs l :
  (∀ i, i ∈ l → fs !! normalized_name i = Some (Video [py_str (input_at inputs i)])) →
  joined fs (map normalized_name l) = Video (map (λ i, py_str (input_at inputs i)) l).
Proof.
  unfold joined. intros Hl. f_equal. induction l as [|i l IH]; [done|]. simpl.
  rewrite Hl by set_solver. simpl. f_equal. apply IH. intros. apply Hl. set_solver.
Qed.

Lemma map_input_at {A} (f : pyval → A) :
  map (λ i, f (input_at inputs i)) (seq 0 n) = map f inputs.
Proof.
  unfold input_at. induction inputs as [|a l IH]; [done|].
  simpl. f_equal. by rewrite <-seq_shift, map_map.
Qed.

Lemma names_exist (fs : fsys) l :
  (∀ i, i ∈ l → fs !! normalized_name i = Some (Video [py_str (input_at inputs i)])) →
  ∀ p, p ∈ map normalized_name l → is_Some (fs !! p).
Proof. intros Hl p (i & -> & Hi)%list_elem_of_fmap. rewrite Hl by done. by eexists. Qed.

Lemma list_file_not_name l : LIST_FILE ∉ map normalized_name l.
Proof. intros (i & Hi & _)%list_elem_of_fmap. by apply (normalized_name_ne_list i). Qed.

End Reference.

(** [concat_video] followed by the removal loop, when ffmpeg succeeds. *)
Lemma concat_cleanup_ok `{Host} ps out (fs : fsys) :
  NoDup ps → (∀ p, p ∈ ps → is_Some (fs !! p)) → LIST_FILE ∉ ps →
  host_ffmpeg (concat_command out) = 0%Z →
  ∃ fs', concat_and_cleanup ps out fs = (None, fs') ∧
    ∀ q, fs' !! q =
      if decide (q ∈ ps) then None else if decide (q = LIST_FILE) then None
      else if decide (q = out) then Some (joined (<[LIST_FILE := Text (manifest ps)]> fs) ps)
      else fs !! q.
Proof.
  intros Hnd Hex Hl Hc. unfold concat_and_cleanup, concat_video. rewrite Hc. simpl.
  unfold os_remove. rewrite bool_decide_true
    by (rewrite lookup_insert; case_decide; [done|by rewrite lookup_insert_eq]).
  destruct (remove_all_ok ps (delete LIST_FILE (<[out := joined (<[LIST_FILE := Text (manifest ps)]> fs) ps]>
             (<[LIST_FILE := Text (manifest ps)]> fs)))) as (fs' & -> & Hq); [done| |].
  - intros p Hp. rewrite lookup_delete_ne by set_solver. rewrite lookup_insert.
    case_decide; [done|]. rewrite lookup_insert_ne by set_solver. by apply Hex.
  - exists fs'. split; [done|]. intros q. rewrite Hq.
    repeat case_decide; subst; simplify_map_eq; done.
Qed.

Section ReferenceRuns.
Context `{Host} (inputs : list pyval) (output_path : string) (fs0 : fsys).

Notation n := (length inputs).
Notation res j := (job_result (input_at inputs j) j).
Notation names := (map normalized_name (seq 0 (length inputs))).

(** What a successful [auto_concat] leaves: the intermediate files and the
    manifest gone, the output holding every input in order, the rest
    untouched. *)
Lemma auto_concat_ref_ok :
  (∀ i, i < n → res i = inr (normalized_name i)) →
  host_ffmpeg (concat_command output_path) = 0%Z →
  ∃ fs', auto_concat_ref inputs output_path fs0 = (None, fs') ∧
    ∀ q, fs' !! q =
      if decide (q ∈ names) then None else if decide (q = LIST_FILE) then None
      else if decide (q = output_path) then Some (Video (map py_str inputs))
      else fs0 !! q.
Proof.
  intros Hok Hc. unfold auto_concat_ref.
  rewrite (collect_ok inputs 0 n) by (intros; apply Hok; lia).
  assert (∀ i, i ∈ seq 0 n → all_jobs_fs inputs fs0 !! normalized_name i =
            Some (Video [py_str (input_at inputs i)])) as Hjobs.
  { intros i Hi. apply jobs_fs_ok; [done|]. intros j Hj%elem_of_seq. apply Hok. lia. }
  destruct (concat_cleanup_ok names output_path (all_jobs_fs inputs fs0)) as (fs' & -> & Hq).
  - apply NoDup_names, NoDup_seq.
  - by apply (names_exist inputs).
  - apply list_file_not_name.
  - done.
  - exists fs'. split; [done|]. intros q. rewrite Hq.
    case_decide as Hin; [done|]. case_decide; [done|]. case_decide as Hout.
    + rewrite (joined_ok inputs), (map_input_at inputs); [done|]. intros i Hi.
      rewrite lookup_insert_ne by apply not_eq_sym, normalized_name_ne_list. by apply Hjobs.
    + by apply (jobs_fs_other inputs).
Qed.

Lemma remove_all_err ps (fs fs' : fsys) e :
  remove_all ps fs = (Some e, fs') → ∃ p, e = FileNotFound p.
Proof.
  revert fs. induction ps as [|p ps IH]; intros fs; simpl; [congruence|].
  unfold os_remove. case_bool_decide; [apply IH|intros [= <- _]; eauto].
Qed.

(** Past the pool, [auto_concat] raises no normalisation error. *)
Lemma cleanup_not_norm ps out (fs fs' : fsys) e :
  concat_and_cleanup ps out fs ≠ (Some (NormError e), fs').
Proof.
  unfold concat_and_cleanup, concat_video. intros Heq.
  destruct (host_ffmpeg _ =? 0)%Z; [unfold os_remove in Heq; case_bool_decide|]; simpl in Heq.
  - destruct (remove_all_err _ _ _ _ Heq). congruence.
  - congruence.
  - congruence.
Qed.

End ReferenceRuns.

(** ** The list [concat_video] writes, as the demuxer reads it *)

(** A line of the list: no line break in it. *)
Lemma split_lines_app x rest :
  forallb (λ c, negb (Ascii.eqb c LF)) (String.list_ascii_of_string x) = true →
  split_lines (x +:+ String LF rest) = x :: split_lines rest.
Proof.
  induction x as [|c x IH]; simpl; [by rewrite ?Ascii.eqb_refl|].
  intros [Hc Hx]%andb_prop. apply negb_true_iff in Hc.
  by rewrite Hc, IH.
Qed.

Lemma plain_text_no_lf q :
  plain_text q = true → forallb (λ c, negb (Ascii.eqb c LF)) (String.list_ascii_of_string q) = true.
Proof.
  induction q as [|c q IH]; [done|]. simpl.
  intros [[_ Hc]%andb_prop Hq]%andb_prop. by rewrite Hc, IH.
Qed.

Lemma av_token_quoted q r :
  plain_text q = true → av_token true (q +:+ String APOS r) = q +:+ av_token false r.
Proof.
  induction q as [|c q IH]; simpl; [by rewrite ?Ascii.eqb_refl|].
  intros [[Ha _]%andb_prop Hq]%andb_prop. apply negb_true_iff in Ha.
  by rewrite Ha, IH.
Qed.

Lemma parse_file_line q : plain_text q = true → parse_line ("file '" +:+ q +:+ "'") = Some q.
Proof.
  intros Hq. unfold parse_line, av_get_token. simpl.
  change ("" +:+ ?x) with x. change "'" with (String APOS "").
  rewrite av_token_quoted by done. by rewrite str_app_nil_r.
Qed.

Lemma manifest_line_eq `{Host} p acc :
  manifest_line p +:+ acc = ("file '" +:+ listed_path p +:+ "'") +:+ String LF acc.
Proof. unfold manifest_line, listed_path. by rewrite !str_app_assoc. Qed.

(** C11: the list [concat_video] writes is read back by ffmpeg's concat
    demuxer as the absolute paths of the segments, in order, when no
    path holds a single quote or a line break; this is what [joined]
    assumes.  [f"file '{abs_path}'"] escapes nothing, so a quote in a
    path (a working directory "Nam's clips") makes ffmpeg read another
    name. *)
Theorem manifest_roundtrip `{Host} ps :
  Forall (λ p, plain_text (listed_path p) = true) ps →
  concat_entries (manifest ps) = map listed_path ps.
Proof.
  unfold concat_entries. induction 1 as [|p ps Hp _ IH]; [done|].
  change (manifest (p :: ps)) with (manifest_line p +:+ manifest ps).
  rewrite manifest_line_eq, split_lines_app.
  - by rewrite omap_cons_eq, parse_file_line, IH.
  - rewrite !chars_app, !forallb_app, (plain_text_no_lf _ Hp). reflexivity.
Qed.

Section PoolFinal.
Context `{Host} (inputs : list pyval) (output_path : string) (fs0 : fsys).

(** From any state of the invariant, some run reaches a finished main thread. *)
Lemma pool_reaches_final s :
  pool_inv inputs output_path fs0 s →
  ∃ s' r, rtc (pstep inputs output_path) s s' ∧ ps_main s' = Finished r.
Proof.
  intros Hinv. pose proof (pool_inv_Acc _ _ _ _ Hinv) as Hacc. revert Hinv.
  induction Hacc as [s _ IH]. intros Hinv.
  destruct (ps_main s) as [k col|e|r] eqn:Hm; [| |by exists s, r].
  all: destruct (pool_progress _ _ _ s Hinv) as [s' Hs]; [intros r; by rewrite Hm|].
  all: destruct (IH s' Hs (pool_step_inv _ _ _ _ _ Hs Hinv)) as (s'' & r & ? & ?).
  all: exists s'', r; split; [by eapply rtc_l|done].
Qed.

(** A reachable state without a next step has a finished main thread. *)
Lemma pool_stuck_finished s :
  reachable inputs output_path fs0 s → (∀ s', ¬ pstep inputs output_path s s') →
  ∃ r, ps_main s = Finished r ∧ (r, ps_fs s) = auto_concat_ref inputs output_path fs0.
Proof.
  intros Hr Hstuck. pose proof (reachable_inv _ _ _ _ Hr) as Hinv.
  destruct (ps_main s) as [k col|e|r] eqn:Hm.
  3: { exists r. split; [done|]. destruct Hinv as (_ & _ & _ & Hmi).
       unfold main_inv in Hmi. rewrite Hm in Hmi. by destruct Hmi. }
  all: destruct (pool_progress _ _ _ s Hinv) as [s' Hs]; [intros r; by rewrite Hm|].
  all: by destruct (Hstuck s').
Qed.

(** Idle workers take the first [k] queued jobs, one after another. *)
Lemma start_jobs k pend run dn fs m :
  k <= length pend → length run + k <= MAX_WORKERS →
  rtc (pstep inputs output_path) (mk_pstate pend run dn fs m)
      (mk_pstate (drop k pend) (rev (take k pend) ++ run) dn fs m).
Proof.
  revert pend run. induction k as [|k IH]; intros pend run Hk Hr.
  - rewrite drop_0. apply rtc_refl.
  - destruct pend as [|j pend]; simpl in Hk; [lia|].
    eapply rtc_l; [apply step_start; lia|].
    cbn [drop take rev]. rewrite <-app_assoc. apply IH; simpl; lia.
Qed.

(** C10: [ThreadPoolExecutor(max_workers=6)]: in every reachable state of
    every interleaving at most 6 jobs run at once, and the pool does use
    its workers: some reachable state runs [min 6 n] jobs at once, for
    [n] inputs. *)
Theorem pool_bounded :
  (∀ s, reachable inputs output_path fs0 s → length (ps_running s) <= 6) ∧
  (∃ s, reachable inputs output_path fs0 s ∧ length (ps_running s) = Nat.min 6 (length inputs)).
Proof.
  split.
  - intros s Hr. by destruct (reachable_inv _ _ _ _ Hr) as (_ & Hb & _).
  - set (k := Nat.min 6 (length inputs)).
    exists (mk_pstate (drop k (seq 0 (length inputs))) (rev (take k (seq 0 (length inputs))) ++ [])
                      ∅ fs0 (Waiting 0 [])).
    split; [apply start_jobs; rewrite ?length_seq; unfold MAX_WORKERS, k; cbn [length]; lia|].
    simpl. rewrite app_nil_r, length_rev, length_take, length_seq. unfold k. lia.
Qed.

(** C3: [auto_concat] returns, and returns what the sequential
    reference [auto_concat_ref] does: whatever the order in which jobs
    start and finish, a run that cannot step further has finished with
    the reference's exception and file system, and such a run exists. *)
Theorem pool_refines :
  (∀ s, reachable inputs output_path fs0 s → (∀ s', ¬ pstep inputs output_path s s') →
     ∃ r, ps_main s = Finished r ∧ (r, ps_fs s) = auto_concat_ref inputs output_path fs0) ∧
  (∃ s, reachable inputs output_path fs0 s ∧
        ps_main s = Finished (auto_concat_ref inputs output_path fs0).1 ∧
        ps_fs s = (auto_concat_ref inputs output_path fs0).2).
Proof.
  split; [apply pool_stuck_finished|].
  destruct (pool_reaches_final _ (pool_inv_init inputs output_path fs0))
    as (s & r & Hr & Hm).
  destruct (reachable_inv _ _ _ _ Hr) as (_ & _ & _ & Hmi).
  unfold main_inv in Hmi. rewrite Hm in Hmi. destruct Hmi as (Href & _).
  exists s. rewrite <-Href. by rewrite Hm.
Qed.

(** C15: a failed job does not cancel the others: when [auto_concat]
    raises a job's error, every job has run, and the file system holds
    what all of them wrote (no normalised file is removed). *)
Theorem pool_failure_runs_all s e :
  reachable inputs output_path fs0 s → ps_main s = Finished (Some (NormError e)) →
  ps_fs s = all_jobs_fs inputs fs0 ∧
  ∀ i, i < length inputs → ps_done s !! i = Some (job_result (input_at inputs i) i).
Proof.
  intros Hr Hm. pose proof (reachable_inv _ _ _ _ Hr) as Hinv.
  pose proof Hinv as (_ & _ & _ & Hmi). unfold main_inv in Hmi. rewrite Hm in Hmi.
  destruct Hmi as (Href & Hpe & Hru). split; [|by apply (all_done inputs output_path fs0 s)].
  revert Href. unfold auto_concat_ref.
  destruct (collect _); [by intros [= _ <-]|]. intros Href.
  by destruct (cleanup_not_norm _ _ _ _ _ (eq_sym Href)).
Qed.

End PoolFinal.

Section ConcatTheorems.
Context `{Host} (inputs : list pyval) (output_path : string) (fs0 : fsys).

Notation names := (map normalized_name (seq 0 (length inputs))).

(** C4: when every job and the concat run succeed, and the output is
    neither an intermediate file nor the manifest, [auto_concat] leaves
    the output holding the inputs in submission order, removes the
    manifest and every normalised file, and touches nothing else. *)
Theorem auto_concat_success :
  (∀ i, i < length inputs → job_result (input_at inputs i) i = inr (normalized_name i)) →
  host_ffmpeg (concat_command output_path) = 0%Z →
  output_path ∉ names → output_path ≠ LIST_FILE →
  ∃ fs', auto_concat_ref inputs output_path fs0 = (None, fs') ∧
    fs' !! output_path = Some (Video (map py_str inputs)) ∧
    fs' !! LIST_FILE = None ∧
    (∀ i, i < length inputs → fs' !! normalized_name i = None) ∧
    (∀ q, q ≠ output_path → q ≠ LIST_FILE → q ∉ names → fs' !! q = fs0 !! q).
Proof.
  intros Hok Hc Hout Hl.
  destruct (auto_concat_ref_ok inputs output_path fs0 Hok Hc) as (fs' & Href & Hq).
  pose proof (list_file_not_name (seq 0 (length inputs))).
  exists fs'. split_and!; [done|..]; intros; rewrite Hq; repeat case_decide; try done.
  all: match goal with Hn : ¬ normalized_name _ ∈ _ |- _ => destruct Hn end.
  all: apply list_elem_of_fmap; exists i; split; [done|]; apply elem_of_seq; lia.
Qed.

(** C16: when the output path is one of the intermediate names
    ["normalized_<k>.mp4"], [auto_concat] reports success but its
    clean-up loop deletes the video it has just written. *)
Theorem auto_concat_deletes_output k :
  k < length inputs → output_path = normalized_name k →
  (∀ i, i < length inputs → job_result (input_at inputs i) i = inr (normalized_name i)) →
  host_ffmpeg (concat_command output_path) = 0%Z →
  ∃ fs', auto_concat_ref inputs output_path fs0 = (None, fs') ∧ fs' !! output_path = None.
Proof.
  intros Hk Hout Hok Hc.
  destruct (auto_concat_ref_ok inputs output_path fs0 Hok Hc) as (fs' & Href & Hq).
  exists fs'. split; [done|]. rewrite Hq, decide_True; [done|].
  rewrite Hout. apply list_elem_of_fmap. exists k. split; [done|]. apply elem_of_seq. lia.
Qed.

(** C17: when the concat run fails, [auto_concat] raises
    [CalledProcessError] and leaves the manifest ["temp.txt"] and every
    normalised file behind: no clean-up runs on that path. *)
Theorem auto_concat_concat_failure code :
  (∀ i, i < length inputs → job_result (input_at inputs i) i = inr (normalized_name i)) →
  host_ffmpeg (concat_command output_path) = code → code ≠ 0%Z →
  output_path ∉ names → output_path ≠ LIST_FILE →
  ∃ fs', auto_concat_ref inputs output_path fs0 = (Some (ConcatFailed code), fs') ∧
    fs' !! LIST_FILE = Some (Text (manifest names)) ∧
    ∀ i, i < length inputs →
      fs' !! normalized_name i = Some (Video [py_str (input_at inputs i)]).
Proof.
  intros Hok Hc Hnz Hout Hl. unfold auto_concat_ref.
  rewrite (collect_ok inputs 0 (length inputs)) by (intros; apply Hok; lia).
  unfold concat_and_cleanup, concat_video. cbv zeta. rewrite Hc, (proj2 (Z.eqb_neq _ _) Hnz).
  eexists; split; [reflexivity|]. split.
  - destruct (host_ffmpeg_partial _); [rewrite lookup_insert_ne by done|]; by rewrite lookup_insert_eq.
  - intros i Hi. assert (normalized_name i ∈ names) as Hin
      by (apply list_elem_of_fmap; exists i; split; [done|]; apply elem_of_seq; lia).
    destruct (host_ffmpeg_partial _); [rewrite lookup_insert_ne by (intros ->; by apply Hout)|];
      rewrite lookup_insert_ne by apply not_eq_sym, normalized_name_ne_list;
      (apply jobs_fs_ok; [apply elem_of_seq; lia|intros j Hj%elem_of_seq; apply Hok; lia]).
Qed.

End ConcatTheorems.

(** ** Concrete runs *)

Definition one_input : list pyval := [PyStr "intro.mp4"].
Definition two_inputs : list pyval := [PyStr "intro.mp4"; PyStr "main.mp4"].
Definition bad_input : list pyval := [PyInt 3].

(** ffmpeg succeeds except on the concat run into ["out.mp4"]. *)
Definition concat_fail_host : Host :=
  {| host_tree := λ _, None; host_abspath := λ p, p; host_ffprobe := λ _, None;
     host_clip_duration := λ _, None; host_getmtime := λ _, None; host_clock := λ _, QArith_base.Qmake 0 1;
     host_which := λ _, true;
     host_ffmpeg := λ cmd, if decide (cmd = concat_command "out.mp4") then 1%Z else 0%Z;
     host_ffmpeg_partial := λ _, false |}.

Lemma pool_bounded_witness :
  let s := mk_pstate [1] [0] ∅ ∅ (Waiting 0 []) in
  (@reachable gpu_host two_inputs "out.mp4" ∅ s ∧ length (ps_running s) <= 6) ∧
  ∃ s, @reachable gpu_host two_inputs "out.mp4" ∅ s ∧ length (ps_running s) = 2.
Proof.
  cbv zeta. assert (@reachable gpu_host two_inputs "out.mp4" ∅ (mk_pstate [1] [0] ∅ ∅ (Waiting 0 [])))
    as Hr by (apply rtc_once, step_start; unfold MAX_WORKERS; simpl; lia).
  destruct (@pool_bounded gpu_host two_inputs "out.mp4" ∅) as [Hb He].
  split; [split; [exact Hr|exact (Hb _ Hr)]|exact He].
Defined.

Lemma pool_refines_witness :
  ∃ s, @reachable gpu_host one_input "out.mp4" ∅ s ∧
       (∀ s', ¬ @pstep gpu_host one_input "out.mp4" s s') ∧
       ∃ r, ps_main s = Finished r ∧ (r, ps_fs s) = @auto_concat_ref gpu_host one_input "out.mp4" ∅.
Proof.
  assert (∃ s, @reachable gpu_host one_input "out.mp4" ∅ s ∧
               ∀ s', ¬ @pstep gpu_host one_input "out.mp4" s s') as (s & Hr & Hst).
  { eexists; split.
    - eapply rtc_l; [apply step_start; unfold MAX_WORKERS; simpl; lia|].
      eapply rtc_l; [apply (step_finish _ _ 0 [] [])|].
      eapply rtc_l; [apply step_collect with (p := normalized_name 0); vm_compute; reflexivity|].
      eapply rtc_l; [apply step_concat|]. apply rtc_refl.
    - intros s' Hs. inversion Hs. destruct run1; discriminate. }
  exists s. split_and!; [done|done|exact (proj1 (@pool_refines gpu_host _ _ _) s Hr Hst)].
Defined.

Lemma pool_failure_runs_all_witness :
  ∃ s, @reachable gpu_host bad_input "out.mp4" ∅ s ∧
       ps_main s = Finished (Some (NormError TypeError)) ∧
       ps_fs s = @all_jobs_fs gpu_host bad_input ∅ ∧
       ∀ i, i < 1 → ps_done s !! i = Some (@job_result gpu_host (input_at bad_input i) i).
Proof.
  assert (∃ s, @reachable gpu_host bad_input "out.mp4" ∅ s ∧
               ps_main s = Finished (Some (NormError TypeError))) as (s & Hr & Hm).
  { eexists; split.
    - eapply rtc_l; [apply step_start; unfold MAX_WORKERS; simpl; lia|].
      eapply rtc_l; [apply (step_finish _ _ 0 [] [])|].
      eapply rtc_l; [apply step_raise with (e := TypeError); vm_compute; reflexivity|].
      eapply rtc_l; [apply step_unwind|]. apply rtc_refl.
    - reflexivity. }
  exists s. split_and!; [done|done|..];
    apply (@pool_failure_runs_all gpu_host _ _ _ s TypeError Hr Hm).
Defined.

Lemma auto_concat_success_witness :
  ∃ fs', @auto_concat_ref gpu_host two_inputs "out.mp4" ∅ = (None, fs') ∧
    fs' !! "out.mp4" = Some (Video (map py_str two_inputs)) ∧
    fs' !! LIST_FILE = None ∧
    (∀ i, i < length two_inputs → fs' !! normalized_name i = None) ∧
    (∀ q, q ≠ "out.mp4" → q ≠ LIST_FILE → q ∉ map normalized_name (seq 0 (length two_inputs)) →
          fs' !! q = (∅ : fsys) !! q).
Proof.
  apply (@auto_concat_success gpu_host two_inputs "out.mp4" ∅).
  - intros i Hi. destruct i as [|[|i]]; [vm_compute; reflexivity..|simpl in Hi; lia].
  - reflexivity.
  - apply (bool_decide_unpack _). by vm_compute.
  - discriminate.
Defined.

Lemma auto_concat_deletes_output_witness :
  ∃ fs', @auto_concat_ref gpu_host two_inputs "normalized_1.mp4" ∅ = (None, fs') ∧
         fs' !! "normalized_1.mp4" = None.
Proof.
  apply (@auto_concat_deletes_output gpu_host two_inputs "normalized_1.mp4" ∅ 1).
  - simpl. lia.
  - reflexivity.
  - intros i Hi. destruct i as [|[|i]]; [vm_compute; reflexivity..|simpl in Hi; lia].
  - reflexivity.
Defined.

Lemma auto_concat_concat_failure_witness :
  ∃ fs', @auto_concat_ref concat_fail_host two_inputs "out.mp4" ∅ = (Some (ConcatFailed 1), fs') ∧
    fs' !! LIST_FILE =
      Some (Text (@manifest concat_fail_host (map normalized_name (seq 0 (length two_inputs))))) ∧
    ∀ i, i < length two_inputs → fs' !! normalized_name i = Some (Video [py_str (input_at two_inputs i)]).
Proof.
  apply (@auto_concat_concat_failure concat_fail_host two_inputs "out.mp4" ∅ 1%Z).
  - intros i Hi. destruct i as [|[|i]]; [vm_compute; reflexivity..|simpl in Hi; lia].
  - vm_compute. reflexivity.
  - discriminate.
  - apply (bool_decide_unpack _). by vm_compute.
  - discriminate.
Defined.

(** The script run from a folder whose name has an apostrophe: ffmpeg
    reads "C:/Nams" instead of the segment's path. *)
Definition apos_host : Host :=
  {| host_tree := λ _, None; host_abspath := λ p, "C:\Nam's clips\" +:+ p;
     host_ffprobe := λ _, None; host_clip_duration := λ _, None; host_getmtime := λ _, None;
     host_clock := λ _, QArith_base.inject_Z 0; host_which := λ _, true; host_ffmpeg := λ _, 0%Z;
     host_ffmpeg_partial := λ _, false |}.

Lemma manifest_roundtrip_witness :
  @concat_entries (@manifest gpu_host ["normalized_0.mp4"; "normalized_1.mp4"]) =
    ["normalized_0.mp4"; "normalized_1.mp4"] ∧
  concat_entries (@manifest apos_host ["normalized_0.mp4"]) = ["C:/Nams"].
Proof.
  split; [|vm_compute; reflexivity].
  rewrite (@manifest_roundtrip gpu_host); [reflexivity|].
  repeat constructor.
Defined.

End Pipeline.
