(* ===== verification/FolderLookup.v ===== *)
(** * Folder lookup: [find_first_vid] of module4.py (lines 27-57)

    Given a number typed as text, the function lists the folders of the
    share [\\Fmc\E\may cay] whose name contains the number with no digit
    right before or after it (the regex [(?<!\d){first_vd}(?!\d)]), walks
    them in order and returns the first video file found (by a
    case-insensitive [endswith] on five extensions) with its duration, or
    [(None, 0)].  The number is interpolated into the regex; it is
    modelled as literal text, which it is for the digit strings callers
    pass (a regex metacharacter in it is outside the model).  The
    digit-bounded matcher is proved equal to its declarative reading,
    which is the naming rule spec section 4.3 asks of the allocator. *)

From S2P Require Import Prelude Host Probe Scanner.
From Stdlib Require Import Ascii.

Local Open Scope string_scope.
Local Open Scope list_scope.
Local Open Scope py_scope.
Import Probe Scanner.

Module FolderLookup.

(** [base_folder = r'\\Fmc\E\may cay'] *)
Definition base_folder : string := "\\Fmc\E\may cay".

Definition video_extensions : list string := [".mp4"; ".avi"; ".mkv"; ".mov"; ".flv"].

(** [any(file.lower().endswith(ext) for ext in video_extensions)] *)
Definition is_video_name (file : string) : bool :=
  existsb (λ ext, str_endswith (py_lower file) ext) video_extensions.

Definition digit_opt (c : option ascii) : bool :=
  match c with Some d => is_digit_char d | None => false end.

(** [pattern.search(name)] for [(?<!\d)lit(?!\d)]: scanning [s] with the
    character before it in [prev]. *)
Fixpoint bsearch (lit : string) (prev : option ascii) (s : string) : bool :=
  (negb (digit_opt prev) && String.prefix lit s &&
   negb (digit_opt (String.get (String.length lit) s))) ||
  match s with
  | "" => false
  | String c r => bsearch lit (Some c) r
  end.

Definition bounded_search (lit name : string) : bool := bsearch lit None name.

(** The video files under one folder, in [os.walk] order. *)
Definition folder_videos (folder : string) (t : dirtree) : list string :=
  flat_map (λ '(root, files), map (λ f, root </> f) (filter is_video_name files)) (walk folder t).

(** [matched_folders]: the sub-directories of the share whose name
    matches ([os.path.isdir] holds of directories only). *)
Definition matched_folders (first_vd : string) (subs : list dirtree) : list dirtree :=
  filter (λ d, bounded_search first_vd (dir_name d) = true) subs.

(** [find_first_vid(first_vd)]: [None] for [(None, 0)], which the code
    returns when no folder matches, when none holds a video, and when
    [os.listdir] raises (the share is missing). *)
Definition find_first_vid `{Host} (first_vd : string) : option (string * string) :=
  match host_tree base_folder with
  | None => None
  | Some (Dir _ _ subs) =>
      match head (flat_map (λ d, folder_videos (base_folder </> dir_name d) d)
                           (matched_folders first_vd subs)) with
      | Some p => Some (p, get_video_duration p)
      | None => None
      end
  end.

(** ** The matcher *)

(** The last character of [pre], or [prev] when [pre] is empty. *)
Fixpoint last_char (prev : option ascii) (pre : string) : option ascii :=
  match pre with "" => prev | String c r => last_char (Some c) r end.

Lemma prefix_app lit post : String.prefix lit (lit +:+ post) = true.
Proof.
  induction lit as [|c lit IH]; [by destruct post|].
  change (String.prefix (String c lit) (String c (lit +:+ post)) = true). simpl.
  destruct (ascii_dec c c); [apply IH|done].
Qed.

Lemma prefix_inv lit s : String.prefix lit s = true → ∃ post, s = lit +:+ post.
Proof.
  revert s. induction lit as [|c lit IH]; intros s Hp; [by exists s|].
  destruct s as [|d s]; [done|]. simpl in Hp.
  destruct (ascii_dec c d) as [<-|]; [|done].
  destruct (IH s Hp) as [post ->]. by exists post.
Qed.

Lemma get_app_length lit post : String.get (String.length lit) (lit +:+ post) = String.get 0 post.
Proof. induction lit as [|c lit IH]; [done|]. exact IH. Qed.

Lemma bsearch_eq lit prev s :
  bsearch lit prev s =
  (negb (digit_opt prev) && String.prefix lit s &&
   negb (digit_opt (String.get (String.length lit) s))) ||
  match s with "" => false | String c r => bsearch lit (Some c) r end.
Proof. by destruct s. Qed.

Lemma bsearch_intro lit prev pre post :
  digit_opt (last_char prev pre) = false → digit_opt (String.get 0 post) = false →
  bsearch lit prev (pre +:+ lit +:+ post) = true.
Proof.
  revert prev. induction pre as [|c pre IH]; intros prev Hl Hg.
  - change ("" +:+ lit +:+ post) with (lit +:+ post). simpl in Hl.
    rewrite bsearch_eq, prefix_app, get_app_length, Hl, Hg. done.
  - change (String c pre +:+ lit +:+ post) with (String c (pre +:+ lit +:+ post)).
    rewrite bsearch_eq. apply orb_true_intro. right. by apply IH.
Qed.

Lemma bsearch_elim lit prev s :
  bsearch lit prev s = true →
  ∃ pre post, s = pre +:+ lit +:+ post ∧
    digit_opt (last_char prev pre) = false ∧ digit_opt (String.get 0 post) = false.
Proof.
  revert prev. induction s as [|c s IH]; intros prev Hb;
    rewrite bsearch_eq in Hb; apply orb_prop in Hb as [Hb|Hb].
  1,3: apply andb_prop in Hb as [[Hp Hpre]%andb_prop Hg];
       destruct (prefix_inv _ _ Hpre) as [post Hs]; rewrite Hs in Hg |- *;
       rewrite get_app_length in Hg; exists "", post;
       split_and!; [done|by apply negb_true_iff|by apply negb_true_iff].
  - done.
  - destruct (IH _ Hb) as (pre & post & -> & Hl & Hg). by exists (String c pre), post.
Qed.

Lemma elem_of_candidates (v : string) subs p :
  p ∈ flat_map (λ d, folder_videos (base_folder </> dir_name d) d) (matched_folders v subs) ↔
  ∃ d, d ∈ subs ∧ bounded_search v (dir_name d) = true ∧ p ∈ folder_videos (base_folder </> dir_name d) d.
Proof.
  rewrite list_elem_of_In, in_flat_map. setoid_rewrite <-list_elem_of_In.
  unfold matched_folders. setoid_rewrite list_elem_of_filter. naive_solver.
Qed.

(** A file is a candidate of a folder when a walked directory lists it
    and its name has a video extension. *)
Lemma elem_of_folder_videos folder t p :
  p ∈ folder_videos folder t ↔
  ∃ root files f, (root, files) ∈ walk folder t ∧ f ∈ files ∧ is_video_name f = true ∧
                  p = root </> f.
Proof.
  unfold folder_videos. rewrite list_elem_of_In, in_flat_map. split.
  - intros ([root files] & Hw & Hp). apply list_elem_of_In in Hp.
    apply list_elem_of_fmap in Hp as (f & -> & Hf). apply list_elem_of_filter in Hf as [Hv Hf].
    exists root, files, f. split_and!; try done; [by apply list_elem_of_In|by apply Is_true_true].
  - intros (root & files & f & Hw & Hf & Hv & ->). exists (root, files).
    split; [by apply list_elem_of_In|]. apply list_elem_of_In, list_elem_of_fmap.
    exists f. split; [done|]. apply list_elem_of_filter. split; [by apply Is_true_true|done].
Qed.

(** ** Theorems *)

(** C33: the folder-name matcher is exactly the digit-bounded match: the
    name contains the text with no digit right before it and no digit
    right after it. *)
Theorem bounded_search_spec lit name :
  bounded_search lit name = true ↔
  ∃ pre post, name = pre +:+ lit +:+ post ∧
    digit_opt (last_char None pre) = false ∧ digit_opt (String.get 0 post) = false.
Proof.
  split; [apply bsearch_elim|]. intros (pre & post & -> & Hl & Hg). by apply bsearch_intro.
Qed.

(** C34: [find_first_vid] on the share's listing: it returns [(None, 0)]
    exactly when no matching folder holds a video file, and otherwise a
    video file of a matching folder with its [get_video_duration]. *)
Theorem find_first_vid_spec `{Host} v n fs subs :
  host_tree base_folder = Some (Dir n fs subs) →
  (find_first_vid v = None ↔
     ∀ d, d ∈ subs → bounded_search v (dir_name d) = true →
          folder_videos (base_folder </> dir_name d) d = []) ∧
  (∀ p dur, find_first_vid v = Some (p, dur) →
     dur = get_video_duration p ∧
     ∃ d, d ∈ subs ∧ bounded_search v (dir_name d) = true ∧
          p ∈ folder_videos (base_folder </> dir_name d) d).
Proof.
  intros Ht. unfold find_first_vid. rewrite Ht.
  destruct (flat_map _ _) as [|p ps] eqn:Hc; simpl.
  - split; [|done]. split; [intros _ d Hd Hb|done].
    destruct (folder_videos _ d) as [|q qs] eqn:Hq; [done|].
    assert (q ∈ flat_map (λ d, folder_videos (base_folder </> dir_name d) d)
                  (matched_folders v subs)) as Hin.
    { apply elem_of_candidates. exists d. rewrite Hq. split_and!; [done|done|set_solver]. }
    rewrite Hc in Hin. set_solver.
  - split.
    + split; [done|]. intros Hnone.
      assert (p ∈ p :: ps) as Hp by set_solver. rewrite <-Hc, elem_of_candidates in Hp.
      destruct Hp as (d & Hd & Hb & Hp). rewrite (Hnone d Hd Hb) in Hp. set_solver.
    + intros p' dur [= <- <-]. split; [done|]. apply elem_of_candidates. rewrite Hc. set_solver.
Qed.

(** The share of the scenario: "ep 1050" holds a video, "ep 105 (old)"
    only notes at its top and a video one level down. *)
Definition share_host : Host :=
  demo_host base_folder
    (Dir "may cay" ["index.txt"]
       [Dir "ep 1050" ["a.mp4"] [];
        Dir "ep 105 (old)" ["notes.txt"] [Dir "raw" ["clip.MOV"] []];
        Dir "ep 105" ["b.mp4"] []])
    (QArith_base.Qmake 0 1).

Lemma find_first_vid_spec_witness :
  @host_tree share_host base_folder =
    Some (Dir "may cay" ["index.txt"]
       [Dir "ep 1050" ["a.mp4"] [];
        Dir "ep 105 (old)" ["notes.txt"] [Dir "raw" ["clip.MOV"] []];
        Dir "ep 105" ["b.mp4"] []]) ∧
  (@find_first_vid share_host "7" = None ↔
     ∀ d, d ∈ [Dir "ep 1050" ["a.mp4"] [];
               Dir "ep 105 (old)" ["notes.txt"] [Dir "raw" ["clip.MOV"] []];
               Dir "ep 105" ["b.mp4"] []] →
          bounded_search "7" (dir_name d) = true →
          folder_videos (base_folder </> dir_name d) d = []) ∧
  @find_first_vid share_host "105" =
    Some ("\\Fmc\E\may cay\ep 105 (old)\raw\clip.MOV", "0:00").
Proof.
  assert (@host_tree share_host base_folder =
    Some (Dir "may cay" ["index.txt"]
       [Dir "ep 1050" ["a.mp4"] [];
        Dir "ep 105 (old)" ["notes.txt"] [Dir "raw" ["clip.MOV"] []];
        Dir "ep 105" ["b.mp4"] []])) as Ht by (vm_compute; reflexivity).
  split_and!; [exact Ht|exact (proj1 (@find_first_vid_spec share_host "7" _ _ _ Ht))|].
  (* "ep 1050" is skipped; the first video in walk order of the first
     matching folder is one level down, before the later folder "ep 105" *)
  vm_compute. reflexivity.
Defined.

Lemma bounded_search_spec_witness :
  bounded_search "105" "ep 105 (old)" = true ∧ bounded_search "105" "ep 1050" = false.
Proof.
  split; [|vm_compute; reflexivity].
  apply (proj2 (bounded_search_spec "105" "ep 105 (old)")).
  exists "ep ", " (old)". split_and!; vm_compute; reflexivity.
Defined.

End FolderLookup.
