(* ===== verification/Runner.v ===== *)
(** * Task runners: main_loop.py, old_loop.py and loop.py

    Three versions of the same supervisor that runs the six
    catalogue scripts in turn, forever.
    - loop.py runs each script with [check=True].  It prints a
      [CalledProcessError] and carries on, but any other exception
      escapes and ends the program.
    - old_loop.py catches every exception, e-mails the error with the
      captured output through its own copy of [send_error_email]
      ([old_send_error_email]), and never stops.
    - main_loop.py keeps a table [TASKS] with an [enabled] flag.  A
      missing script, a failed run and an unexpected exception each
      send a mail and disable the task.  The loop stops when no task is
      enabled.
    main_loop.py and old_loop.py read [SMTP_HOST] and [SMTP_PORT] from
    the environment when they are loaded; [SMTP_PORT] goes through int(),
    so [main_loop_py] and [old_loop_py], the scripts as started, raise
    ValueError before any task when that text is not an integer.

    The operating system, the scripts and the mail server are the class
    [RunnerHost]: [rh_run r name] is the outcome of running [name] in
    round [r].  [time.sleep] only delays, so it is not modelled.  The
    [while True] loops are run with fuel, in the style of a bounded
    interpreter: [None] means the fuel ran out with the loop still
    running.  Text lengths are byte lengths; for the ASCII output of the
    scripts these are Python's [len]. *)

From S2P Require Import Prelude.
From Stdlib Require Import Ascii.

Local Open Scope string_scope.
Local Open Scope list_scope.
Local Open Scope py_scope.

Module Runner.

(** What [subprocess.run(cmd, check=True, ...)] does: the script exits
    with 0, exits with [code <> 0] ([CalledProcessError]; [out] and
    [err] are what it printed), or raising fails in another way (for
    example [FileNotFoundError]) with the traceback [tb]. *)
Inductive outcome :=
  | Completed
  | Failed (code : Z) (out err : string)
  | Raised (exn msg tb : string).

Class RunnerHost := {
  rh_getenv : string → option string;   (** [os.getenv] *)
  rh_exists : string → bool;            (** [Path(p).exists()] *)
  rh_script_dir : string;               (** [Path(__file__).resolve().parent] *)
  rh_run : nat → string → outcome;      (** the run of a script in round [r] *)
  rh_smtp_ok : bool;                    (** the SMTP exchange succeeds *)
  rh_hostname : string;                 (** [socket.gethostname()] *)
  rh_now : nat → string                 (** [datetime.now().strftime(...)] in round [r] *)
}.

(** ** The mail (send_error_email, identical in main_loop.py and old_loop.py) *)

Definition MAX_BODY_CHARS : nat := 15000.

Definition newline : string := String (Ascii.ascii_of_nat 10) "".

(** [_trim(s)]: strip, then cut to [MAX_BODY_CHARS] and mark the cut. *)
Definition trim (s : string) : string :=
  let t := py_strip s in
  if (MAX_BODY_CHARS <? String.length t)%nat
  then String.substring 0 MAX_BODY_CHARS t +:+ newline +:+ "...[trimmed]"
  else t.

(** Python truthiness of an optional string ([None] and [""] are false). *)
Definition truthy (v : option string) : bool :=
  match v with Some s => negb (String.eqb s "") | None => false end.

Record email := mk_email { subject : string; body : string; mail_from : string; mail_to : string }.

Inductive mail_result :=
  | NotConfigured          (** "[WARN] ... bỏ qua gửi email." *)
  | Sent (m : email)       (** "[INFO] Đã gửi email lỗi ..." *)
  | SendFailed (m : email). (** "[ERROR] Gửi email thất bại" *)

Section Mail.
Context `{RunnerHost}.

(** [SMTP_HOST = os.getenv("SMTP_HOST", "smtp.gmail.com")] *)
Definition SMTP_HOST : string := default "smtp.gmail.com" (rh_getenv "SMTP_HOST").
(** [SMTP_PORT = int(os.getenv("SMTP_PORT", "587"))], computed when the
    module is loaded: [None] is the [ValueError] of a value [int()]
    rejects. *)
Definition SMTP_PORT : option Z := int_of_str (default "587" (rh_getenv "SMTP_PORT")).
Definition SMTP_USER : option string := rh_getenv "SMTP_USER".
Definition SMTP_PASS : option string := rh_getenv "SMTP_PASS".
(** [os.getenv("EMAIL_FROM", SMTP_USER or "")] *)
Definition EMAIL_FROM : string :=
  match rh_getenv "EMAIL_FROM" with
  | Some v => v
  | None => if truthy SMTP_USER then default "" SMTP_USER else ""
  end.
Definition EMAIL_TO : option string := rh_getenv "EMAIL_TO".

Definition configured : bool :=
  truthy SMTP_USER && truthy SMTP_PASS && truthy (Some EMAIL_FROM) && truthy EMAIL_TO.

Definition mail_body (now task_name err_summary stdout_text stderr_text : string) : string :=
  "Thời điểm : " +:+ now +:+ newline +:+
  "Máy      : " +:+ rh_hostname +:+ newline +:+
  "Script   : " +:+ task_name +:+ newline +:+ newline +:+
  "Tóm tắt lỗi:" +:+ newline +:+ err_summary +:+ newline +:+ newline +:+
  "=== STDOUT ===" +:+ newline +:+ trim stdout_text +:+ newline +:+ newline +:+
  "=== STDERR ===" +:+ newline +:+ trim stderr_text +:+ newline.

(** [send_error_email(task_name, err_summary, stdout_text, stderr_text)]
    in round [r]. *)
Definition send_error_email (r : nat) (task_name err_summary stdout_text stderr_text : string)
    : mail_result :=
  if negb configured then NotConfigured
  else
    let now := rh_now r in
    let m := mk_email ("[AutoRunner] Lỗi khi chạy " +:+ task_name +:+ " @ " +:+ now)
                      (mail_body now task_name err_summary stdout_text stderr_text)
                      EMAIL_FROM (default "" EMAIL_TO) in
    if rh_smtp_ok then Sent m else SendFailed m.

(** [f"CalledProcessError: returncode={e.returncode}"] *)
Definition called_summary (code : Z) : string :=
  "CalledProcessError: returncode=" +:+ py_str_int code.

(** [f"Unexpected error: {type(e).__name__}: {e}"] *)
Definition unexpected_summary (exn msg : string) : string :=
  "Unexpected error: " +:+ exn +:+ ": " +:+ msg.

End Mail.

(** ** main_loop.py *)

Record task := mk_task { name : string; script : string; enabled : bool }.

(** What the runners report: a script started, or a mail was attempted. *)
Inductive run_event :=
  | Running (name : string)
  | Mail (res : mail_result).

Definition TASK_NAMES : list string :=
  ["be_ca.py"; "bluey.py"; "spidey.py"; "maycay.py"; "findtoys.py"; "bluey_funtoys.py"].

Section MainLoop.
Context `{RunnerHost}.

(** [SCRIPT_DIR = Path(__file__).resolve().parent] *)
Definition SCRIPT_DIR : string := rh_script_dir.

(** [TASKS]: [cmd[-1]] is [str(SCRIPT_DIR / name)]; every task starts enabled. *)
Definition TASKS : list task :=
  map (λ n, mk_task n (SCRIPT_DIR </> n) true) TASK_NAMES.

(** [disable_task(task_name)]: the first task with that name. *)
Fixpoint disable_task (task_name : string) (ts : list task) : list task * bool :=
  match ts with
  | [] => ([], false)
  | t :: ts' =>
      if String.eqb (name t) task_name then (mk_task (name t) (script t) false :: ts', true)
      else let '(ts'', found) := disable_task task_name ts' in (t :: ts'', found)
  end.

(** [run_task_once(task)] in round [r]: the tasks after it and its events. *)
Definition run_task_once (r : nat) (t : task) (ts : list task) : list task * list run_event :=
  let nm := name t in
  if negb (rh_exists (script t)) then
    ((disable_task nm ts).1,
     [Running nm; Mail (send_error_email r nm "FileNotFound: script không tồn tại" "" "")])
  else
    match rh_run r nm with
    | Completed => (ts, [Running nm])
    | Failed code _ _ =>
        (** [capture_output=False]: [e.stdout] and [e.stderr] are [None] *)
        ((disable_task nm ts).1, [Running nm; Mail (send_error_email r nm (called_summary code) "" "")])
    | Raised exn msg tb =>
        ((disable_task nm ts).1,
         [Running nm; Mail (send_error_email r nm (unexpected_summary exn msg) "" tb)])
    end.

(** [active = [t for t in TASKS if t["enabled"]]], as positions: the
    dictionaries in [active] are those of [TASKS], so [task["enabled"]]
    reads the current flag. *)
Definition active_ids (ts : list task) : list nat :=
  filter (λ i, default false (enabled <$> ts !! i) = true) (seq 0 (length ts)).

(** One pass of [for task in active: if task["enabled"]: run_task_once(task)]. *)
Fixpoint run_active (r : nat) (ids : list nat) (ts : list task) : list task * list run_event :=
  match ids with
  | [] => (ts, [])
  | i :: ids' =>
      match ts !! i with
      | Some t =>
          if enabled t then
            let '(ts1, ev1) := run_task_once r t ts in
            let '(ts2, ev2) := run_active r ids' ts1 in (ts2, ev1 ++ ev2)
          else run_active r ids' ts
      | None => run_active r ids' ts
      end
  end.

Definition round (r : nat) (ts : list task) : list task * list run_event :=
  run_active r (active_ids ts) ts.

(** [main_loop()] from round [r] with [fuel] rounds: [Some] when it
    breaks (no task enabled), [None] when the fuel runs out first. *)
Fixpoint main_loop (fuel r : nat) (ts : list task) : option (list task * list run_event) :=
  match fuel with
  | O => None
  | S fuel' =>
      if bool_decide (active_ids ts = []) then Some (ts, [])
      else let '(ts1, ev1) := round r ts in
           match main_loop fuel' (S r) ts1 with
           | Some (ts2, ev2) => Some (ts2, ev1 ++ ev2)
           | None => None
           end
  end.

(** The program main_loop.py run with [fuel] rounds: loading the module
    computes [SMTP_PORT], so a value [int()] rejects raises [ValueError]
    before the first task; then the [__main__] block (lines 135-142)
    tries [sys.stdout.reconfigure], whose failure it ignores, and runs
    [main_loop()] on [TASKS]. *)
Definition main_loop_py (fuel : nat) : py_exc + option (list task * list run_event) :=
  match SMTP_PORT with
  | None => inl ValueError
  | Some _ => inr (main_loop fuel 0 TASKS)
  end.

(** ** The abstract round *)

(** A run is healthy when the script exists and exits with 0. *)
Definition healthy (r : nat) (t : task) : bool :=
  rh_exists (script t) && match rh_run r (name t) with Completed => true | _ => false end.

(** What a round does to one task: an enabled task stays enabled
    exactly when its run is healthy. *)
Definition upd (r : nat) (t : task) : task :=
  mk_task (name t) (script t) (enabled t && healthy r t).

(** The events of one task in a round. *)
Definition task_events (r : nat) (t : task) : list run_event :=
  if enabled t then (run_task_once r t []).2 else [].

Lemma upd_disabled r t : enabled t = false → upd r t = t.
Proof. destruct t as [n s []]; [done|]. done. Qed.

(** With distinct names, [disable_task] clears the flag of that task only. *)
Lemma disable_task_spec ts i t :
  NoDup (map name ts) → ts !! i = Some t →
  (disable_task (name t) ts).1 = <[i := mk_task (name t) (script t) false]> ts.
Proof.
  revert i. induction ts as [|t' ts IH]; intros i Hnd Hi; [done|].
  simpl in Hnd. apply NoDup_cons in Hnd as [Hn Hnd]. destruct i as [|i]; simpl in Hi.
  - injection Hi as <-. simpl. by rewrite String.eqb_refl.
  - simpl. destruct (String.eqb_spec (name t') (name t)) as [Heq|Hne].
    + exfalso. apply Hn. rewrite Heq. apply list_elem_of_fmap. exists t.
      split; [done|]. by eapply list_elem_of_lookup_2.
    + specialize (IH i Hnd Hi).
      destruct (disable_task (name t) ts) as [ts'' found]. simpl in *. by rewrite IH.
Qed.

Lemma run_task_once_fst r ts i t :
  NoDup (map name ts) → ts !! i = Some t → enabled t = true →
  (run_task_once r t ts).1 = <[i := upd r t]> ts.
Proof.
  intros Hnd Hi Hen. unfold run_task_once, upd, healthy. rewrite Hen.
  destruct (rh_exists (script t)); simpl; [destruct (rh_run r (name t)); simpl|];
    try (by apply disable_task_spec).
  rewrite list_insert_id; [done|]. rewrite Hi. f_equal. destruct t; simpl in *; by subst.
Qed.

(** The events of one run do not depend on the table. *)
Lemma run_task_once_snd r t ts : (run_task_once r t ts).2 = (run_task_once r t []).2.
Proof. unfold run_task_once. by destruct (rh_exists _), (rh_run _ _). Qed.

Lemma names_insert_upd r ts i t :
  ts !! i = Some t → map name (<[i := upd r t]> ts) = map name ts.
Proof.
  revert i. induction ts as [|t' ts IH]; intros [|i] Hi; simpl in *; try done.
  - by injection Hi as <-.
  - by rewrite IH.
Qed.

(** A pass over distinct positions updates exactly those positions. *)
Lemma run_active_spec r ids ts :
  NoDup ids → NoDup (map name ts) → (∀ i, i ∈ ids → i < length ts) →
  (∀ j, (run_active r ids ts).1 !! j =
          (λ t, if bool_decide (j ∈ ids) then upd r t else t) <$> ts !! j) ∧
  (run_active r ids ts).2 = mbind (λ i, default [] (task_events r <$> ts !! i)) ids.
Proof.
  revert ts. induction ids as [|i ids IH]; intros ts Hids Hnd Hlt.
  { split; [|done]. intros j. simpl. by destruct (ts !! j). }
  apply NoDup_cons in Hids as [Hi Hids]. rewrite bind_cons.
  destruct (lookup_lt_is_Some_2 ts i) as [t Ht]; [apply Hlt; set_solver|]. simpl. rewrite Ht.
  unfold task_events at 1. simpl. destruct (enabled t) eqn:Hen.
  - rewrite (surjective_pairing (run_task_once r t ts)), (run_task_once_fst r ts i t),
      run_task_once_snd by done.
    destruct (IH (<[i:=upd r t]> ts) Hids) as [IH1 IH2].
    { by rewrite names_insert_upd. }
    { intros j Hj. rewrite length_insert. apply Hlt. set_solver. }
    destruct (run_active r ids (<[i:=upd r t]> ts)) as [ts2 ev2]. simpl in *. split.
    + intros j. rewrite IH1. destruct (decide (j = i)) as [->|Hji].
      * rewrite list_lookup_insert_eq by (eapply lookup_lt_Some; eauto). rewrite Ht. simpl.
        by rewrite bool_decide_false, bool_decide_true by set_solver.
      * rewrite list_lookup_insert_ne by done. destruct (ts !! j); [|done]. simpl.
        f_equal. rewrite (bool_decide_ext (j ∈ ids) (j ∈ i :: ids)); [done|set_solver].
    + rewrite IH2. f_equal. apply mbind_ext_in. intros j Hj.
      rewrite list_lookup_insert_ne by set_solver. done.
  - destruct (IH ts Hids Hnd) as [IH1 IH2]; [intros; apply Hlt; set_solver|]. split.
    + intros j. rewrite IH1. destruct (decide (j = i)) as [->|Hji].
      * rewrite Ht. simpl. rewrite upd_disabled by done. by destruct (bool_decide _), (bool_decide _).
      * destruct (ts !! j); [|done]. simpl.
        f_equal. rewrite (bool_decide_ext (j ∈ ids) (j ∈ i :: ids)); [done|set_solver].
    + by rewrite IH2.
Qed.

Lemma elem_of_active_ids ts j :
  j ∈ active_ids ts ↔ ∃ t, ts !! j = Some t ∧ enabled t = true.
Proof.
  unfold active_ids. rewrite list_elem_of_filter, elem_of_seq. split.
  - intros [Hen Hj]. destruct (ts !! j) as [t|]; [|done]. by exists t.
  - intros (t & Ht & Hen). rewrite Ht. split; [done|]. apply lookup_lt_Some in Ht. lia.
Qed.

(** One round of [main_loop] disables exactly the enabled tasks whose run
    is not healthy, and emits the events of the enabled tasks in table
    order. *)
Lemma round_spec r ts :
  NoDup (map name ts) →
  (round r ts).1 = map (upd r) ts ∧ (round r ts).2 = mbind (task_events r) ts.
Proof.
  intros Hnd. unfold round.
  destruct (run_active_spec r (active_ids ts) ts) as [H1 H2]; [|done| |].
  { apply NoDup_filter, NoDup_seq. }
  { intros i (t & Ht & _)%elem_of_active_ids. by eapply lookup_lt_Some. }
  split.
  - apply list_eq. intros j. rewrite H1. change (map (upd r) ts) with (upd r <$> ts).
    rewrite list_lookup_fmap. destruct (ts !! j) as [t|] eqn:Ht; [|done]. simpl. f_equal.
    case_bool_decide as Hj.
    + done.
    + rewrite upd_disabled; [done|]. destruct (enabled t) eqn:Hen; [|done].
      destruct Hj. apply elem_of_active_ids. by exists t.
  - rewrite H2. unfold active_ids. rewrite mbind_filter_nil.
    + apply mbind_seq_lookup.
    + intros i Hi. destruct (ts !! i) as [t|]; [|done]. simpl in *. unfold task_events.
      by destruct (enabled t).
Qed.

Lemma healthy_upd r r' t : healthy r' (upd r t) = healthy r' t.
Proof. done. Qed.

Lemma active_ids_nonempty ts i t :
  ts !! i = Some t → enabled t = true → active_ids ts ≠ [].
Proof. intros Ht Hen Hnil. assert (i ∈ active_ids ts) as Hi by (apply elem_of_active_ids; eauto).
  rewrite Hnil in Hi. set_solver. Qed.

Lemma main_loop_step fuel r ts :
  active_ids ts ≠ [] →
  main_loop (S fuel) r ts =
    match main_loop fuel (S r) (round r ts).1 with
    | Some (ts2, ev2) => Some (ts2, (round r ts).2 ++ ev2)
    | None => None
    end.
Proof.
  intros Hne. simpl. rewrite bool_decide_false by done.
  by destruct (round r ts).
Qed.

Lemma main_loop_forever fuel r ts i t :
  NoDup (map name ts) → ts !! i = Some t → enabled t = true →
  (∀ k, healthy (r + k) t = true) → main_loop fuel r ts = None.
Proof.
  revert r ts. induction fuel as [|fuel IH]; intros r ts Hnd Ht Hen Hh; [done|].
  rewrite main_loop_step by (by eapply active_ids_nonempty).
  destruct (round_spec r ts Hnd) as [-> _].
  rewrite (IH (S r) _); [done| | | |].
  - by rewrite map_map.
  - change (map (upd r) ts) with (upd r <$> ts). rewrite list_lookup_fmap, Ht. simpl.
    specialize (Hh 0). rewrite Nat.add_0_r in Hh. f_equal. unfold upd.
    rewrite Hen, Hh. destruct t; simpl in *; by subst.
  - done.
  - intros k. specialize (Hh (S k)). by rewrite Nat.add_succ_r in Hh.
Qed.

Lemma main_loop_stops R r ts :
  NoDup (map name ts) →
  (∀ i t, ts !! i = Some t → enabled t = true → ∃ k, k < R ∧ healthy (r + k) t = false) →
  ∃ ts' evs, main_loop (S R) r ts = Some (ts', evs) ∧
             Forall (λ t, enabled t = false) ts' ∧ map name ts' = map name ts.
Proof.
  revert r ts. induction R as [|R IH]; intros r ts Hnd Hfail.
  all: destruct (decide (active_ids ts = [])) as [Hnil|Hne].
  1,3: exists ts, []; simpl; rewrite bool_decide_true by done; split_and!; [done| |done];
       apply Forall_forall; intros t Ht; destruct (enabled t) eqn:Hen; [|done];
       apply list_elem_of_lookup_1 in Ht as [i Hi];
       destruct (active_ids_nonempty ts i t Hi Hen Hnil).
  - exfalso. destruct (active_ids ts) as [|i ids] eqn:Ha; [done|].
    assert (i ∈ active_ids ts) as (t & Ht & Hen)%elem_of_active_ids by (rewrite Ha; set_solver).
    destruct (Hfail i t Ht Hen) as (k & Hk & _). lia.
  - rewrite main_loop_step by done. destruct (round_spec r ts Hnd) as [-> _].
    destruct (IH (S r) (map (upd r) ts)) as (ts' & evs & -> & Hall & Hnames).
    + by rewrite map_map.
    + intros i t1 Ht1 Hen1. change (map (upd r) ts) with (upd r <$> ts) in Ht1.
      rewrite list_lookup_fmap in Ht1. destruct (ts !! i) as [t|] eqn:Ht; [|done].
      injection Ht1 as <-. unfold upd in Hen1. simpl in Hen1.
      apply andb_prop in Hen1 as [Hen Hh].
      destruct (Hfail i t Ht Hen) as ([|k] & Hk & Hk').
      * rewrite Nat.add_0_r in Hk'. congruence.
      * exists k. split; [lia|]. rewrite healthy_upd. by rewrite Nat.add_succ_r in Hk'.
    + eexists _, _. split; [done|]. split; [done|]. by rewrite Hnames, map_map.
Qed.

End MainLoop.

(** ** old_loop.py *)

Section OldLoop.
Context `{RunnerHost}.

Definition OLD_TASKS : list (string * list string) := map (λ n, (n, ["python"; n])) TASK_NAMES.

(** [send_error_email] of old_loop.py (lines 31-79): the same
    configuration test and [_trim]; the two sections are trimmed before
    the subject is built, and the body's first line is escaped with a
    backslash, so it starts with the same line as main_loop.py's. *)
Definition old_send_error_email (r : nat) (task_name err_summary stdout_text stderr_text : string)
    : mail_result :=
  if negb configured then NotConfigured
  else
    let now := rh_now r in
    let stdout_trim := trim stdout_text in
    let stderr_trim := trim stderr_text in
    let subject := "[AutoRunner] Lỗi khi chạy " +:+ task_name +:+ " @ " +:+ now in
    let body :=
      "Thời điểm : " +:+ now +:+ newline +:+
      "Máy      : " +:+ rh_hostname +:+ newline +:+
      "Script   : " +:+ task_name +:+ newline +:+ newline +:+
      "Tóm tắt lỗi:" +:+ newline +:+ err_summary +:+ newline +:+ newline +:+
      "=== STDOUT ===" +:+ newline +:+ stdout_trim +:+ newline +:+ newline +:+
      "=== STDERR ===" +:+ newline +:+ stderr_trim +:+ newline in
    let m := mk_email subject body EMAIL_FROM (default "" EMAIL_TO) in
    if rh_smtp_ok then Sent m else SendFailed m.

(** [run_task_once(task_name, cmd)] of old_loop.py: [capture_output=True],
    so a failed run mails what the script printed. *)
Definition old_run_task_once (r : nat) (task_name : string) : list run_event :=
  Running task_name ::
  match rh_run r task_name with
  | Completed => []
  | Failed code out err => [Mail (old_send_error_email r task_name (called_summary code) out err)]
  | Raised exn msg tb => [Mail (old_send_error_email r task_name (unexpected_summary exn msg) "" tb)]
  end.

Definition old_round (r : nat) : list run_event :=
  mbind (λ '(n, _), old_run_task_once r n) OLD_TASKS.

(** The first [fuel] rounds of [main_loop()] (it never leaves the loop). *)
Fixpoint old_trace (fuel r : nat) : list run_event :=
  match fuel with O => [] | S fuel' => old_round r ++ old_trace fuel' (S r) end.

(** The program old_loop.py for [fuel] rounds: the same [SMTP_PORT] at
    load time (line 23), then [main_loop()] (lines 114-115). *)
Definition old_loop_py (fuel : nat) : py_exc + list run_event :=
  match SMTP_PORT with
  | None => inl ValueError
  | Some _ => inr (old_trace fuel 0)
  end.

End OldLoop.

(** ** loop.py *)

Section LoopPy.
Context `{RunnerHost}.

(** One pass of the [while True] body: only [CalledProcessError] is
    caught; any other exception leaves the loop with the exception. *)
Fixpoint loop_pass (r : nat) (scripts : list string) : list run_event * option (string * string) :=
  match scripts with
  | [] => ([], None)
  | s :: ss =>
      match rh_run r s with
      | Raised exn msg _ => ([Running s], Some (exn, msg))
      | _ => let '(ev, c) := loop_pass r ss in (Running s :: ev, c)
      end
  end.

(** The first [fuel] rounds of loop.py: the events, and the exception
    that ended the program if one did. *)
Fixpoint loop_py (fuel r : nat) : list run_event * option (string * string) :=
  match fuel with
  | O => ([], None)
  | S fuel' =>
      let '(ev, c) := loop_pass r TASK_NAMES in
      match c with
      | Some e => (ev, Some e)
      | None => let '(ev2, c2) := loop_py fuel' (S r) in (ev ++ ev2, c2)
      end
  end.

End LoopPy.

(** The names of the scripts started, in order. *)
Definition started (evs : list run_event) : list string :=
  omap (λ e, match e with Running n => Some n | Mail _ => None end) evs.

(** ** Lemmas *)

Lemma length_substring_le n m s : String.length (String.substring n m s) <= m.
Proof.
  revert n m. induction s as [|c s IH]; intros [|n] [|m]; simpl; try lia; try apply IH.
  specialize (IH 0 m). lia.
Qed.

(** The two copies of [send_error_email] send the same mail. *)
Lemma old_send_error_email_eq `{RunnerHost} r task_name err_summary stdout_text stderr_text :
  old_send_error_email r task_name err_summary stdout_text stderr_text =
    send_error_email r task_name err_summary stdout_text stderr_text.
Proof. done. Qed.

Lemma started_app l1 l2 : started (l1 ++ l2) = started l1 ++ started l2.
Proof. apply omap_app. Qed.

Lemma started_old_round `{RunnerHost} r : started (old_round r) = TASK_NAMES.
Proof.
  unfold old_round, OLD_TASKS. generalize TASK_NAMES. intros ns.
  induction ns as [|n ns IH]; [done|]. cbn [map]. rewrite bind_cons, started_app, IH.
  unfold old_run_task_once. by destruct (rh_run r n).
Qed.

Lemma loop_pass_ok `{RunnerHost} r ss :
  (∀ s exn msg tb, s ∈ ss → rh_run r s ≠ Raised exn msg tb) →
  loop_pass r ss = (map Running ss, None).
Proof.
  induction ss as [|s ss IH]; intros Hno; [done|]. simpl.
  rewrite IH by (intros; apply Hno; set_solver).
  destruct (rh_run r s) eqn:Hr; try done. exfalso. eapply (Hno s); [set_solver|done].
Qed.

Lemma loop_pass_crash `{RunnerHost} r ss s exn msg tb :
  s ∈ ss → rh_run r s = Raised exn msg tb → ∃ evs e, loop_pass r ss = (evs, Some e).
Proof.
  induction ss as [|s' ss IH]; intros Hs Hr; [set_solver|]. simpl.
  destruct (rh_run r s') eqn:Hr'; [| |by eexists _, _].
  all: apply elem_of_cons in Hs as [->|Hs]; [congruence|].
  all: destruct (IH Hs Hr) as (evs & e & ->); by eexists _, _.
Qed.

Lemma TASK_NAMES_NoDup : NoDup TASK_NAMES.
Proof. apply (bool_decide_unpack _). by vm_compute. Qed.

Lemma trim_length_le s : String.length (trim s) <= MAX_BODY_CHARS + 13.
Proof.
  unfold trim. destruct (Nat.ltb_spec MAX_BODY_CHARS (String.length (py_strip s))).
  - rewrite !str_app_length. pose proof (length_substring_le 0 MAX_BODY_CHARS (py_strip s)).
    change (String.length newline) with 1. change (String.length "...[trimmed]") with 12. lia.
  - lia.
Qed.

(** The events of one failed run in main_loop.py and in old_loop.py. *)
Lemma run_task_once_failed `{RunnerHost} r t ts code out err :
  rh_exists (script t) = true → rh_run r (name t) = Failed code out err →
  (run_task_once r t ts).2 =
    [Running (name t); Mail (send_error_email r (name t) (called_summary code) "" "")].
Proof. intros He Hr. unfold run_task_once. by rewrite He, Hr. Qed.

Lemma loop_py_S `{RunnerHost} fuel r :
  loop_py (S fuel) r =
    let '(ev, c) := loop_pass r TASK_NAMES in
    match c with
    | Some e => (ev, Some e)
    | None => let '(ev2, c2) := loop_py fuel (S r) in (ev ++ ev2, c2)
    end.
Proof. done. Qed.

Lemma loop_py_ok `{RunnerHost} fuel r :
  (∀ k s exn msg tb, k < fuel → rh_run (r + k) s ≠ Raised exn msg tb) →
  loop_py fuel r = (map Running (concat (replicate fuel TASK_NAMES)), None).
Proof.
  revert r. induction fuel as [|fuel IH]; intros r Hno; [done|]. rewrite loop_py_S.
  rewrite loop_pass_ok.
  2: { intros s exn msg tb _. specialize (Hno 0 s exn msg tb). rewrite Nat.add_0_r in Hno.
       apply Hno. lia. }
  rewrite IH.
  - cbn iota beta. change (concat (replicate (S fuel) TASK_NAMES))
      with (TASK_NAMES ++ concat (replicate fuel TASK_NAMES)). by rewrite map_app.
  - intros k s exn msg tb Hk. replace (S r + k) with (r + S k) by lia. apply Hno. lia.
Qed.

Lemma loop_py_crash `{RunnerHost} fuel r k s exn msg tb :
  k < fuel → s ∈ TASK_NAMES → rh_run (r + k) s = Raised exn msg tb →
  ∃ evs e, loop_py fuel r = (evs, Some e).
Proof.
  revert r k. induction fuel as [|fuel IH]; intros r k Hk Hs Hr; [lia|]. rewrite loop_py_S.
  destruct (loop_pass r TASK_NAMES) as [ev [e|]] eqn:Hp; [by eexists _, _|].
  destruct k as [|k].
  - rewrite Nat.add_0_r in Hr. destruct (loop_pass_crash r _ s exn msg tb Hs Hr) as (? & ? & Hc).
    congruence.
  - replace (r + S k) with (S r + k) in Hr by lia. destruct (IH (S r) k) as (evs & e & ->); [lia|done|done|].
    by eexists _, _.
Qed.

(** Both runners stop at load time exactly when [SMTP_PORT] is set to a
    value [int()] rejects, mail configured or not. *)
Lemma runners_port_error `{RunnerHost} fuel :
  (main_loop_py fuel = inl ValueError ∨ old_loop_py fuel = inl ValueError) ↔
  ∃ v, rh_getenv "SMTP_PORT" = Some v ∧ int_of_str v = None.
Proof.
  unfold main_loop_py, old_loop_py, SMTP_PORT.
  destruct (rh_getenv "SMTP_PORT") as [v|]; simpl.
  - destruct (int_of_str v) eqn:Hv; [|by split; [eauto|left]].
    split; [by intros [?|?]|naive_solver].
  - split; [by intros [?|?]|naive_solver].
Qed.

(** ** Hosts for the examples *)

(** Every script exists and exits with 0; no SMTP variable is set. *)
Definition clean_host : RunnerHost := {|
  rh_getenv := λ _, None; rh_exists := λ _, true; rh_script_dir := "C:\runner";
  rh_run := λ _ _, Completed; rh_smtp_ok := true; rh_hostname := "pc";
  rh_now := λ _, "2024-05-01 08:00:00" |}.

(** Every script exits with 1; SMTP is configured. *)
Definition broken_host : RunnerHost := {|
  rh_getenv := λ v, if String.eqb v "EMAIL_FROM" then None else Some "ops@example.com";
  rh_exists := λ _, true; rh_script_dir := "C:\runner";
  rh_run := λ _ _, Failed 1 "out" "err"; rh_smtp_ok := true; rh_hostname := "pc";
  rh_now := λ _, "2024-05-01 08:00:00" |}.

(** spidey.py cannot be started ([FileNotFoundError]); the others run cleanly. *)
Definition raising_host : RunnerHost := {|
  rh_getenv := λ _, None; rh_exists := λ _, true; rh_script_dir := "C:\runner";
  rh_run := λ _ s, if String.eqb s "spidey.py" then Raised "FileNotFoundError" "python" "tb"
                   else Completed;
  rh_smtp_ok := true; rh_hostname := "pc"; rh_now := λ _, "2024-05-01 08:00:00" |}.

(** ** Theorems *)

(** C24: the mail body is bounded: [_trim] never returns more than
    [MAX_BODY_CHARS] characters plus the 13 of its marker, and leaves a
    text that is short enough after stripping as the stripped text. *)
Theorem trim_bounds s :
  String.length (trim s) <= MAX_BODY_CHARS + 13 ∧
  (String.length (py_strip s) <= MAX_BODY_CHARS → trim s = py_strip s).
Proof.
  split; [apply trim_length_le|]. intros Hs. unfold trim.
  destruct (Nat.ltb_spec MAX_BODY_CHARS (String.length (py_strip s))); [lia|done].
Qed.

(** C18: one round of main_loop.py refines the abstract round: on the
    table of the six tasks (after any rounds: the names never change), the
    loop over [active], which reads the flags of the dictionaries it
    mutates, leaves each task enabled exactly when it was enabled and its
    run was healthy, and emits the events of the enabled tasks in table
    order. *)
Theorem main_round_refines `{RunnerHost} r ts :
  map name ts = TASK_NAMES →
  (round r ts).1 = map (upd r) ts ∧ (round r ts).2 = mbind (task_events r) ts.
Proof. intros Hn. apply round_spec. rewrite Hn. apply TASK_NAMES_NoDup. Qed.

(** C20: main_loop.py never stops while one enabled task keeps running
    cleanly: for every fuel the loop is still running. *)
Theorem main_loop_runs_forever `{RunnerHost} fuel r ts i t :
  map name ts = TASK_NAMES → ts !! i = Some t → enabled t = true →
  (∀ k, healthy (r + k) t = true) → main_loop fuel r ts = None.
Proof. intros Hn. apply main_loop_forever. rewrite Hn. apply TASK_NAMES_NoDup. Qed.

(** C19: main_loop.py terminates when every enabled task fails (a missing
    script, a non-zero exit or an exception) within [R] rounds: after at
    most [R + 1] rounds it breaks with every task disabled and the same
    task names. *)
Theorem main_loop_terminates `{RunnerHost} R r ts :
  map name ts = TASK_NAMES →
  (∀ i t, ts !! i = Some t → enabled t = true → ∃ k, k < R ∧ healthy (r + k) t = false) →
  ∃ ts' evs, main_loop (S R) r ts = Some (ts', evs) ∧
             Forall (λ t, enabled t = false) ts' ∧ map name ts' = TASK_NAMES.
Proof.
  intros Hn Hf. destruct (main_loop_stops R r ts) as (ts' & evs & ? & ? & Hn'); [|done|].
  - rewrite Hn. apply TASK_NAMES_NoDup.
  - exists ts', evs. by rewrite Hn', Hn.
Qed.

(** C23: old_loop.py never leaves its loop: in [R] rounds it starts the six
    scripts in order [R] times, whatever the scripts do. *)
Theorem old_loop_runs_all `{RunnerHost} R r :
  started (old_trace R r) = concat (replicate R TASK_NAMES).
Proof.
  revert r. induction R as [|R IH]; intros r; [done|]. cbn [old_trace].
  by rewrite started_app, started_old_round, IH.
Qed.

(** C21: a script that exits with a non-zero code: old_loop.py mails what
    it printed ([capture_output=True]), with its own copy of
    [send_error_email] sending the mail main_loop.py's would; main_loop.py
    mails empty STDOUT
    and STDERR sections ([capture_output=False] leaves [e.stdout] and
    [e.stderr] at [None]) and disables the task. *)
Theorem failed_run_mail `{RunnerHost} r t ts code out err :
  rh_exists (script t) = true → rh_run r (name t) = Failed code out err →
  old_run_task_once r (name t) =
    [Running (name t); Mail (send_error_email r (name t) (called_summary code) out err)] ∧
  (run_task_once r t ts).2 =
    [Running (name t); Mail (send_error_email r (name t) (called_summary code) "" "")] ∧
  (run_task_once r t ts).1 = (disable_task (name t) ts).1.
Proof.
  intros He Hr. split_and!; [by unfold old_run_task_once; rewrite Hr, old_send_error_email_eq
                            |by eapply run_task_once_failed
                            |by unfold run_task_once; rewrite He, Hr].
Qed.

(** C22: loop.py's error paths: when no run raises anything but
    [CalledProcessError], it starts the six scripts in order every round
    and keeps going; an exception of another kind in any round ends the
    program with that exception. *)
Theorem loop_py_errors `{RunnerHost} fuel r :
  ((∀ k s exn msg tb, k < fuel → rh_run (r + k) s ≠ Raised exn msg tb) →
   loop_py fuel r = (map Running (concat (replicate fuel TASK_NAMES)), None)) ∧
  (∀ k s exn msg tb, k < fuel → s ∈ TASK_NAMES → rh_run (r + k) s = Raised exn msg tb →
   ∃ evs e, loop_py fuel r = (evs, Some e)).
Proof. split; [apply loop_py_ok|intros; by eapply loop_py_crash]. Qed.

(** ** Examples *)

Lemma trim_bounds_witness :
  String.length (py_strip "  ok ") <= MAX_BODY_CHARS ∧ trim "  ok " = "ok".
Proof.
  assert (String.length (py_strip "  ok ") <= MAX_BODY_CHARS) as Hs
    by (apply Nat.leb_le; vm_compute; reflexivity).
  split; [exact Hs|]. rewrite (proj2 (trim_bounds "  ok ") Hs). reflexivity.
Defined.

Lemma main_round_refines_witness :
  map name (@TASKS broken_host) = TASK_NAMES ∧
  (@round broken_host 0 (@TASKS broken_host)).1 = map (@upd broken_host 0) (@TASKS broken_host).
Proof.
  split; [reflexivity|]. exact (proj1 (@main_round_refines broken_host 0 (@TASKS broken_host) eq_refl)).
Defined.

Lemma main_loop_runs_forever_witness :
  @main_loop clean_host 50 0 (@TASKS clean_host) = None.
Proof.
  apply (@main_loop_runs_forever clean_host 50 0 (@TASKS clean_host) 0
           (mk_task "be_ca.py" ("C:\runner" </> "be_ca.py") true));
    [reflexivity|reflexivity|reflexivity|intros k; reflexivity].
Defined.

Lemma main_loop_terminates_witness :
  ∃ ts' evs, @main_loop broken_host 2 0 (@TASKS broken_host) = Some (ts', evs) ∧
             Forall (λ t, enabled t = false) ts' ∧ map name ts' = TASK_NAMES.
Proof.
  apply (@main_loop_terminates broken_host 1 0 (@TASKS broken_host)); [reflexivity|].
  intros i t Ht Hen. exists 0. split; [lia|].
  apply list_elem_of_lookup_2 in Ht. unfold TASKS in Ht.
  apply list_elem_of_fmap in Ht as (n & -> & _). reflexivity.
Defined.

Lemma failed_run_mail_witness :
  @old_run_task_once broken_host 0 "be_ca.py" =
    [Running "be_ca.py"; Mail (@send_error_email broken_host 0 "be_ca.py" (called_summary 1) "out" "err")].
Proof.
  exact (proj1 (@failed_run_mail broken_host 0 (mk_task "be_ca.py" "C:\runner\be_ca.py" true) []
                  1 "out" "err" eq_refl eq_refl)).
Defined.

Lemma loop_py_errors_witness :
  @loop_py clean_host 2 0 = (map Running (TASK_NAMES ++ TASK_NAMES ++ []), None) ∧
  ∃ evs e, @loop_py raising_host 2 0 = (evs, Some e).
Proof.
  split.
  - apply (proj1 (@loop_py_errors clean_host 2 0)). intros k s exn msg tb _. discriminate.
  - apply (proj2 (@loop_py_errors raising_host 2 0) 1 "spidey.py" "FileNotFoundError" "python" "tb").
    + lia.
    + apply list_elem_of_In. simpl. tauto.
    + reflexivity.
Defined.

End Runner.
