(* ===== verification/OldAllocator.v ===== *)
(** * The single-step allocator of test.py

    [check_and_add_next_spidey_video()] is the earlier version of the
    allocator of module3.py: it reads the last number of the ledger
    [data_spidey.csv] exactly as module3.py does, then looks for ONE file,
    the first one in [os.walk] order (not sorted) whose name contains the
    zero-padded next number and "spidey", checks the registered paths,
    and appends one row.  The reads, the row and the write are those of
    [Ledger] and [Allocator]; the result is the ledger after the call
    with the one message the call prints, as an [Allocator.event]. *)

From S2P Require Import Prelude Host Probe Scanner Ledger Allocator.
From Stdlib Require Import QArith.

Local Close Scope Q_scope.
Local Open Scope string_scope.
Local Open Scope list_scope.
Local Open Scope py_scope.
Import Scanner Ledger Allocator.

Module OldAllocator.

(** The test of lines 51-53 on one file name [item]. *)
Definition spidey_item (num item : string) : bool :=
  is_video item &&
  (let item_lower := py_lower item in
   str_contains num item_lower && str_contains "spidey" item_lower).

(** The two loops of lines 49-57 over the [os.walk] entries: the inner
    loop breaks at the first matching file, the outer one as soon as a
    path was found. *)
Fixpoint find_next_video `{Host} (num : string) (ws : list (string * list string))
    : option string :=
  match ws with
  | [] => None
  | (root, files) :: ws' =>
      match List.find (spidey_item num) files with
      | Some item => Some (host_abspath (root </> item))
      | None => find_next_video num ws'
      end
  end.

(** [check_and_add_next_spidey_video()] on the ledger [f] ([None] when
    the file does not exist): the ledger after the call and what it
    printed.  The read of [existing_paths] (lines 67-75) reads the same
    file as lines 25-40 and cannot fail where they did not. *)
Definition check_and_add_next_spidey_video `{Host} (f : option ledger)
    : option ledger * event :=
  match read_last_number f with
  | None => (f, ReadError)
  | Some last_number =>
      let next_number := (last_number + 1)%Z in
      let next_number_str := zfill_int 3 next_number in
      match find_next_video next_number_str (os_walk BASE_PATH) with
      | None => (f, NotFound next_number_str)
      | Some next_video_path =>
          if bool_decide (next_video_path ∈ registered_paths f)
          then (f, AlreadyExists next_number_str next_video_path)
          else (Some (append_row f (new_row next_number next_video_path)),
                Added next_number_str next_video_path)
      end
  end.

(** ** Lemmas *)

(** What the search finds: a file of a walked directory that passes the
    test, at its absolute path. *)
Lemma find_next_video_sound `{Host} num ws p :
  find_next_video num ws = Some p →
  ∃ root files item, (root, files) ∈ ws ∧ item ∈ files ∧ spidey_item num item = true ∧
                     p = host_abspath (root </> item).
Proof.
  induction ws as [|[root files] ws IH]; [done|]. simpl.
  destruct (List.find (spidey_item num) files) as [item|] eqn:Hf.
  - intros [= <-]. apply find_some in Hf as [Hin Hs].
    exists root, files, item. split_and!; [set_solver|by apply list_elem_of_In|done|done].
  - intros (r & fs & it & ? & ? & ? & ->)%IH. exists r, fs, it. split_and!; [set_solver|done..].
Qed.

(** Nothing is found exactly when no walked file passes the test. *)
Lemma find_next_video_none `{Host} num ws :
  find_next_video num ws = None ↔
  ∀ root files item, (root, files) ∈ ws → item ∈ files → spidey_item num item = false.
Proof.
  induction ws as [|[root files] ws IH]; simpl.
  { split; [set_solver|done]. }
  destruct (List.find (spidey_item num) files) as [item|] eqn:Hf.
  - split; [done|]. intros Hall. apply find_some in Hf as [Hin Hs].
    rewrite (Hall root files item) in Hs; [done|set_solver|by apply list_elem_of_In].
  - rewrite IH. split.
    + intros Hrest r fs it [[= <- <-]|Hw]%elem_of_cons Hit; [|by eapply Hrest].
      apply (find_none _ _ Hf). by apply list_elem_of_In.
    + intros Hall r fs it Hw Hit. apply (Hall r fs it); [set_solver|done].
Qed.

Section Call.
Context `{Host} (f : option ledger).

(** The call against module3.py's loop body: when the walk finds the
    same file as the sorted scan, the call is the first step of the
    batch. *)
Lemma old_alloc_step last_number :
  read_last_number f = Some last_number →
  find_next_video (zfill_int 3 (last_number + 1)) (os_walk BASE_PATH) =
    find_match (zfill_int 3 (last_number + 1)) (allocator_files BASE_PATH) →
  let st := alloc_step last_number (allocator_files BASE_PATH) (registered_paths f)
              (mk_state f 0 []) 1 in
  check_and_add_next_spidey_video f = (csv st, default ReadError (last (log st))).
Proof.
  intros Hl Hm. unfold check_and_add_next_spidey_video, alloc_step. rewrite Hl, Hm. simpl.
  destruct (find_match _ _); [|done]. by case_bool_decide.
Qed.

End Call.

(** The share of the scenario: the folder holds a match for 013 and so
    does its sub-folder [a], whose path sorts first. *)
Definition two_level_share : Host :=
  demo_host BASE_PATH (Dir ".Spidey" ["spidey 013 v2.mp4"] [Dir "a" ["Spidey 013.mp4"] []])
            (1805 # 2)%Q.

(** ** Theorems *)

(** C25: one call of test.py adds at most one row: either the ledger is
    left as it was (read error, no file for the next number, or a file
    already registered), or exactly one row is appended, numbered
    [last + 1], for a walked video file whose name contains the
    zero-padded number and "spidey" and which was not registered. *)
Theorem old_alloc_one_row `{Host} f :
  let '(f', ev) := check_and_add_next_spidey_video f in
  (f' = f ∧ ∀ num p, ev ≠ Added num p) ∨
  ∃ last_number root files item,
    read_last_number f = Some last_number ∧
    (root, files) ∈ os_walk BASE_PATH ∧ item ∈ files ∧
    spidey_item (zfill_int 3 (last_number + 1)) item = true ∧
    (host_abspath (root </> item)) ∉ registered_paths f ∧
    ev = Added (zfill_int 3 (last_number + 1)) (host_abspath (root </> item)) ∧
    ledger_rows f' = ledger_rows f ++
      [new_row (last_number + 1) (host_abspath (root </> item))].
Proof.
  unfold check_and_add_next_spidey_video.
  destruct (read_last_number f) as [n|] eqn:Hl; [|by left].
  destruct (find_next_video _ _) as [p|] eqn:Hf; [|by left].
  case_bool_decide as Hp; [by left|]. right.
  destruct (find_next_video_sound _ _ _ Hf) as (root & files & item & ? & ? & ? & ->).
  exists n, root, files, item. split_and!; try done. apply append_row_rows.
Qed.

(** C26: the single-step allocator keeps the ledger's invariant: a ledger
    with the [stt] column whose numbers strictly increase still has
    strictly increasing numbers after the call. *)
Theorem old_alloc_preserves_increasing `{Host} f :
  (∀ L, f = Some L → has_col L "stt" = true) →
  stt_increasing (ledger_rows f) →
  stt_increasing (ledger_rows (check_and_add_next_spidey_video f).1).
Proof.
  intros Hcol Hinc. destruct (read_last_number_max f Hcol Hinc) as (n & Hl & Hmax).
  unfold check_and_add_next_spidey_video. rewrite Hl.
  destruct (find_next_video _ _) as [p|]; [|done]. case_bool_decide; [done|]. simpl.
  rewrite append_row_rows. destruct Hinc as [Hsome Hs]. split.
  - apply Forall_app. split; [done|]. repeat constructor. by eexists.
  - rewrite omap_app. apply StronglySorted_app. split_and!; [|done|repeat constructor].
    intros x y Hx Hy. simpl in Hy. apply list_elem_of_singleton in Hy as ->.
    specialize (Hmax x Hx). lia.
Qed.

(** C27: test.py against module3.py: whenever the walk's first match is
    the sorted scan's first match, one call of test.py writes the ledger
    that module3.py writes with [batch_size = 1] and prints its one
    message; on the two-level share below they pick different files for
    013, so the two versions append different rows. *)
Theorem old_alloc_vs_batch `{Host} f last_number :
  read_last_number f = Some last_number →
  find_next_video (zfill_int 3 (last_number + 1)) (os_walk BASE_PATH) =
    find_match (zfill_int 3 (last_number + 1)) (allocator_files BASE_PATH) →
  check_and_add_next_spidey_video f =
    (csv (check_and_add_next_spidey_videos 1 f),
     default ReadError (last (log (check_and_add_next_spidey_videos 1 f)))) ∧
  (@check_and_add_next_spidey_video two_level_share (Some (numbered_ledger 12))).2 =
    Added "013" (BASE_PATH +:+ "\spidey 013 v2.mp4") ∧
  log (@check_and_add_next_spidey_videos two_level_share 1 (Some (numbered_ledger 12))) =
    [Added "013" (BASE_PATH +:+ "\a\Spidey 013.mp4")].
Proof.
  intros Hl Hm. split; [|split; vm_compute; reflexivity].
  rewrite (old_alloc_step f last_number Hl Hm).
  unfold check_and_add_next_spidey_videos. rewrite Hl. done.
Qed.

(** ** Examples *)

Lemma old_alloc_preserves_increasing_witness :
  stt_increasing
    (ledger_rows (@check_and_add_next_spidey_video two_level_share (Some (numbered_ledger 12))).1) ∧
  map stt (drop 12 (ledger_rows
    (@check_and_add_next_spidey_video two_level_share (Some (numbered_ledger 12))).1)) = [Some 13%Z].
Proof.
  split; [|vm_compute; reflexivity].
  apply old_alloc_preserves_increasing.
  - intros L [= <-]. reflexivity.
  - split; [repeat constructor; by eexists|]. vm_compute.
    repeat constructor; vm_compute; try done; by repeat constructor.
Defined.

Lemma old_alloc_vs_batch_witness :
  let h := share ["notes.txt"; "Spidey 013.mp4"] in
  @check_and_add_next_spidey_video h (Some (numbered_ledger 12)) =
    (csv (@check_and_add_next_spidey_videos h 1 (Some (numbered_ledger 12))),
     default ReadError (last (log (@check_and_add_next_spidey_videos h 1 (Some (numbered_ledger 12)))))).
Proof.
  refine (proj1 (@old_alloc_vs_batch (share ["notes.txt"; "Spidey 013.mp4"])
                   (Some (numbered_ledger 12)) 12 eq_refl _)).
  vm_compute. reflexivity.
Defined.

End OldAllocator.
