(* ===== verification/StreamInfo.v ===== *)
(** * The stream report: [print_video_info] of module3.py (lines 268-296)

    The debug helper runs ffprobe with [-print_format json], reads the
    JSON with [json.loads], prints a block per video or audio stream and
    the container's duration, and prints one error line when anything
    raises.  It is written in the monad [PyM] of the prelude (store
    [unit], output [report_line]): the lines printed before an exception
    stay printed.

    [json.loads] is a library call: the model takes its result, a
    Python value whose dictionaries have distinct keys, or
    [JSONDecodeError].  ffprobe writes integers as JSON numbers and
    every other number as a string, so JSON numbers are integers here.
    [eval] is modelled on the rate texts [N/D] and [N] (integer literals
    without leading zeros) that ffprobe writes; any other text raises
    [SyntaxError] in the model.  [:.2f] rounds the exact rational half to
    even: it is what Python prints whenever the value is not within the
    error of a double of a tie at the third decimal.  The text of an
    exception ([{e}]) is not modelled: the error line carries the
    exception. *)

From S2P Require Import Prelude Probe.
From Stdlib Require Import Ascii QArith Qabs Lqa.

Local Open Scope string_scope.
Local Open Scope list_scope.
Import Probe.

Module StreamInfo.

(** The Python value [json.loads] returns. *)
#[warnings="-register-all"]
Inductive json :=
  | JNull
  | JBool (b : bool)
  | JInt (z : Z)
  | JStr (s : string)
  | JArr (l : list json)
  | JObj (kvs : list (string * json)).

(** What [subprocess.run([...], capture_output=True, text=True,
    check=True)] followed by [json.loads(result.stdout)] gives. *)
Inductive probe_run :=
  | ProbeMissing                     (** ffprobe is not on the PATH *)
  | ProbeFailed (code : Z)           (** non-zero exit: [CalledProcessError] *)
  | ProbeOutput (doc : option json). (** [None]: [JSONDecodeError] *)

(** A printed line, or the line of the [except] clause. *)
Inductive report_line :=
  | Text (s : string)
  | ErrorLine (e : py_exc).

Notation M := (PyM unit report_line).

Definition nl : string := String (Ascii.ascii_of_nat 10) "".

(** ** Python values *)

(** The value under [k] in a dict (its keys are distinct). *)
Definition field (kvs : list (string * json)) (k : string) : option json :=
  (λ kv, kv.2) <$> List.find (λ kv, String.eqb kv.1 k) kvs.

(** [d.get(k)]: only a dict has [get]; [None] for a missing key. *)
Definition py_get1 (v : json) (k : string) : py_exc + option json :=
  match v with
  | JObj kvs => inr (field kvs k)
  | _ => inl AttributeError
  end.

(** [d.get(k, default)] *)
Definition py_get (v : json) (k : string) (dflt : json) : py_exc + json :=
  match py_get1 v k with
  | inr o => inr (default dflt o)
  | inl e => inl e
  end.

(** [repr] of a value (strings without quotes or backslashes). *)
Fixpoint py_repr (v : json) : string :=
  match v with
  | JNull => "None"
  | JBool b => if b then "True" else "False"
  | JInt z => py_str_int z
  | JStr s => "'" +:+ s +:+ "'"
  | JArr l =>
      "[" +:+ (fix go (l : list json) : string :=
                 match l with
                 | [] => ""
                 | [x] => py_repr x
                 | x :: r => py_repr x +:+ ", " +:+ go r
                 end) l +:+ "]"
  | JObj kvs =>
      "{" +:+ (fix go (kvs : list (string * json)) : string :=
                 match kvs with
                 | [] => ""
                 | [(k, x)] => "'" +:+ k +:+ "': " +:+ py_repr x
                 | (k, x) :: r => "'" +:+ k +:+ "': " +:+ py_repr x +:+ ", " +:+ go r
                 end) kvs +:+ "}"
  end.

(** [f"{v}"] of the result of [get]: [str], and "None" for a missing key. *)
Definition fmt (v : option json) : string :=
  match v with
  | Some (JStr s) => s
  | Some x => py_repr x
  | None => "None"
  end.

(** [for x in v]: a list yields its items, a string its characters, a
    dict its keys; other values are not iterable. *)
Definition py_iter (v : json) : py_exc + list json :=
  match v with
  | JArr l => inr l
  | JStr s => inr (map (λ c, JStr (String c "")) (String.list_ascii_of_string s))
  | JObj kvs => inr (map (λ kv, JStr kv.1) kvs)
  | _ => inl TypeError
  end.

(** [float(v)]. *)
Definition py_float_of (v : json) : py_exc + Q :=
  match v with
  | JStr s => match py_float s with Some q => inr q | None => inl ValueError end
  | JInt z => inr (inject_Z z)
  | JBool b => inr (if b then 1 else 0)
  | _ => inl TypeError
  end.

(** An integer literal: digits, no leading zero unless all zeros. *)
Definition py_int_literal (s : string) : option Z :=
  if py_isdigit s && (negb (String.prefix "0" s) || bool_decide (digits_value s = 0%Z))
  then Some (digits_value s) else None.

(** [eval(v)] on a frame rate: [N/D] is a true division, [N] an int. *)
Definition py_eval_rate (v : option json) : py_exc + Q :=
  match v with
  | Some (JStr s) =>
      match split_first "/" s with
      | Some (a, b) =>
          match py_int_literal a, py_int_literal b with
          | Some n, Some d => if Z.eqb d 0 then inl ZeroDivisionError else inr (n # Z.to_pos d)
          | _, _ => inl SyntaxError
          end
      | None => match py_int_literal s with Some n => inr (inject_Z n) | None => inl SyntaxError end
      end
  | _ => inl TypeError
  end.

(** [f"{x:.2f}"]: the sign, the integer part and two decimals of [x]
    rounded half to even. *)
Definition format_2f (x : Q) : string :=
  let n := py_round (x * 100) in
  (if Qlt_le_dec x 0 then "-" else "") +:+
  py_str_int (Z.abs n / 100) +:+ "." +:+ zfill_int 2 (Z.abs n mod 100).

(** ** The function *)

Definition header (video_path : string) : string :=
  nl +:+ "Đang kiểm tra: " +:+ video_path.

Definition get (v : json) (k : string) : M (option json) := py_lift (py_get1 v k).
Definition say (s : string) : M unit := py_print (Text s).

(** The body of [for stream in info.get("streams", [])] (lines 279-289). *)
Definition stream_report (stream : json) : M unit :=
  ct ← get stream "codec_type";
  let codec_type_is t := match ct with Some (JStr s) => String.eqb s t | _ => false end in
  if codec_type_is "video" then
    say "VIDEO:" ;;
    cn ← get stream "codec_name"; say ("  Codec: " +:+ fmt cn) ;;
    w ← get stream "width"; h ← get stream "height";
    say ("  Resolution: " +:+ fmt w +:+ "x" +:+ fmt h) ;;
    r ← get stream "r_frame_rate"; fps ← py_lift (py_eval_rate r);
    say ("  FPS: " +:+ format_2f fps) ;;
    pf ← get stream "pix_fmt"; say ("  Pixel format: " +:+ fmt pf)
  else if codec_type_is "audio" then
    say "AUDIO:" ;;
    cn ← get stream "codec_name"; say ("  Codec: " +:+ fmt cn) ;;
    sr ← get stream "sample_rate"; say ("  Sample rate: " +:+ fmt sr +:+ " Hz") ;;
    ch ← get stream "channels"; say ("  Channels: " +:+ fmt ch)
  else mret tt.

(** The ffprobe run and [json.loads] (lines 272-276). *)
Definition load_info (run : probe_run) : M json :=
  match run with
  | ProbeMissing => py_raise FileNotFoundError
  | ProbeFailed code => py_raise (CalledProcessError code)
  | ProbeOutput None => py_raise JSONDecodeError
  | ProbeOutput (Some info) => mret info
  end.

(** The [try] block of lines 272-293 on the result of the ffprobe run. *)
Definition report_body (run : probe_run) : M unit :=
  info ← load_info run;
  streams ← py_lift (py_get info "streams" (JArr []));
  items ← py_lift (py_iter streams);
  py_for items stream_report ;;
  format_info ← py_lift (py_get info "format" (JObj []));
  dv ← py_lift (py_get format_info "duration" (JInt 0));
  duration ← py_lift (py_float_of dv);
  say ("Duration: " +:+ format_2f duration +:+ " seconds").

(** [print_video_info(video_path)], with [probe p] the ffprobe run. *)
Definition print_video_info (probe : string → probe_run) (video_path : string) : M unit :=
  say (header video_path) ;;
  py_try (report_body (probe video_path)) (λ e, py_print (ErrorLine e)).

(** The lines of a run from the empty store. *)
Definition report (probe : string → probe_run) (video_path : string) : list report_line :=
  (print_video_info probe video_path tt).1.2.

(** ** Reading a [:.2f] text back *)

(** The hundredths a text [[-]I.FF] denotes. *)
Definition read_2f (s : string) : option Z :=
  let '(sgn, t) := match s with String "-" r => ((-1)%Z, r) | _ => (1%Z, s) end in
  match split_first "." t with
  | Some (i, f) =>
      if py_isdigit i && py_isdigit f && (String.length f =? 2)%nat
      then Some (sgn * (100 * digits_value i + digits_value f))%Z else None
  | None => None
  end.

Definition is_text (l : report_line) : Prop := match l with Text _ => True | _ => False end.

(** ** Lemmas *)

(** The unsigned part [I.FF] of [format_2f] reads back as [k]. *)
Lemma read_abs_2f k : (0 <= k)%Z →
  split_first "." (py_str_int (k / 100) +:+ "." +:+ zfill_int 2 (k mod 100)) =
    Some (py_str_int (k / 100), zfill_int 2 (k mod 100)) ∧
  py_isdigit (py_str_int (k / 100)) && py_isdigit (zfill_int 2 (k mod 100)) &&
    (String.length (zfill_int 2 (k mod 100)) =? 2)%nat = true ∧
  (100 * digits_value (py_str_int (k / 100)) + digits_value (zfill_int 2 (k mod 100)) = k)%Z.
Proof.
  intros Hk. destruct (digits_of_str_int (k / 100)) as (Ha & Hd & Hv); [apply Z.div_pos; lia|].
  pose proof (zfill_two (k mod 100) ltac:(apply Z.mod_pos_bound; lia)) as Hz.
  unfold two_digit_ok in Hz. apply andb_prop in Hz as [[Hzd Hzl]%andb_prop Hzv%Z.eqb_eq].
  change ("." +:+ ?x) with (String "." x). rewrite split_first_digits by done.
  split_and!; [done|by rewrite Hd, Hzd, Hzl|]. rewrite Hv, Hzv. pose proof (Z.div_mod k 100). lia.
Qed.

(** [format_2f x] reads back as the hundredths [round(100 x)]. *)
Lemma read_format_2f x : read_2f (format_2f x) = Some (py_round (x * 100)).
Proof.
  unfold format_2f. set (n := py_round (x * 100)).
  destruct (read_abs_2f (Z.abs n)) as (Hs & Hc & Hv); [lia|].
  destruct (Qlt_le_dec x 0) as [Hx|Hx].
  - assert (n <= 0)%Z.
    { pose proof (py_round_near (x * 100)) as Hb. apply Qabs_Qle_condition in Hb.
      assert (inject_Z n < 1) as Hlt by (fold n in Hb; lra).
      change 1 with (inject_Z 1) in Hlt. rewrite <-Zlt_Qlt in Hlt. lia. }
    change ("-" +:+ ?y) with (String "-" y). unfold read_2f. cbv iota beta.
    rewrite Hs, Hc, Hv. f_equal. lia.
  - assert (0 <= n)%Z by (apply py_round_nonneg; lra).
    change ("" +:+ ?y) with y. unfold read_2f.
    assert (∃ c r, py_str_int (Z.abs n / 100) +:+ "." +:+ zfill_int 2 (Z.abs n mod 100) = String c r
                   ∧ c ≠ "-"%char) as (c & r & Heq & Hc').
    { destruct (digits_of_str_int (Z.abs n / 100)) as (Ha & Hd & _); [apply Z.div_pos; lia|].
      destruct (py_str_int (Z.abs n / 100)) as [|c r] eqn:Hp; [done|].
      exists c, (r +:+ "." +:+ zfill_int 2 (Z.abs n mod 100)). split; [done|].
      intros ->. done. }
    rewrite Heq. assert (match String c r with String "-" r0 => ((-1)%Z, r0) | _ => (1%Z, String c r) end
                         = (1%Z, String c r)) as ->.
    { destruct c as [[][][][][][][][]]; done. }
    rewrite <-Heq, Hs, Hc, Hv. f_equal. lia.
Qed.

Lemma py_int_literal_str z : (0 <= z)%Z → py_int_literal (py_str_int z) = Some z.
Proof.
  intros Hz. destruct (digits_of_str_int z Hz) as (_ & Hd & Hv). unfold py_int_literal.
  rewrite Hd, Hv. destruct z as [|p|p]; [done| |lia].
  assert (String.prefix "0" (py_str_int (Z.pos p)) = false) as ->; [|done].
  unfold py_str_int, pretty, pretty_Z, pretty_positive, pretty, pretty_N. cbv beta.
  rewrite decide_False by done.
  destruct (pretty_N_go_head (N.pos p)) as (c & r & -> & Hc); [done|]. cbn [String.prefix].
  destruct (ascii_dec "0" c) as [<-|]; [by destruct Hc|done].
Qed.

(** [eval("N/D")] for [str(N)] and [str(D)], [D > 0], is [N / D]. *)
Lemma py_eval_rate_str n d :
  (0 <= n)%Z → (0 < d)%Z →
  py_eval_rate (Some (JStr (py_str_int n +:+ "/" +:+ py_str_int d))) = inr (n # Z.to_pos d).
Proof.
  intros Hn Hd. unfold py_eval_rate. change ("/" +:+ ?x) with (String "/" x).
  destruct (digits_of_str_int n Hn) as (Ha & _).
  rewrite split_first_digits by done. rewrite !py_int_literal_str by lia.
  destruct (Z.eqb_spec d 0); [lia|done].
Qed.

(** The printed value of [format_2f x] is within half a hundredth of [x]. *)
Lemma format_2f_near x :
  ∃ k, read_2f (format_2f x) = Some k ∧ Qabs ((k # 100) - x) <= 1 # 200.
Proof.
  exists (py_round (x * 100)). split; [apply read_format_2f|].
  pose proof (py_round_near (x * 100)) as Hb. apply Qabs_Qle_condition in Hb.
  assert ((py_round (x * 100) # 100) == inject_Z (py_round (x * 100)) * (1 # 100)) as ->
    by (unfold Qeq; simpl; lia).
  apply Qabs_Qle_condition. split; lra.
Qed.

Ltac out_text :=
  repeat match goal with
  | |- out_all _ (_ ≫= _) => apply out_all_bind; [|intros]
  | |- out_all _ (if ?b then _ else _) => destruct b
  | |- out_all _ (match ?x with _ => _ end) => destruct x
  | |- out_all _ (py_for _ _) => apply out_all_for; intros
  | |- out_all _ (py_print _) => apply out_all_print; exact I
  | |- out_all _ (py_lift _) => apply out_all_lift
  | |- out_all _ (mret _) => apply out_all_ret
  | |- out_all _ (py_raise _) => apply out_all_raise
  end.

Lemma stream_report_text x : out_all is_text (stream_report x).
Proof. unfold stream_report, say, get. out_text. Qed.

Lemma report_body_text run : out_all is_text (report_body run).
Proof.
  unfold report_body, load_info, say. out_text.
  all: try apply stream_report_text.
Qed.

(** A run of the [try] block that returns has printed the duration last. *)
Lemma report_body_ends run :
  ends_with (λ x, ∃ d, x = Text ("Duration: " +:+ format_2f d +:+ " seconds")) (report_body run).
Proof.
  unfold report_body. repeat (apply ends_with_bind; intros). apply ends_with_print. by eexists.
Qed.

(** ** Theorems *)

(** C31: the report of [print_video_info] always ends normally: it opens
    with the path line, and either every step succeeded and its last line
    is the container's duration with two decimals, or an exception was
    caught and its last line is the one error line, after the lines
    printed before the exception; all the other lines are plain text. *)
Theorem print_video_info_report probe video_path :
  (print_video_info probe video_path tt).2 = inr tt ∧
  ∃ body, report probe video_path = Text (header video_path) :: body ∧
    ((∃ mid d, body = mid ++ [Text ("Duration: " +:+ format_2f d +:+ " seconds")] ∧
               Forall is_text mid) ∨
     (∃ mid e, body = mid ++ [ErrorLine e] ∧ Forall is_text mid)).
Proof.
  pose proof (report_body_text (probe video_path) tt) as Ht.
  unfold report, print_video_info, say.
  rewrite (pym_bind_ok _ _ tt tt [Text (header video_path)] tt) by done. rewrite py_try_print.
  destruct (report_body (probe video_path) tt) as [[s1 o1] [e|[]]] eqn:Hb; simpl in *.
  - split; [done|]. eexists; split; [done|]. right. by exists o1, e.
  - split; [done|]. eexists; split; [done|]. left.
    destruct (report_body_ends (probe video_path) _ _ _ _ Hb) as (mid & x & -> & d & ->).
    exists mid, d. split; [done|]. by apply Forall_app in Ht as [? _].
Qed.

(** C32: a video stream of the ffprobe report whose [r_frame_rate] is
    ["N/D"] with [D > 0] prints its five lines (codec, resolution, FPS,
    pixel format, each field as [str] or "None" when missing), and the
    FPS shown reads back as a number of hundredths within half a
    hundredth of [N / D]. *)
Theorem video_stream_report kvs n d :
  field kvs "codec_type" = Some (JStr "video") →
  field kvs "r_frame_rate" = Some (JStr (py_str_int n +:+ "/" +:+ py_str_int d)) →
  (0 <= n)%Z → (0 < d)%Z →
  stream_report (JObj kvs) tt =
    (tt, [Text "VIDEO:"; Text ("  Codec: " +:+ fmt (field kvs "codec_name"));
          Text ("  Resolution: " +:+ fmt (field kvs "width") +:+ "x" +:+ fmt (field kvs "height"));
          Text ("  FPS: " +:+ format_2f (n # Z.to_pos d));
          Text ("  Pixel format: " +:+ fmt (field kvs "pix_fmt"))], inr tt) ∧
  ∃ k, read_2f (format_2f (n # Z.to_pos d)) = Some k ∧
       Qabs ((k # 100) - (n # Z.to_pos d)) <= 1 # 200.
Proof.
  intros Hct Hr Hn Hd. split; [|apply format_2f_near].
  unfold stream_report, get, say, py_get1. rewrite Hct, Hr.
  unfold mbind, pym_bind, py_lift, py_print, mret, pym_ret. cbn -[py_eval_rate format_2f fmt].
  rewrite py_eval_rate_str by done. reflexivity.
Qed.

(** ** Examples *)

(** A file whose first video stream has the unknown rate "0/0", followed
    by an audio stream. *)
Definition cover_art_probe (p : string) : probe_run :=
  ProbeOutput (Some (JObj [
    ("streams", JArr [
       JObj [("codec_type", JStr "video"); ("codec_name", JStr "mjpeg");
             ("width", JInt 600); ("height", JInt 600); ("r_frame_rate", JStr "0/0");
             ("pix_fmt", JStr "yuvj420p")];
       JObj [("codec_type", JStr "audio"); ("codec_name", JStr "aac");
             ("sample_rate", JStr "48000"); ("channels", JInt 2)]]);
    ("format", JObj [("duration", JStr "902.530000")])])).

(** The report stops at the FPS line with [ZeroDivisionError]: the audio
    stream and the duration are never printed. *)
Lemma print_video_info_report_witness :
  (print_video_info cover_art_probe "a.mp3" tt).2 = inr tt ∧
  report cover_art_probe "a.mp3" =
    [Text (header "a.mp3"); Text "VIDEO:"; Text "  Codec: mjpeg"; Text "  Resolution: 600x600";
     ErrorLine ZeroDivisionError].
Proof.
  split; [exact (proj1 (print_video_info_report cover_art_probe "a.mp3"))|].
  vm_compute. reflexivity.
Defined.

(** A 1080p stream at the NTSC rate 30000/1001 without [pix_fmt]. *)
Definition ntsc_stream : list (string * json) :=
  [("codec_type", JStr "video"); ("codec_name", JStr "h264"); ("width", JInt 1920);
   ("height", JInt 1080); ("r_frame_rate", JStr "30000/1001")].

Lemma video_stream_report_witness :
  stream_report (JObj ntsc_stream) tt =
    (tt, [Text "VIDEO:"; Text "  Codec: h264"; Text "  Resolution: 1920x1080";
          Text "  FPS: 29.97"; Text "  Pixel format: None"], inr tt).
Proof.
  refine (eq_trans (proj1 (video_stream_report ntsc_stream 30000 1001 eq_refl eq_refl _ _)) _);
    [lia|lia|vm_compute; reflexivity].
Defined.

End StreamInfo.
