(* ===== verification/SheetExport.v ===== *)
(** * The spreadsheet export: [excel_to_sheet] of module3.py (lines 299-324)

    The function reads an Excel file with pandas, opens a Google
    spreadsheet by title with a service account, takes its worksheet
    [idx], clears it, and writes the table from A1: the header row, then
    every row with the missing cells as [''] and every value as
    [str(v)].  It runs in the monad [PyM] of the prelude with the
    spreadsheets as its store: a worksheet is a finite map from
    (row, column) to the text of the cell.

    What the model takes from the libraries:
    - [pd.read_excel]: the cells openpyxl reads (empty, integer, text,
      boolean; fractional numbers and dates are outside the model),
      trailing empty rows dropped, every row padded to the widest one;
      an integer column with an empty cell has dtype float64, so its
      values print as [str(float(v))], "v.0" (exact for |v| <= 2^53,
      the values a sheet of counts and seconds holds); an empty header
      cell is named "Unnamed: j" and a repeated label "a" becomes "a.1",
      "a.2".
    - gspread: [open] fails with [SpreadsheetNotFound];
      [get_worksheet(idx)] indexes the worksheets as a Python list does
      (negative indices from the end) and gives [None] out of range, so
      [worksheet.clear()] raises [AttributeError]; [clear] empties the
      worksheet; [update("A1", data)] writes the cells of [data] from A1
      and may fail ([APIError]); the service-account login may fail
      ([FileNotFoundError] for the credentials file). *)

From S2P Require Import Prelude.

Local Open Scope string_scope.
Local Open Scope list_scope.

Module SheetExport.

(** A cell as openpyxl reads it. *)
Inductive xcell :=
  | XEmpty
  | XInt (z : Z)
  | XStr (s : string)
  | XBool (b : bool).

(** A worksheet: the text of every non-empty cell, by (row, column). *)
Notation grid := (gmap (nat * nat) string).

(** The spreadsheets of the account, by title, each its list of worksheets. *)
Notation store := (gmap string (list grid)).

Definition M := PyM store string.

(** ** pandas *)

Definition is_empty (c : xcell) : bool := match c with XEmpty => true | _ => false end.
Definition is_int (c : xcell) : bool := match c with XInt _ => true | _ => false end.

(** openpyxl's reader drops the trailing rows whose cells are all empty. *)
Fixpoint trim_rows (rows : list (list xcell)) : list (list xcell) :=
  match rows with
  | [] => []
  | r :: rs =>
      let rs' := trim_rows rs in
      if bool_decide (rs' = []) && forallb is_empty r then [] else r :: rs'
  end.

Definition width (rows : list (list xcell)) : nat := foldr (λ r w, length r `max` w) 0 rows.

Definition pad (n : nat) (r : list xcell) : list xcell := r ++ replicate (n - length r) XEmpty.

(** The column [j] of the data rows. *)
Definition column (rows : list (list xcell)) (j : nat) : list xcell :=
  map (λ r, default XEmpty (r !! j)) rows.

(** An integer column with a missing value has dtype float64. *)
Definition float_column (cs : list xcell) : bool :=
  existsb is_empty cs && existsb is_int cs && forallb (λ c, is_empty c || is_int c) cs.

(** [df.fillna('').astype(str)] on one cell of a column. *)
Definition cell_text (float_col : bool) (c : xcell) : string :=
  match c with
  | XEmpty => ""
  | XInt z => if float_col then py_str_int z +:+ ".0" else py_str_int z
  | XStr s => s
  | XBool b => if b then "True" else "False"
  end.

(** The column label pandas gives the header cell of column [j]. *)
Definition label (j : nat) (c : xcell) : string :=
  match c with
  | XEmpty => "Unnamed: " +:+ pretty j
  | XInt z => py_str_int z
  | XStr s => s
  | XBool b => if b then "True" else "False"
  end.

(** [[df.columns.tolist()] + df.fillna('').astype(str).values.tolist()]
    for the sheet read as [hdr :: rows]. *)
Definition sheet_data (sheet : list (list xcell)) : list (list string) :=
  match trim_rows sheet with
  | [] => []
  | hdr :: rows =>
      let n := width (hdr :: rows) in
      let rows' := map (pad n) rows in
      mangle (imap label (pad n hdr)) ::
      map (λ r, imap (λ j c, cell_text (float_column (column rows' j)) c) r) rows'
  end.

(** ** gspread *)

(** [worksheet.update("A1", data)]: row [i] of [data] goes to row [i]. *)
Fixpoint write_row (i j : nat) (row : list string) (g : grid) : grid :=
  match row with
  | [] => g
  | v :: r => <[(i, j) := v]> (write_row i (S j) r g)
  end.

Fixpoint write_rows (i : nat) (data : list (list string)) (g : grid) : grid :=
  match data with
  | [] => g
  | row :: d => write_row i 0 row (write_rows (S i) d g)
  end.

(** [sheets[idx]] of a Python list of [n] items. *)
Definition py_index (n : nat) (idx : Z) : option nat :=
  if bool_decide (0 <= idx < Z.of_nat n)%Z then Some (Z.to_nat idx)
  else if bool_decide (- Z.of_nat n <= idx < 0)%Z then Some (Z.to_nat (Z.of_nat n + idx))
  else None.

Section Export.
(** The Excel files ([None]: no such file), whether the service-account
    login succeeds, and whether an update of these cells succeeds. *)
Context (excel : string → option (list (list xcell))) (creds_ok : bool)
        (update_ok : list (list string) → bool).

(** [gc.open(sheet_file).get_worksheet(idx)]: the worksheets and the
    position. *)
Definition open_worksheet (sheet_file : string) (idx : Z) : M (list grid * nat) :=
  λ st, match st !! sheet_file with
        | None => (st, [], inl SpreadsheetNotFound)
        | Some wss =>
            match py_index (length wss) idx with
            | Some k => (st, [], inr (wss, k))
            | None => (st, [], inl AttributeError)
            end
        end.

(** A change of worksheet [k] of the spreadsheet. *)
Definition modify_worksheet (sheet_file : string) (k : nat) (f : grid → grid) : M unit :=
  py_modify (alter (alter f k) sheet_file).

Definition excel_to_sheet (excel_file sheet_file : string) (idx : Z) : M unit :=
  df ← py_lift (match excel excel_file with Some t => inr t | None => inl FileNotFoundError end);
  (if creds_ok then mret tt else py_raise FileNotFoundError) ;;
  '(_, k) ← open_worksheet sheet_file idx;
  modify_worksheet sheet_file k (λ _, ∅) ;;
  let data := sheet_data df in
  (if update_ok data then modify_worksheet sheet_file k (write_rows 0 data)
   else py_raise APIError) ;;
  py_print "Đã ghi toàn bộ nội dung Excel vào Google Sheet!".

End Export.

(** Worksheet [k] of spreadsheet [sf] in the store. *)
Definition worksheet (st : store) (sf : string) (k : nat) : option grid := st !! sf ≫= (λ wss, wss !! k).

(** ** Lemmas *)

Lemma write_row_lookup i j0 row g i' j :
  write_row i j0 row g !! (i', j) =
    if decide (i' = i ∧ (j0 ≤ j)%nat)
    then match row !! (j - j0) with Some v => Some v | None => g !! (i', j) end
    else g !! (i', j).
Proof.
  revert j0. induction row as [|v row IH]; intros j0; cbn [write_row].
  { case_decide; [by destruct (j - j0)|done]. }
  rewrite lookup_insert, IH. destruct (decide ((i, j0) = (i', j))) as [Heq|Hne].
  - injection Heq as <- <-. rewrite decide_True by lia. by rewrite Nat.sub_diag.
  - destruct (decide (i' = i ∧ (S j0 ≤ j)%nat)) as [[-> Hj]|Hn].
    + rewrite decide_True by lia. by replace (j - j0) with (S (j - S j0)) by lia.
    + destruct (decide (i' = i ∧ (j0 ≤ j)%nat)) as [[-> Hj]|]; [|done].
      assert (j = j0) as -> by (destruct (decide (j = j0)); [done|naive_solver lia]). congruence.
Qed.

Lemma write_rows_lookup i0 data g i j :
  write_rows i0 data g !! (i, j) =
    match (if decide (i0 ≤ i)%nat then data !! (i - i0) else None) ≫= (λ row, row !! j) with
    | Some v => Some v
    | None => g !! (i, j)
    end.
Proof.
  revert i0. induction data as [|row data IH]; intros i0; cbn [write_rows].
  { case_decide; [by destruct (i - i0)|done]. }
  rewrite write_row_lookup, IH. destruct (decide (i = i0)) as [->|Hne].
  - rewrite decide_True by lia. rewrite decide_False by lia. rewrite decide_True by lia.
    rewrite Nat.sub_0_r, Nat.sub_diag. done.
  - rewrite decide_False by lia. destruct (decide (S i0 ≤ i)%nat).
    + rewrite decide_True by lia. by replace (i - i0) with (S (i - S i0)) by lia.
    + rewrite decide_False by lia. done.
Qed.

(** Writing [data] into an empty worksheet gives exactly its cells. *)
Lemma write_rows_empty data i j : write_rows 0 data ∅ !! (i, j) = data !! i ≫= (λ row, row !! j).
Proof.
  rewrite write_rows_lookup. rewrite decide_True by lia. rewrite Nat.sub_0_r.
  by destruct (data !! i ≫= (λ row, row !! j)).
Qed.

Lemma worksheet_modify st sf k f sf' k' :
  worksheet (alter (alter f k) sf st) sf' k' =
    if decide ((sf', k') = (sf, k)) then f <$> worksheet st sf k else worksheet st sf' k'.
Proof.
  unfold worksheet. rewrite lookup_alter. destruct (decide (sf = sf')) as [<-|Hsf].
  - destruct (st !! sf) as [wss|]; simpl; [|by case_decide].
    rewrite list_lookup_alter. repeat case_decide; simplify_eq; done.
  - rewrite decide_False by congruence. done.
Qed.

Lemma py_index_lt n idx k : py_index n idx = Some k → (k < n)%nat.
Proof. unfold py_index. repeat case_bool_decide; intros; simplify_eq; lia. Qed.

Section Run.
Context (excel : string → option (list (list xcell))) (creds_ok : bool)
        (update_ok : list (list string) → bool).
Context (excel_file sf : string) (idx : Z) (st : store).

Lemma excel_to_sheet_run t wss k :
  excel excel_file = Some t → creds_ok = true → st !! sf = Some wss →
  py_index (length wss) idx = Some k →
  excel_to_sheet excel creds_ok update_ok excel_file sf idx st =
    if update_ok (sheet_data t)
    then (alter (alter (write_rows 0 (sheet_data t)) k) sf (alter (alter (λ _, ∅) k) sf st),
          ["Đã ghi toàn bộ nội dung Excel vào Google Sheet!"], inr tt)
    else (alter (alter (λ _, ∅) k) sf st, [], inl APIError).
Proof.
  intros He Hc Hst Hk.
  unfold excel_to_sheet, open_worksheet, modify_worksheet, mbind, pym_bind, py_lift, py_modify,
    py_print, mret, pym_ret, py_raise.
  rewrite He, Hc. simpl. rewrite Hst, Hk. simpl. by destruct (update_ok _).
Qed.

(** ** Theorems *)

Definition done_message : string := "Đã ghi toàn bộ nội dung Excel vào Google Sheet!".

(** C30: [excel_to_sheet] on every path.  When the file, the login, the
    spreadsheet and the worksheet are there, no other worksheet changes,
    and either the update succeeds, the worksheet then holding exactly
    the header and the rows as text from A1 and the success line is
    printed, or it fails with [APIError] and the worksheet is left
    cleared.  A missing file, a failed login, a missing spreadsheet or a
    worksheet index out of range raises before anything changes. *)
Theorem excel_to_sheet_spec :
  (∀ t wss k, excel excel_file = Some t → creds_ok = true → st !! sf = Some wss →
     py_index (length wss) idx = Some k →
     let '(st', out, r) := excel_to_sheet excel creds_ok update_ok excel_file sf idx st in
     (∀ sf' k', (sf', k') ≠ (sf, k) → worksheet st' sf' k' = worksheet st sf' k') ∧
     if update_ok (sheet_data t)
     then r = inr tt ∧ out = [done_message] ∧
          ∃ g, worksheet st' sf k = Some g ∧
               ∀ i j, g !! (i, j) = sheet_data t !! i ≫= (λ row, row !! j)
     else r = inl APIError ∧ out = [] ∧ worksheet st' sf k = Some ∅) ∧
  ((excel excel_file = None ∨ creds_ok = false ∨
    ∀ wss, st !! sf = Some wss → py_index (length wss) idx = None) →
   ∃ err, excel_to_sheet excel creds_ok update_ok excel_file sf idx st = (st, [], inl err)).
Proof.
  split.
  - intros t wss k He Hc Hst Hk. rewrite (excel_to_sheet_run t wss k He Hc Hst Hk).
    assert (worksheet st sf k = Some (default ∅ (wss !! k))) as Hw.
    { unfold worksheet. rewrite Hst. simpl.
      destruct (lookup_lt_is_Some_2 wss k) as [w ->]; [by eapply py_index_lt|done]. }
    destruct (update_ok _).
    + split.
      * intros sf' k' Hne. rewrite !worksheet_modify, !decide_False by done. done.
      * split_and!; [done|done|]. eexists. rewrite !worksheet_modify, !decide_True, Hw by done.
        split; [done|]. intros i j. apply write_rows_empty.
    + split.
      * intros sf' k' Hne. rewrite worksheet_modify, decide_False by done. done.
      * split_and!; [done|done|]. by rewrite worksheet_modify, decide_True, Hw.
  - intros Herr. unfold excel_to_sheet, open_worksheet, mbind, pym_bind, py_lift, mret, pym_ret,
      py_raise.
    destruct (excel excel_file) as [t|]; [|by eexists]. destruct creds_ok; [|by eexists].
    destruct Herr as [?|[?|Hidx]]; try done. simpl.
    destruct (st !! sf) as [wss|] eqn:Hst; [|by eexists]. rewrite (Hidx wss eq_refl). by eexists.
Qed.

End Run.

(** ** Examples *)

(** A catalogue sheet whose last column has an empty cell. *)
Definition demo_sheet : list (list xcell) :=
  [[XStr "stt"; XStr "file_path"; XStr "lastest_used_value"];
   [XInt 1; XStr "a.mp4"; XInt 120];
   [XInt 2; XStr "b.mp4"; XEmpty];
   [XEmpty; XEmpty; XEmpty]].

Definition demo_excel (p : string) : option (list (list xcell)) :=
  if String.eqb p "data.xlsx" then Some demo_sheet else None.

Definition demo_store : store := {[ "catalogue" := [∅] ]}.

(** The export writes 120 as "120.0" (the column has dtype float64
    because of the empty cell) and drops the trailing empty row. *)
Lemma excel_to_sheet_spec_witness :
  sheet_data demo_sheet =
    [["stt"; "file_path"; "lastest_used_value"]; ["1"; "a.mp4"; "120.0"]; ["2"; "b.mp4"; ""]] ∧
  (excel_to_sheet demo_excel true (λ _, true) "data.xlsx" "catalogue" 0 demo_store).1.2 =
    [done_message].
Proof.
  split; [vm_compute; reflexivity|].
  pose proof (proj1 (excel_to_sheet_spec demo_excel true (λ _, true) "data.xlsx" "catalogue" 0
                       demo_store) demo_sheet [∅] 0 eq_refl eq_refl ltac:(reflexivity)
                       ltac:(reflexivity)) as H.
  destruct (excel_to_sheet _ _ _ _ _ _ _) as [[st' out] r]. cbn beta iota in H.
  destruct H as [_ (_ & Hout & _)]. exact Hout.
Defined.

End SheetExport.
