(* ===== verification/Module4.v ===== *)
(** * module4.py, the helper module of the folder-based scripts

    module4.py defines [find_first_vid] (modelled in [FolderLookup]) and
    six functions whose bodies are, line for line, the bodies of the
    functions of the same name in module3.py:
    - [get_video_duration] (lines 12-25);
    - [normalize_video] (lines 60-119);
    - [concat_video] (lines 122-137);
    - [auto_concat] (lines 140-158);
    - [print_video_info] (lines 161-189);
    - [excel_to_sheet] (lines 192-217).

    The two files differ only in their imports and in the functions that
    each has alone.  A function calls the functions of its own file:
    module4.py's [auto_concat] calls module4.py's [normalize_video] (in
    its jobs) and [concat_video], and its [find_first_vid] calls its
    [get_video_duration].  So each function of module4.py has the model
    of its module3.py twin, and the module [Module4] names these models
    after module4.py's functions.

    [auto_concat] is given here as what a caller sees: the relation
    between the arguments and the outcomes of the runs of the pool that
    finish.  The theorem [auto_concat_outcome] shows that this relation
    is a total function, the sequential reference [auto_concat_ref].
    So a script that imports module4.py can treat its [auto_concat] as
    that function. *)

From S2P Require Import Prelude Host Probe Normalize Pipeline StreamInfo SheetExport.

Local Open Scope string_scope.
Local Open Scope list_scope.
Import Normalize Pipeline.

Module Module4.

(** [get_video_duration(file_path)] (lines 12-25). *)
Definition get_video_duration `{Host} (file_path : string) : string :=
  Probe.get_video_duration file_path.

(** [normalize_video(input_path, output_path, ...)] (lines 60-119): the
    command that ran, or the exception. *)
Definition normalize_video `{Host} (a : norm_args) : norm_error + list string :=
  Normalize.normalize_video a.

(** [concat_video(video_paths, output_path)] (lines 122-137) on the file
    system [fs]. *)
Definition concat_video `{Host} (video_paths : list string) (output_path : string) (fs : fsys)
    : option pipeline_error * fsys :=
  Pipeline.concat_video video_paths output_path fs.

(** [auto_concat(input_videos, output_path)] (lines 140-158) from the
    file system [fs0]: [r] is the exception it raises ([None]: it
    returns) and [fs] the file system it leaves, for some interleaving of
    the six workers and the main thread that runs to the end. *)
Definition auto_concat `{Host} (input_videos : list pyval) (output_path : string) (fs0 : fsys)
    (r : option pipeline_error) (fs : fsys) : Prop :=
  ∃ s, rtc (pstep input_videos output_path) (pinit input_videos fs0) s ∧
       ps_main s = Finished r ∧ ps_fs s = fs.

(** [print_video_info(video_path)] (lines 161-189). *)
Definition print_video_info (probe : string → StreamInfo.probe_run) (video_path : string)
    : StreamInfo.M unit :=
  StreamInfo.print_video_info probe video_path.

(** [excel_to_sheet(excel_file, sheet_file, idx)] (lines 192-217). *)
Definition excel_to_sheet (excel : string → option (list (list SheetExport.xcell)))
    (creds_ok : bool) (update_ok : list (list string) → bool)
    (excel_file sheet_file : string) (idx : Z) : SheetExport.M unit :=
  SheetExport.excel_to_sheet excel creds_ok update_ok excel_file sheet_file idx.

(** ** The outcome of [auto_concat] *)

Section Outcome.
Context `{Host} (input_videos : list pyval) (output_path : string) (fs0 : fsys).

(** A run that has finished ends with the reference's outcome. *)
Lemma finished_run_ref s r :
  reachable input_videos output_path fs0 s → ps_main s = Finished r →
  (r, ps_fs s) = auto_concat_ref input_videos output_path fs0.
Proof.
  intros Hr Hm. destruct (reachable_inv _ _ _ _ Hr) as (_ & _ & _ & Hmi).
  unfold main_inv in Hmi. rewrite Hm in Hmi. by destruct Hmi.
Qed.

(** [auto_concat] has exactly one outcome: it raises [r] and leaves
    [fs] after some complete run if and only if [(r, fs)] is what the
    sequential reference computes.  So every complete run agrees, and
    one exists. *)
Lemma auto_concat_outcome r fs :
  auto_concat input_videos output_path fs0 r fs ↔
  (r, fs) = auto_concat_ref input_videos output_path fs0.
Proof.
  split.
  - intros (s & Hr & Hm & <-). by apply finished_run_ref.
  - intros Href. destruct (pool_reaches_final _ _ _ _ (pool_inv_init input_videos output_path fs0))
      as (s & r' & Hr & Hm).
    pose proof (finished_run_ref s r' Hr Hm) as Href'. rewrite <-Href in Href'.
    injection Href' as -> <-. by exists s.
Qed.

End Outcome.

End Module4.
