(* ===== verification/Catalogue.v ===== *)
(** * The catalogue file across its writers

    Three functions write the ledger CSV: [sync] of update_data.py
    (rebuild mode), the allocator of module3.py and the single-step
    allocator of test.py (append mode).  Each is proved here to write a
    file of the catalogue's shape ([Ledger.ledger_wf]: distinct columns
    that include [stt], [file_path], [duration] and
    [lastest_used_value]), whatever shape the file it read had, as
    long as pandas could read it. *)

From S2P Require Import Prelude Host Ledger Allocator Sync OldAllocator.

Local Open Scope string_scope.
Local Open Scope list_scope.
Import Ledger Allocator Sync OldAllocator.

Module Catalogue.

(** What a writer leaves: the file it read, or a well-formed ledger. *)
Definition kept_or_wf (f f' : option ledger) : Prop :=
  f' = f ∨ ∃ L, f' = Some L ∧ ledger_wf L.

Lemma kept_or_wf_file f f' : file_wf f → kept_or_wf f f' → file_wf f'.
Proof. intros Hf [->|(L & -> & HL)]; [done|by apply ledger_wf_file]. Qed.

Section Writers.
Context `{Host}.

Lemma alloc_step_shape f last_number all_files existing st i :
  file_wf f → kept_or_wf f (csv st) →
  kept_or_wf f (csv (alloc_step last_number all_files existing st i)).
Proof.
  intros Hf Hst. unfold alloc_step.
  destruct (find_match _ _); [case_bool_decide|]; simpl; try done.
  right. eexists; split; [done|]. apply append_row_wf. by eapply kept_or_wf_file.
Qed.

Lemma fold_alloc_shape f last_number all_files existing offs st :
  file_wf f → kept_or_wf f (csv st) →
  kept_or_wf f (csv (fold_left (alloc_step last_number all_files existing) offs st)).
Proof.
  revert st. induction offs as [|i offs IH]; intros st Hf Hst; [done|].
  simpl. apply IH; [done|]. by apply alloc_step_shape.
Qed.

End Writers.

(** ** Theorems *)

(** C29: every writer of the catalogue writes a file of the catalogue's
    shape: the rebuild always; the append of a row to any readable file
    (the file is cut down to the four columns when it has them all, the
    missing ones are added otherwise); and a call of either allocator
    leaves the file it read or writes such a ledger. *)
Theorem ledger_writers_shape `{Host} :
  (∀ cur folder, ledger_wf (sync cur folder).1) ∧
  (∀ f r, file_wf f → ledger_wf (append_row f r)) ∧
  (∀ batch_size f, file_wf f →
     kept_or_wf f (csv (check_and_add_next_spidey_videos batch_size f))) ∧
  (∀ f, file_wf f → kept_or_wf f (check_and_add_next_spidey_video f).1).
Proof.
  split_and!.
  - intros cur folder. split; [apply ledger_columns_NoDup|done].
  - apply append_row_wf.
  - intros batch_size f Hf. unfold check_and_add_next_spidey_videos.
    destruct (read_last_number f); [|by left]. by apply fold_alloc_shape; [|left].
  - intros f Hf. unfold check_and_add_next_spidey_video.
    destruct (read_last_number f); [|by left]. destruct (find_next_video _ _); [|by left].
    case_bool_decide; [by left|]. right. eexists; split; [done|]. by apply append_row_wf.
Qed.

Lemma ledger_writers_shape_witness :
  let f := Some (mk_ledger ["file_path"; "note"] []) in
  file_wf f ∧ ledger_wf (append_row f (mk_row (Some 1%Z) (Some "a.mp4") None None)) ∧
  columns (append_row f (mk_row (Some 1%Z) (Some "a.mp4") None None)) =
    ["file_path"; "note"; "stt"; "duration"; "lastest_used_value"].
Proof.
  assert (file_wf (Some (mk_ledger ["file_path"; "note"] []))) as Hf.
  { apply (bool_decide_unpack _). by vm_compute. }
  split_and!; [exact Hf| |vm_compute; reflexivity].
  exact (proj1 (proj2 (@ledger_writers_shape (share [])))
           _ (mk_row (Some 1%Z) (Some "a.mp4") None None) Hf).
Defined.

End Catalogue.
